(** * prepHub: progress engine, quiz resume cache and mock-interview orchestrator

    A shallow embedding of the TypeScript sources

      - [services/firestoreService.ts]  (streak, badges, goals, history queries,
                                         timestamp conversion, revision tags)
      - [services/geminiService.ts]     (parsing of the generated responses)
      - [components/AptitudePrep.tsx]   (quiz handlers, scoring, local-storage
                                         snapshot, analysis of a result)
      - [components/MockInterview.tsx]  (three-round orchestrator, global timer)
      - [components/Dashboard.tsx]      (streak card, badges by tier)
      - [components/ReviewHub.tsx]      (the technical interview it contains)
      - [components/GroupDiscussion.tsx] (the voice-based discussion)

    JavaScript numbers are IEEE-754 doubles and are modelled by the kernel's
    primitive floats where the code computes with fractions; counters,
    indices and time values (milliseconds since the epoch) are integers.
    Asynchronous calls are modelled by passing their outcome as an argument. *)

From Stdlib Require Import ZArith Lia Floats Uint63.
From Stdlib Require Import Ascii DecimalString DecimalPos DecimalN.
From stdpp Require Import base option list sorting strings gmap.

Local Open Scope Z_scope.

(** ** The ECMAScript [Date] operations used by the services *)

Module JsDate.

(** A time value: milliseconds since 1970-01-01T00:00:00Z. *)
Definition msPerDay : Z := 86400000.

Definition Day (t : Z) : Z := t / msPerDay.
Definition TimeWithinDay (t : Z) : Z := t mod msPerDay.
Definition MakeDate (day time : Z) : Z := day * msPerDay + time.

(** Sunday is 0; the epoch was a Thursday. *)
Definition WeekDay (t : Z) : Z := (Day t + 4) mod 7.

(** The proleptic Gregorian calendar, by 400-year eras that start on the
    first of March. *)
Definition daysPerEra : Z := 146097.
Definition epochShift : Z := 719468.

Definition yearOfEra (doe : Z) : Z :=
  (doe - doe / 1460 + doe / 36524 - doe / 146096) / 365.
Definition dayOfYear (doe yoe : Z) : Z :=
  doe - (365 * yoe + yoe / 4 - yoe / 100).
Definition marchMonth (doy : Z) : Z := (5 * doy + 2) / 153.
Definition marchMonthStart (mp : Z) : Z := (153 * mp + 2) / 5.

(** Months are numbered as [getMonth] does: January is 0. *)
Definition monthOfMarch (mp : Z) : Z := if mp <? 10 then mp + 2 else mp - 10.
Definition marchOfMonth (m : Z) : Z := if 1 <? m then m - 2 else m + 10.
Definition janFeb (m : Z) : Z := if m <=? 1 then 1 else 0.

Record Civil := mkCivil { year : Z; month : Z; date : Z }.

Definition civilFromDays (z : Z) : Civil :=
  let s := z + epochShift in
  let era := s / daysPerEra in
  let doe := s mod daysPerEra in
  let yoe := yearOfEra doe in
  let doy := dayOfYear doe yoe in
  let mp := marchMonth doy in
  let m := monthOfMarch mp in
  {| year := yoe + era * 400 + janFeb m;
     month := m;
     date := doy - marchMonthStart mp + 1 |}.

Definition daysFromCivil (y m d : Z) : Z :=
  let y' := y - janFeb m in
  let era := y' / 400 in
  let yoe := y' mod 400 in
  let doy := marchMonthStart (marchOfMonth m) + d - 1 in
  let doe := yoe * 365 + yoe / 4 - yoe / 100 + doy in
  era * daysPerEra + doe - epochShift.

Definition YearFromTime (t : Z) : Z := year (civilFromDays (Day t)).
Definition MonthFromTime (t : Z) : Z := month (civilFromDays (Day t)).
Definition DateFromTime (t : Z) : Z := date (civilFromDays (Day t)).

(** [MakeDay]: the day number of the first of the month, plus [dt - 1]. *)
Definition MakeDay (y m dt : Z) : Z :=
  daysFromCivil (y + m / 12) (m mod 12) 1 + dt - 1.

(** The local time zone adjustment [LocalTZA(t, isUTC)], in milliseconds.
    For a time value [t] ([isUTC] true) it is the offset in effect at that
    instant; for a local time ([isUTC] false) it is the offset that local
    time is interpreted with (the offset before the transition, for a
    wall-clock time that a transition skips or repeats). A zone with
    daylight saving has different offsets at different instants. *)
Definition Zone := Z → bool → Z.

(** A zone whose offset never changes; [utc] is the one with offset 0. *)
Definition fixedZone (offset : Z) : Zone := λ _ _, offset.
Definition utc : Zone := fixedZone 0.

Section LocalTime.
Variable tza : Zone.

Definition LocalTime (t : Z) : Z := t + tza t true.
Definition UTC (t : Z) : Z := t - tza t false.

(** The local calendar day of a time value. *)
Definition localDay (t : Z) : Z := Day (LocalTime t).

Definition getDate (t : Z) : Z := DateFromTime (LocalTime t).
Definition getDay (t : Z) : Z := WeekDay (LocalTime t).

Definition setDate (t dt : Z) : Z :=
  let lt := LocalTime t in
  UTC (MakeDate (MakeDay (YearFromTime lt) (MonthFromTime lt) dt)
                (TimeWithinDay lt)).

(** [toDateString] prints the weekday, month, day of the month and year
    of the local time, as in "Thu Jan 01 1970"; the record holds the
    four components the string is printed from. *)
Record DateString := mkDateString
  { dsWeekDay : Z; dsMonth : Z; dsDate : Z; dsYear : Z }.

Definition toDateString (t : Z) : DateString :=
  let lt := LocalTime t in
  {| dsWeekDay := WeekDay lt;
     dsMonth := MonthFromTime lt;
     dsDate := DateFromTime lt;
     dsYear := YearFromTime lt |}.

(** The wall-clock time [tl] denotes an instant that reads, in local
    time, on the calendar day of [tl]. A wall-clock time that exists,
    once or twice, reads back as itself; one that a transition skips
    reads back later by the width of the gap, and fails this only when
    that carries it past midnight (or the zone skips a whole day). *)
Definition readsBackOnItsDay (tl : Z) : Prop :=
  Day (LocalTime (UTC tl)) = Day tl.

Definition dateStringEqb (a b : DateString) : bool :=
  (dsWeekDay a =? dsWeekDay b) && (dsMonth a =? dsMonth b)
  && (dsDate a =? dsDate b) && (dsYear a =? dsYear b).
End LocalTime.

(** *** A check of the year and day-of-year formulas, on machine integers

    The same two formulas as [yearOfEra] and [dayOfYear], computed on
    63-bit integers so that every day of an era can be evaluated. *)

Definition eraDayOk (doe : int) : bool :=
  let yoe := ((doe - doe / 1460 + doe / 36524 - doe / 146096) / 365)%uint63 in
  let doy := (doe - (365 * yoe + yoe / 4 - yoe / 100))%uint63 in
  (yoe <=? 399)%uint63 && (doy <=? 365)%uint63.

Fixpoint allFrom (n : nat) (doe : int) : bool :=
  match n with
  | O => true
  | S k => eraDayOk doe && allFrom k (doe + 1)%uint63
  end.
End JsDate.

(** ** JavaScript values shared by the services and the components *)

Module Js.

(** A non-negative integer as a JavaScript number (array lengths, counters). *)
Definition ofNat (n : nat) : float := PrimFloat.of_uint63 (Uint63.of_Z (Z.of_nat n)).

(** [a === b] and [a !== b] on numbers: IEEE equality, so NaN differs from
    itself and the two zeros are equal. *)
Definition strictEq (a b : float) : bool := PrimFloat.eqb a b.
Definition strictNe (a b : float) : bool := negb (PrimFloat.eqb a b).

(** An integer as a JavaScript number (exact below 2^53 in magnitude). *)
Definition ofZ (z : Z) : float :=
  if z <? 0 then (- PrimFloat.of_uint63 (Uint63.of_Z (- z)))%float
  else PrimFloat.of_uint63 (Uint63.of_Z z).

(** [x || 0] on a number that may be missing: 0, -0, NaN, [null] and
    [undefined] are falsy. *)
Definition numberOrZero (x : option float) : float :=
  match x with
  | Some v => if PrimFloat.eqb v 0 || PrimFloat.is_nan v then 0%float else v
  | None => 0%float
  end.

(** [a[i] = x] on an array whose elements may be holes ([None]): an index
    past the end extends the array. *)
Definition arraySet {A} (i : nat) (x : A) (a : list (option A)) : list (option A) :=
  if bool_decide (i < length a)%nat then <[i := Some x]> a
  else a ++ replicate (i - length a) None ++ [Some x].

(** What [JSON.parse (JSON.stringify x)] gives for a number: NaN and the
    infinities become [null], -0 becomes 0, every other number is read
    back unchanged. *)
Definition jsonNumber (x : option float) : option float :=
  match x with
  | Some v =>
      if PrimFloat.is_nan v || PrimFloat.is_infinity v then None
      else if PrimFloat.eqb v 0 then Some 0%float
      else Some v
  | None => None
  end.

(** A [Set<string>] keeps its elements in insertion order; [Array.from]
    returns them in that order. *)
Definition setAdd (x : string) (s : list string) : list string :=
  if decide (x ∈ s) then s else s ++ [x].

End Js.

(** ** services/firestoreService.ts *)

Module Firestore.

Import JsDate.

Inductive HistoryType :=
  | aptitude | hr | technical | profile_review | group_discussion | mock | review_hub.

#[global] Instance HistoryType_eq_dec : EqDecision HistoryType.
Proof. solve_decision. Defined.

(** [scoreRating?: string | number]. *)
Inductive ScoreRating :=
  | ScoreAbsent
  | ScoreString (s : string)
  | ScoreNumber (x : float).

(** The properties of [dataReference] that the service reads through
    [(h.dataReference as any)]; a property the variant lacks is [None]. *)
Record DataReference := mkDataReference
  { quizType : option string;
    topic : option string;
    questionsAnswered : option Z }.

(** A history document; [summary], [sessionId] and [durationSeconds] are
    never read by the service and are left out. *)
Record InterviewHistory := mkInterviewHistory
  { id : string;
    userId : string;
    type : HistoryType;
    timestamp : option Z;
    scoreRating : ScoreRating;
    dataReference : DataReference }.

Definition QUANTITATIVE : string := "Quantitative Aptitude".
Definition LOGICAL_REASONING : string := "Logical Reasoning".
Definition VERBAL_ABILITY : string := "Verbal Ability".
Definition DATA_INTERPRETATION : string := "Data Interpretation".

(** *** Badge rules *)

(** [typeof h.scoreRating === 'number' && h.scoreRating > bound]. *)
Definition scoreAbove (bound : float) (h : InterviewHistory) : bool :=
  match scoreRating h with
  | ScoreNumber x => PrimFloat.ltb bound x
  | _ => false
  end.

(** [typeof h.scoreRating === 'number' && h.scoreRating === 100 &&
    (h.dataReference as any).questionsAnswered >= 10]. *)
Definition perfectScore (h : InterviewHistory) : bool :=
  match scoreRating h with
  | ScoreNumber x =>
      Js.strictEq x 100
      && match questionsAnswered (dataReference h) with
         | Some n => 10 <=? n
         | None => false
         end
  | _ => false
  end.

Definition topicIs (t : string) (h : InterviewHistory) : bool :=
  bool_decide (topic (dataReference h) = Some t).

Definition countType (t : HistoryType) (history : list InterviewHistory) : nat :=
  length (filter (λ item, type item = t) history).

Section Clock.
(** The local time zone adjustment of the browser. *)
Variable tza : Zone.

(** The weekend rule: today is a Saturday or a Sunday and the first
    record of the history carries today's date. [now] is the instant
    at which the evaluator reads the clock (its two [new Date()] run
    back to back). *)
Definition weekendWarrior (now : Z) (history : list InterviewHistory) : bool :=
  let today := getDay tza now in
  if bool_decide (0 < length history)%nat && ((today =? 0) || (today =? 6)) then
    match history !! 0%nat with
    | Some h0 =>
        match timestamp h0 with
        | Some lastActivityDate =>
            dateStringEqb (toDateString tza lastActivityDate) (toDateString tza now)
        | None => false
        end
    | None => false
    end
  else false.

(** The rules in the order [checkAllBadges] tests them: the badge
    identifier and whether its condition holds. *)
Definition badgeRules (now : Z) (history : list InterviewHistory)
    (streak : Z) (revisionCount : nat) : list (string * bool) :=
  let aptitudeHistory := filter (λ item, type item = aptitude) history in
  let diagnosticTests :=
    filter (λ h, quizType (dataReference h) = Some "Diagnostic") aptitudeHistory in
  let allModuleTypes := type <$> history in
  [ ("streak-7", 7 <=? streak);
    ("streak-30", 30 <=? streak);
    ("weekend-warrior", weekendWarrior now history);
    ("apti-10", bool_decide (10 ≤ length aptitudeHistory)%nat);
    ("apti-50", bool_decide (50 ≤ length aptitudeHistory)%nat);
    ("apti-perfect", existsb perfectScore aptitudeHistory);
    ("quant-master",
      existsb (λ h, topicIs QUANTITATIVE h && scoreAbove 90 h) aptitudeHistory);
    ("logical-master",
      existsb (λ h, topicIs LOGICAL_REASONING h && scoreAbove 90 h) aptitudeHistory);
    ("verbal-master",
      existsb (λ h, topicIs VERBAL_ABILITY h && scoreAbove 90 h) aptitudeHistory);
    ("di-detective",
      existsb (λ h, topicIs DATA_INTERPRETATION h && scoreAbove 90 h) aptitudeHistory);
    ("diagnostic-complete", bool_decide (0 < length diagnosticTests)%nat);
    ("diagnostic-high-potential", existsb (scoreAbove 75) diagnosticTests);
    ("tech-5", bool_decide (5 ≤ countType technical history)%nat);
    ("hr-5", bool_decide (5 ≤ countType hr history)%nat);
    ("gd-5", bool_decide (5 ≤ countType group_discussion history)%nat);
    ("mock-star", bool_decide (3 ≤ countType mock history)%nat);
    ("profile-auditor",
      existsb (λ item, bool_decide (type item = profile_review)) history);
    ("revisionist", bool_decide (10 ≤ revisionCount)%nat);
    ("well-rounded",
      forallb (λ t, bool_decide (t ∈ allModuleTypes))
              [aptitude; technical; hr; group_discussion; profile_review]) ].

(** [if (condition) earnedBadgeIds.add(id)], rule after rule, then
    [Array.from(earnedBadgeIds)]. *)
Definition checkAllBadges (now : Z) (history : list InterviewHistory)
    (streak : Z) (revisionCount : nat) : list string :=
  fold_left (λ (earnedBadgeIds : list string) (rule : string * bool),
               if rule.2 then Js.setAdd rule.1 earnedBadgeIds else earnedBadgeIds)
            (badgeRules now history streak revisionCount) [].
End Clock.

(** *** Documents and collections *)

(** A [users/{uid}] document: a field the document lacks is [None]. *)
Module Profile.
Record t := mk
  { userId : option string;
    streak : option Z;
    lastActivityDate : option Z }.
End Profile.

(** A [userGoals/{id}] document. Stored goals carry no [id] field; the
    readers add the document identifier. *)
Module Goal.
Record t := mk
  { id : option string;
    userId : string;
    topic : string;
    targetAccuracy : float;
    initialAccuracy : float;
    currentAccuracy : float;
    startDate : Z;
    endDate : Z;
    isActive : bool }.

Definition withId (i : option string) (g : t) : t :=
  mk i (userId g) (topic g) (targetAccuracy g) (initialAccuracy g)
     (currentAccuracy g) (startDate g) (endDate g) (isActive g).
Definition withCurrentAccuracy (a : float) (g : t) : t :=
  mk (id g) (userId g) (topic g) (targetAccuracy g) (initialAccuracy g)
     a (startDate g) (endDate g) (isActive g).
Definition withIsActive (b : bool) (g : t) : t :=
  mk (id g) (userId g) (topic g) (targetAccuracy g) (initialAccuracy g)
     (currentAccuracy g) (startDate g) (endDate g) b.
End Goal.

(** A [users/{uid}/revisionQuestions/{id}] document, without the embedded
    quiz question, which the service never inspects. *)
Module Revision.
Record t := mk
  { userId : string;
    quizTopic : string;
    timestamp : option Z }.
End Revision.

Inductive Tier := Bronze | Silver | Gold.

Module Badge.
Record t := mk
  { id : string;
    name : string;
    description : string;
    icon : string;
    tier : Tier;
    earned : bool;
    earnedAt : option Z }.
End Badge.

(** The static catalogue; [earned] and [earnedAt] are filled in when a
    badge is written. *)
Definition badgeDef (i n d ic : string) (t : Tier) : Badge.t :=
  Badge.mk i n d ic t false None.

Definition allBadges : list Badge.t :=
  [ badgeDef "streak-7" "Consistent Learner" "Maintain a 7-day practice streak." "Flame" Bronze;
    badgeDef "streak-30" "Dedicated Scholar" "Maintain a 30-day practice streak." "Flame" Silver;
    badgeDef "weekend-warrior" "Weekend Warrior" "Complete a practice session on a weekend." "Calendar" Bronze;
    badgeDef "apti-10" "Aptitude Explorer" "Complete 10 aptitude quizzes." "Calculator" Bronze;
    badgeDef "apti-50" "Aptitude Veteran" "Complete 50 aptitude quizzes." "Calculator" Silver;
    badgeDef "apti-perfect" "Perfectionist" "Score 100% on an aptitude quiz with at least 10 questions." "Target" Gold;
    badgeDef "quant-master" "Quant Master" "Score >90% in a Quantitative Aptitude quiz." "Chart" Silver;
    badgeDef "logical-master" "Logic Wizard" "Score >90% in a Logical Reasoning quiz." "Brain" Silver;
    badgeDef "verbal-master" "Verbal Virtuoso" "Score >90% in a Verbal Ability quiz." "Book" Silver;
    badgeDef "di-detective" "Data Detective" "Score over 90% in a Data Interpretation quiz." "Chart" Silver;
    badgeDef "diagnostic-complete" "Self-Aware" "Complete your first diagnostic test." "Target" Bronze;
    badgeDef "diagnostic-high-potential" "High Potential" "Score over 75% on a diagnostic test." "Target" Silver;
    badgeDef "tech-5" "Techie" "Complete 5 technical interview sessions." "Code" Bronze;
    badgeDef "hr-5" "Communicator" "Complete 5 HR interview sessions." "Users" Bronze;
    badgeDef "gd-5" "Debater" "Participate in 5 group discussions." "Chat" Bronze;
    badgeDef "mock-star" "Mock Star" "Complete 3 full mock interviews." "Briefcase" Silver;
    badgeDef "profile-auditor" "Auditor" "Get your profile reviewed for the first time." "Document" Bronze;
    badgeDef "revisionist" "Revisionist" "Add 10 or more questions to your Review Hub." "Bookmark" Bronze;
    badgeDef "well-rounded" "Well-Rounded" "Try every prep module at least once." "Globe" Gold ].

(** The database: the [users] collection, the three sub-collections of
    each user keyed by the user identifier, and [userGoals]. A
    sub-collection is a list of documents; [badges] is keyed by badge
    identifier because the service chooses those document names. *)
Record Db := mkDb
  { users : gmap string Profile.t;
    interview_history : gmap string (list InterviewHistory);
    revisionQuestions : gmap string (list Revision.t);
    badges : gmap string (gmap string Badge.t);
    userGoals : gmap string Goal.t }.

Definition withUsers (u : gmap string Profile.t) (db : Db) : Db :=
  mkDb u (interview_history db) (revisionQuestions db) (badges db) (userGoals db).
Definition withHistory (h : gmap string (list InterviewHistory)) (db : Db) : Db :=
  mkDb (users db) h (revisionQuestions db) (badges db) (userGoals db).
Definition withBadges (b : gmap string (gmap string Badge.t)) (db : Db) : Db :=
  mkDb (users db) (interview_history db) (revisionQuestions db) b (userGoals db).
Definition withUserGoals (g : gmap string Goal.t) (db : Db) : Db :=
  mkDb (users db) (interview_history db) (revisionQuestions db) (badges db) g.

(** *** Queries *)

(** [orderBy('timestamp', 'desc')]: documents without the field are not
    returned. Equal timestamps keep an order the claims do not depend on
    (Firestore breaks such ties by document name). *)
Definition newerOrEqual (a b : option Z) : Prop := default 0 b ≤ default 0 a.

#[global] Instance newerOrEqual_dec a b : Decision (newerOrEqual a b).
Proof. unfold newerOrEqual. apply _. Defined.

Definition orderByTimestampDesc {A} (ts : A → option Z) (docs : list A) : list A :=
  merge_sort (λ a b, newerOrEqual (ts a) (ts b))
             (filter (λ d, is_Some (ts d)) docs).

Definition historyOf (db : Db) (uid : string) : list InterviewHistory :=
  default [] (interview_history db !! uid).

Definition getInterviewHistory (db : Db) (uid : string) : list InterviewHistory :=
  take 100 (orderByTimestampDesc timestamp (historyOf db uid)).

Definition getRevisionQuestions (db : Db) (uid : string) : list Revision.t :=
  orderByTimestampDesc Revision.timestamp
    (filter (λ q, Revision.userId q = uid) (default [] (revisionQuestions db !! uid))).

(** *** User profile and streak *)

(** The instants one call observes: the browser's [new Date()] in the
    streak update and in the badge check, and the server's
    [serverTimestamp()] of each write. The two [new Date()] of the streak
    update run back to back and read the same instant. *)
Record Times := mkTimes
  { historyWritten : Z;
    today : Z;
    profileWritten : Z;
    badgesChecked : Z;
    badgesWritten : Z }.

(** [x || 0] on a possibly missing number. *)
Definition orZero (x : option Z) : Z :=
  match x with
  | Some n => if n =? 0 then 0 else n
  | None => 0
  end.

(** [setDoc(ref, { streak, lastActivityDate }, { merge: true })]. *)
Definition mergeStreak (s : option Z) (d : Z) (doc : option Profile.t) : Profile.t :=
  match doc with
  | Some p => Profile.mk (Profile.userId p) s (Some d)
  | None => Profile.mk None s (Some d)
  end.

Section Service.
Variable tza : Zone.

(** The first half of [updateUserStreakAndBadges]: the profile the call
    goes on with, and the database after the writes. *)
Definition updateUserStreak (clk : Times) (userId : string) (db : Db)
    : Profile.t * Db :=
  let profileSnap := users db !! userId in
  let profile :=
    match profileSnap with
    | Some data => data
    | None => Profile.mk (Some userId) (Some 0) None
    end in
  let db :=
    match profileSnap with
    | Some _ => db
    | None => withUsers (<[userId := Profile.mk (Some userId) None None]> (users db)) db
    end in
  let today := today clk in
  let lastActivity := default 0 (Profile.lastActivityDate profile) in
  let isSameDay :=
    dateStringEqb (toDateString tza today) (toDateString tza lastActivity) in
  if negb isSameDay then
    let yesterday := setDate tza today (getDate tza today - 1) in
    let streak :=
      if dateStringEqb (toDateString tza lastActivity) (toDateString tza yesterday)
      then orZero (Profile.streak profile) + 1
      else 1 in
    let profile := Profile.mk (Profile.userId profile) (Some streak) (Some today) in
    (profile,
     withUsers (<[userId := mergeStreak (Some streak) (profileWritten clk)
                                        (users db !! userId)]> (users db)) db)
  else (profile, db).

(** The second half: every badge whose rule holds now is written,
    whether or not it was written before. *)
Definition writeBadges (at_ : Z) (newBadgeIds : list string)
    (stored : gmap string Badge.t) : gmap string Badge.t :=
  fold_left (λ (batch : gmap string Badge.t) (badgeId : string),
               match List.find (λ b, bool_decide (Badge.id b = badgeId)) allBadges with
               | Some badgeDef =>
                   <[badgeId := Badge.mk (Badge.id badgeDef) (Badge.name badgeDef)
                                  (Badge.description badgeDef) (Badge.icon badgeDef)
                                  (Badge.tier badgeDef) true (Some at_)]> batch
               | None => batch
               end)
            newBadgeIds stored.

Definition updateUserStreakAndBadges (clk : Times) (userId : string) (db : Db) : Db :=
  let '(profile, db) := updateUserStreak clk userId db in
  let allHistory := getInterviewHistory db userId in
  let revisionQuestions := getRevisionQuestions db userId in
  (* an undefined streak fails both [>=] tests, as 0 does *)
  let newBadgeIds :=
    checkAllBadges tza (badgesChecked clk) allHistory
                   (default 0 (Profile.streak profile)) (length revisionQuestions) in
  withBadges (<[userId := writeBadges (badgesWritten clk) newBadgeIds
                                      (default ∅ (badges db !! userId))]> (badges db)) db.

(** [historyData] is the record without [id], [userId] and [timestamp];
    [newId] is the identifier [addDoc] generates. *)
Definition saveInterviewHistory (clk : Times) (newId : string) (userId : string)
    (type : HistoryType) (scoreRating : ScoreRating) (dataReference : DataReference)
    (db : Db) : Db :=
  let docData :=
    mkInterviewHistory newId userId type (Some (historyWritten clk))
                       scoreRating dataReference in
  let db := withHistory (<[userId := historyOf db userId ++ [docData]]>
                           (interview_history db)) db in
  updateUserStreakAndBadges clk userId db.
End Service.

(** *** Goals *)

(** [(doc.data() as InterviewHistory).scoreRating as number]: the cast is
    sound for a stored number only; the model stops ([None]) at a record
    whose rating is a string or is missing. *)
Definition scoreAsNumber (h : InterviewHistory) : option float :=
  match scoreRating h with
  | ScoreNumber x => Some x
  | _ => None
  end.

Definition matchesTopic (t : string) (h : InterviewHistory) : Prop :=
  type h = aptitude ∧ topic (dataReference h) = Some t.

#[global] Instance matchesTopic_dec t h : Decision (matchesTopic t h).
Proof. unfold matchesTopic. apply _. Defined.

Definition average (scores : list float) : float :=
  (fold_left PrimFloat.add scores 0 / Js.ofNat (length scores))%float.

(** The inner [None] is the [null] returned for an empty snapshot. *)
Definition getAverageAccuracyForTopic (db : Db) (userId : string) (t : string)
    : option (option float) :=
  let snapshot :=
    take 5 (orderByTimestampDesc timestamp
              (filter (matchesTopic t) (historyOf db userId))) in
  match snapshot with
  | [] => Some None
  | _ => scores ← mapM scoreAsNumber snapshot; Some (Some (average scores))
  end.

Definition isActiveGoalOf (userId : string) (kv : string * Goal.t) : Prop :=
  Goal.userId kv.2 = userId ∧ Goal.isActive kv.2 = true.

#[global] Instance isActiveGoalOf_dec u kv : Decision (isActiveGoalOf u kv).
Proof. unfold isActiveGoalOf. apply _. Defined.

(** [limit(1)] takes the first match; Firestore orders by document name,
    the model by the map's own order, and the two agree whenever at most
    one goal matches. The refreshed accuracy is merged into the document
    named [goal.id]; if no such document exists Firestore would create one
    holding that single field, which no query of the service can see, and
    the model writes nothing. *)
Definition getActiveGoal (db : Db) (userId : string) : option (option Goal.t * Db) :=
  let snapshot := map_to_list (filter (isActiveGoalOf userId) (userGoals db)) in
  match head snapshot with
  | None => Some (None, db)
  | Some (docId, data) =>
      let goal := Goal.withId (Some (default docId (Goal.id data))) data in
      currentAccuracy ← getAverageAccuracyForTopic db userId (Goal.topic goal);
      match currentAccuracy with
      | Some a =>
          if Js.strictNe a (Goal.currentAccuracy goal) then
            let goal := Goal.withCurrentAccuracy a goal in
            Some (Some goal,
                  withUserGoals (alter (Goal.withCurrentAccuracy a)
                                       (default docId (Goal.id data)) (userGoals db)) db)
          else Some (Some goal, db)
      | None => Some (Some goal, db)
      end
  end.

(** [newId] is the identifier of [doc(collection(db, 'userGoals'))]; the
    batch commits its updates and the insertion together. *)
Definition setUserGoal (newId : string) (goal : Goal.t) (db : Db) : Db :=
  let snapshot := filter (isActiveGoalOf (Goal.userId goal)) (userGoals db) in
  let batch := (Goal.withIsActive false <$> snapshot) ∪ userGoals db in
  withUserGoals (<[newId := goal]> batch) db.
End Firestore.

(** ** components/AptitudePrep.tsx *)

Module AptitudePrep.

Record AptitudeQuestion := mkQuestion
  { question : string;
    options : list string;
    correctAnswer : string;
    explanation : string;
    subTopic : string }.

Inductive Difficulty := Easy | Medium | Hard | Mixed.
Inductive QuizType := Practice | Diagnostic.
Inductive Flow := loading | prompt | setup | active | results.

#[global] Instance Flow_eq_dec : EqDecision Flow.
Proof. solve_decision. Defined.

Definition difficultyName (d : Difficulty) : string :=
  match d with Easy => "Easy" | Medium => "Medium" | Hard => "Hard" | Mixed => "Mixed" end.
Definition quizTypeName (t : QuizType) : string :=
  match t with Practice => "Practice" | Diagnostic => "Diagnostic" end.

(** The snapshot kept in local storage. An answer is a string or [null];
    a per-question time is a number, or [null] after a round trip through
    JSON of a number JSON cannot print. *)
Module Saved.
Record t := mk
  { questions : list AptitudeQuestion;
    userAnswers : list (option string);
    currentQuestionIndex : nat;
    timeLeft : option Z;
    topic : string;
    selectedDifficulty : Difficulty;
    numQuestions : Z;
    timePerQuestion : list (option float) }.
End Saved.

(** The slot [aptitudeQuizInProgress]. Its text is represented by the
    value [JSON.parse] reads from it: strings, [null], integers and arrays
    are read back as written, other numbers as [Js.jsonNumber] says. *)
Definition LocalStorage := option Saved.t.

Definition stringify (q : Saved.t) : Saved.t :=
  Saved.mk (Saved.questions q) (Saved.userAnswers q) (Saved.currentQuestionIndex q)
           (Saved.timeLeft q) (Saved.topic q) (Saved.selectedDifficulty q)
           (Saved.numQuestions q) (Js.jsonNumber <$> Saved.timePerQuestion q).

Record AptitudeQuizResult := mkResult
  { score : float;
    total : nat;
    correctAnswers : nat;
    incorrectAnswers : Z;
    resultTopic : string;
    difficulty : Difficulty;
    resultQuizType : QuizType;
    resultQuestions : list AptitudeQuestion;
    resultUserAnswers : list (option string);
    resultTimePerQuestion : list (option float) }.

(** The component state the quiz handlers read and write; the loading
    flag, the error text, the sub-topic selection and the stop dialog are
    left out. *)
Record State := mkState
  { flow : Flow;
    selectedDifficulty : Difficulty;
    numQuestions : Z;
    savedQuizState : option Saved.t;
    questions : list AptitudeQuestion;
    currentQuestionIndex : nat;
    userAnswers : list (option string);
    timeLeft : option Z;
    timePerQuestion : list (option float);
    questionStartTime : Z;
    quizTopic : string;
    quizType : QuizType;
    result : option AptitudeQuizResult }.

(** The state of a freshly mounted component. *)
Definition initialState : State :=
  mkState loading Medium 5 None [] 0 [] None [] 0 "" Practice None.

(** [(Date.now() - questionStartTime) / 1000] added to the time of the
    current question. *)
Definition addTimeSpent (now : Z) (s : State) : list (option float) :=
  let timeSpent := (Js.ofZ (now - questionStartTime s) / 1000)%float in
  let newTimes := timePerQuestion s in
  Js.arraySet (currentQuestionIndex s)
              (Js.numberOrZero (mjoin (newTimes !! currentQuestionIndex s)) + timeSpent)%float
              newTimes.

(** Runs on [beforeunload] and when the component is torn down. *)
Definition saveQuizProgress (now : Z) (s : State) (storage : LocalStorage)
    : LocalStorage :=
  if bool_decide (flow s = active) && bool_decide (0 < length (questions s))%nat then
    let quizToSave :=
      Saved.mk (questions s) (userAnswers s) (currentQuestionIndex s) (timeLeft s)
               (quizTopic s) (selectedDifficulty s) (numQuestions s)
               (addTimeSpent now s) in
    Some (stringify quizToSave)
  else storage.

(** The effect that runs on mount. [hasCompleted] is the answer of
    [hasUserCompletedDiagnostic], [None] when that call fails. *)
Definition checkDiagnosticStatus (storage : LocalStorage) (hasCompleted : option bool)
    (s : State) : State :=
  match storage with
  | Some savedQuiz =>
      mkState setup (selectedDifficulty s) (numQuestions s) (Some savedQuiz)
              (questions s) (currentQuestionIndex s) (userAnswers s) (timeLeft s)
              (timePerQuestion s) (questionStartTime s) (quizTopic s) (quizType s)
              (result s)
  | None =>
      let next :=
        match hasCompleted with
        | Some true => setup
        | Some false => prompt
        | None => setup
        end in
      mkState next (selectedDifficulty s) (numQuestions s) (savedQuizState s)
              (questions s) (currentQuestionIndex s) (userAnswers s) (timeLeft s)
              (timePerQuestion s) (questionStartTime s) (quizTopic s) (quizType s)
              (result s)
  end.

Definition handleResumeQuiz (now : Z) (s : State) : State :=
  match savedQuizState s with
  | Some saved =>
      mkState active (Saved.selectedDifficulty saved) (Saved.numQuestions saved) None
              (Saved.questions saved) (Saved.currentQuestionIndex saved)
              (Saved.userAnswers saved) (Saved.timeLeft saved)
              (Saved.timePerQuestion saved) now (Saved.topic saved) (quizType s)
              (result s)
  | None => s
  end.

(** [questions.forEach((q, index) => { if (q.correctAnswer ===
    finalAnswers[index]) correct++ })]: a missing or [null] answer equals
    no string. *)
Fixpoint countCorrect (qs : list AptitudeQuestion) (finalAnswers : list (option string))
    (index correct : nat) : nat :=
  match qs with
  | [] => correct
  | q :: rest =>
      countCorrect rest finalAnswers (S index)
        (if bool_decide (finalAnswers !! index = Some (Some (correctAnswer q)))
         then S correct else correct)
  end.

Definition quizResultData (s : State) (finalAnswers : list (option string))
    (finalTimes : list (option float)) : AptitudeQuizResult :=
  let correct := countCorrect (questions s) finalAnswers 0 0 in
  {| score := (Js.ofNat correct / Js.ofNat (length (questions s)) * 100)%float;
     total := length (questions s);
     correctAnswers := correct;
     incorrectAnswers := Z.of_nat (length (questions s)) - Z.of_nat correct;
     resultTopic := quizTopic s;
     difficulty := selectedDifficulty s;
     resultQuizType := quizType s;
     resultQuestions := questions s;
     resultUserAnswers := finalAnswers;
     resultTimePerQuestion := finalTimes |}.

(** The history record [calculateResult] hands to [saveInterviewHistory]:
    type, score and data reference. *)
Definition historyData (r : AptitudeQuizResult)
    : Firestore.HistoryType * Firestore.ScoreRating * Firestore.DataReference :=
  (Firestore.aptitude, Firestore.ScoreNumber (score r),
   Firestore.mkDataReference (Some (quizTypeName (resultQuizType r)))
                             (Some (resultTopic r)) (Some (Z.of_nat (total r)))).

(** [calculateResult]: the snapshot is dropped, the result is shown, and
    the next difficulty follows the score. Saving the history record is
    the caller's next step; a failure there is logged and changes
    nothing here. *)
Definition calculateResult (finalAnswers : list (option string))
    (finalTimes : list (option float)) (s : State) : State * LocalStorage :=
  let r := quizResultData s finalAnswers finalTimes in
  let next :=
    if PrimFloat.ltb (score r) 40 then Easy
    else if PrimFloat.ltb 80 (score r) then Hard
    else Medium in
  (mkState (flow s) next (numQuestions s) None (questions s) (currentQuestionIndex s)
           (userAnswers s) (timeLeft s) (timePerQuestion s) (questionStartTime s)
           (quizTopic s) (quizType s) (Some r),
   None).

Definition recordTime (now : Z) (s : State) : State :=
  mkState (flow s) (selectedDifficulty s) (numQuestions s) (savedQuizState s)
          (questions s) (currentQuestionIndex s) (userAnswers s) (timeLeft s)
          (addTimeSpent now s) now (quizTopic s) (quizType s) (result s).

(** [handleNextQuestion]: the last question, or a forced submission when
    the timer runs out, ends the quiz. [calculateResult] receives the
    answers and times of the render that called the handler. *)
Definition handleNextQuestion (now : Z) (forceSubmit : bool) (s : State)
    (storage : LocalStorage) : State * LocalStorage :=
  let s1 := recordTime now s in
  if negb forceSubmit
     && bool_decide (Z.of_nat (currentQuestionIndex s) < Z.of_nat (length (questions s)) - 1)
  then
    (mkState (flow s1) (selectedDifficulty s1) (numQuestions s1) (savedQuizState s1)
             (questions s1) (S (currentQuestionIndex s)) (userAnswers s1) (timeLeft s1)
             (timePerQuestion s1) (questionStartTime s1) (quizTopic s1) (quizType s1)
             (result s1), storage)
  else
    let '(s2, storage2) := calculateResult (userAnswers s) (timePerQuestion s) s1 in
    (mkState results (selectedDifficulty s2) (numQuestions s2) (savedQuizState s2)
             (questions s2) (currentQuestionIndex s2) (userAnswers s2) (Some 0)
             (timePerQuestion s2) (questionStartTime s2) (quizTopic s2) (quizType s2)
             (result s2), storage2).
End AptitudePrep.

(** ** components/MockInterview.tsx *)

Module MockInterview.

Import AptitudePrep (AptitudeQuestion, correctAnswer, countCorrect).

Inductive Round := Aptitude | Technical | HR.

#[global] Instance Round_eq_dec : EqDecision Round.
Proof. solve_decision. Defined.

Definition roundName (r : Round) : string :=
  match r with Aptitude => "Aptitude" | Technical => "Technical" | HR => "HR" end.

Definition INTERVIEW_STRUCTURE : list Round := [Aptitude; Technical; HR].

Definition ROUND_QUESTION_COUNT (r : Round) : nat :=
  match r with Aptitude => 30 | Technical => 6 | HR => 6 end.

(** [MockInterviewRoundResult]: the score of the aptitude round, or one
    question of a technical or HR round with its answer and feedback (an
    index past the end of an array reads [undefined], here [None]). *)
Inductive MockInterviewRoundResult :=
  | AptitudeResult (score : float) (total : nat) (correctAnswers : nat)
  | AnswerResult (type : Round) (question : string) (answer : option string)
                 (feedback : option string).

Definition resultType (r : MockInterviewRoundResult) : Round :=
  match r with
  | AptitudeResult _ _ _ => Aptitude
  | AnswerResult t _ _ _ => t
  end.

Inductive Flow := setup | active | results.

#[global] Instance Flow_eq_dec : EqDecision Flow.
Proof. solve_decision. Defined.

(** The outcome of an awaited call: its value, or a rejection. *)
Inductive Outcome (A : Type) :=
  | Fulfilled (a : A)
  | Rejected.
Arguments Fulfilled {A} a.
Arguments Rejected {A}.

(** The promise held in [backgroundFetchPromise]: how the background
    fetch of the technical and HR questions ends, and whether it has
    ended yet. *)
Record BackgroundFetch := mkBackground
  { outcome : Outcome (list string * list string);
    settled : bool }.

Inductive DurationChoice := Minutes45 | Minutes60 | Minutes90.

Definition minutes (d : DurationChoice) : Z :=
  match d with Minutes45 => 45 | Minutes60 => 60 | Minutes90 => 90 end.

(** The component state; the role, the company tier and the stop dialog
    are left out. *)
Record State := mkState
  { flow : Flow;
    backgroundFetchPromise : option BackgroundFetch;
    duration : Z;
    timeLeft : Z;
    currentRoundIndex : nat;
    roundResults : list MockInterviewRoundResult;
    aptitudeQuestions : list AptitudeQuestion;
    aptitudeAnswers : list (option string);
    currentQuestionIndex : nat;
    technicalQuestions : list string;
    technicalAnswers : list (option string);
    hrQuestions : list string;
    hrAnswers : list (option string);
    isLoading : bool;
    loadingMessage : string;
    error : option string;
    finalResults : list MockInterviewRoundResult;
    overallFeedback : string }.

Definition initialState : State :=
  mkState setup None 60 0 0 [] [] [] 0 [] [] [] [] false "" None [] "".

(** Single-field updates. *)
Definition setFlow v s := mkState v (backgroundFetchPromise s) (duration s) (timeLeft s) (currentRoundIndex s) (roundResults s) (aptitudeQuestions s) (aptitudeAnswers s) (currentQuestionIndex s) (technicalQuestions s) (technicalAnswers s) (hrQuestions s) (hrAnswers s) (isLoading s) (loadingMessage s) (error s) (finalResults s) (overallFeedback s).
Definition setBackground v s := mkState (flow s) v (duration s) (timeLeft s) (currentRoundIndex s) (roundResults s) (aptitudeQuestions s) (aptitudeAnswers s) (currentQuestionIndex s) (technicalQuestions s) (technicalAnswers s) (hrQuestions s) (hrAnswers s) (isLoading s) (loadingMessage s) (error s) (finalResults s) (overallFeedback s).
Definition setDuration v s := mkState (flow s) (backgroundFetchPromise s) v (timeLeft s) (currentRoundIndex s) (roundResults s) (aptitudeQuestions s) (aptitudeAnswers s) (currentQuestionIndex s) (technicalQuestions s) (technicalAnswers s) (hrQuestions s) (hrAnswers s) (isLoading s) (loadingMessage s) (error s) (finalResults s) (overallFeedback s).
Definition setTimeLeft v s := mkState (flow s) (backgroundFetchPromise s) (duration s) v (currentRoundIndex s) (roundResults s) (aptitudeQuestions s) (aptitudeAnswers s) (currentQuestionIndex s) (technicalQuestions s) (technicalAnswers s) (hrQuestions s) (hrAnswers s) (isLoading s) (loadingMessage s) (error s) (finalResults s) (overallFeedback s).
Definition setCurrentRoundIndex v s := mkState (flow s) (backgroundFetchPromise s) (duration s) (timeLeft s) v (roundResults s) (aptitudeQuestions s) (aptitudeAnswers s) (currentQuestionIndex s) (technicalQuestions s) (technicalAnswers s) (hrQuestions s) (hrAnswers s) (isLoading s) (loadingMessage s) (error s) (finalResults s) (overallFeedback s).
Definition setRoundResults v s := mkState (flow s) (backgroundFetchPromise s) (duration s) (timeLeft s) (currentRoundIndex s) v (aptitudeQuestions s) (aptitudeAnswers s) (currentQuestionIndex s) (technicalQuestions s) (technicalAnswers s) (hrQuestions s) (hrAnswers s) (isLoading s) (loadingMessage s) (error s) (finalResults s) (overallFeedback s).
Definition setAptitudeQuestions v s := mkState (flow s) (backgroundFetchPromise s) (duration s) (timeLeft s) (currentRoundIndex s) (roundResults s) v (aptitudeAnswers s) (currentQuestionIndex s) (technicalQuestions s) (technicalAnswers s) (hrQuestions s) (hrAnswers s) (isLoading s) (loadingMessage s) (error s) (finalResults s) (overallFeedback s).
Definition setAptitudeAnswers v s := mkState (flow s) (backgroundFetchPromise s) (duration s) (timeLeft s) (currentRoundIndex s) (roundResults s) (aptitudeQuestions s) v (currentQuestionIndex s) (technicalQuestions s) (technicalAnswers s) (hrQuestions s) (hrAnswers s) (isLoading s) (loadingMessage s) (error s) (finalResults s) (overallFeedback s).
Definition setCurrentQuestionIndex v s := mkState (flow s) (backgroundFetchPromise s) (duration s) (timeLeft s) (currentRoundIndex s) (roundResults s) (aptitudeQuestions s) (aptitudeAnswers s) v (technicalQuestions s) (technicalAnswers s) (hrQuestions s) (hrAnswers s) (isLoading s) (loadingMessage s) (error s) (finalResults s) (overallFeedback s).
Definition setTechnicalQuestions v s := mkState (flow s) (backgroundFetchPromise s) (duration s) (timeLeft s) (currentRoundIndex s) (roundResults s) (aptitudeQuestions s) (aptitudeAnswers s) (currentQuestionIndex s) v (technicalAnswers s) (hrQuestions s) (hrAnswers s) (isLoading s) (loadingMessage s) (error s) (finalResults s) (overallFeedback s).
Definition setTechnicalAnswers v s := mkState (flow s) (backgroundFetchPromise s) (duration s) (timeLeft s) (currentRoundIndex s) (roundResults s) (aptitudeQuestions s) (aptitudeAnswers s) (currentQuestionIndex s) (technicalQuestions s) v (hrQuestions s) (hrAnswers s) (isLoading s) (loadingMessage s) (error s) (finalResults s) (overallFeedback s).
Definition setHrQuestions v s := mkState (flow s) (backgroundFetchPromise s) (duration s) (timeLeft s) (currentRoundIndex s) (roundResults s) (aptitudeQuestions s) (aptitudeAnswers s) (currentQuestionIndex s) (technicalQuestions s) (technicalAnswers s) v (hrAnswers s) (isLoading s) (loadingMessage s) (error s) (finalResults s) (overallFeedback s).
Definition setHrAnswers v s := mkState (flow s) (backgroundFetchPromise s) (duration s) (timeLeft s) (currentRoundIndex s) (roundResults s) (aptitudeQuestions s) (aptitudeAnswers s) (currentQuestionIndex s) (technicalQuestions s) (technicalAnswers s) (hrQuestions s) v (isLoading s) (loadingMessage s) (error s) (finalResults s) (overallFeedback s).
Definition setIsLoading v s := mkState (flow s) (backgroundFetchPromise s) (duration s) (timeLeft s) (currentRoundIndex s) (roundResults s) (aptitudeQuestions s) (aptitudeAnswers s) (currentQuestionIndex s) (technicalQuestions s) (technicalAnswers s) (hrQuestions s) (hrAnswers s) v (loadingMessage s) (error s) (finalResults s) (overallFeedback s).
Definition setLoadingMessage v s := mkState (flow s) (backgroundFetchPromise s) (duration s) (timeLeft s) (currentRoundIndex s) (roundResults s) (aptitudeQuestions s) (aptitudeAnswers s) (currentQuestionIndex s) (technicalQuestions s) (technicalAnswers s) (hrQuestions s) (hrAnswers s) (isLoading s) v (error s) (finalResults s) (overallFeedback s).
Definition setError v s := mkState (flow s) (backgroundFetchPromise s) (duration s) (timeLeft s) (currentRoundIndex s) (roundResults s) (aptitudeQuestions s) (aptitudeAnswers s) (currentQuestionIndex s) (technicalQuestions s) (technicalAnswers s) (hrQuestions s) (hrAnswers s) (isLoading s) (loadingMessage s) v (finalResults s) (overallFeedback s).
Definition setFinalResults v s := mkState (flow s) (backgroundFetchPromise s) (duration s) (timeLeft s) (currentRoundIndex s) (roundResults s) (aptitudeQuestions s) (aptitudeAnswers s) (currentQuestionIndex s) (technicalQuestions s) (technicalAnswers s) (hrQuestions s) (hrAnswers s) (isLoading s) (loadingMessage s) (error s) v (overallFeedback s).
Definition setOverallFeedback v s := mkState (flow s) (backgroundFetchPromise s) (duration s) (timeLeft s) (currentRoundIndex s) (roundResults s) (aptitudeQuestions s) (aptitudeAnswers s) (currentQuestionIndex s) (technicalQuestions s) (technicalAnswers s) (hrQuestions s) (hrAnswers s) (isLoading s) (loadingMessage s) (error s) (finalResults s) v.

(** Statements in sequence: [s |> f |> g] runs [f], then [g]. *)
Notation "s |> f" := (f s) (at level 45, left associativity, only parsing).

(** What [getMockInterviewOverallFeedback] returns and whether the
    history record was saved afterwards. *)
Record Report := mkReport
  { recommendation : string; summary : string; report : string; saved : bool }.

Definition finishInterview (generated : Outcome Report)
    (currentResults : list MockInterviewRoundResult) (s : State) : State :=
  let s := s |> setIsLoading true
             |> setLoadingMessage
                  "Analyzing your performance and generating the final report..."
             |> setFlow results
             |> setFinalResults currentResults in
  let s :=
    match generated with
    | Fulfilled r =>
        let s := s |> setOverallFeedback (report r) in
        if saved r then s
        else s |> setOverallFeedback "Could not generate overall feedback due to an error."
    | Rejected =>
        s |> setOverallFeedback "Could not generate overall feedback due to an error."
    end in
  s |> setIsLoading false.

(** The mock history record [finishInterview] saves. *)
Definition historyData (r : Report) (currentResults : list MockInterviewRoundResult)
    : Firestore.HistoryType * Firestore.ScoreRating * Firestore.DataReference :=
  (Firestore.mock, Firestore.ScoreString (recommendation r),
   Firestore.mkDataReference None None (Some (Z.of_nat (length currentResults)))).

(** The body of the background fetch runs its four updates when the
    fetch resolves; awaiting the promise waits for that. *)
Definition settleBackground (s : State) : State :=
  match backgroundFetchPromise s with
  | Some p =>
      if settled p then s
      else
        let s := s |> setBackground (Some (mkBackground (outcome p) true)) in
        match outcome p with
        | Fulfilled (techQs, hrQs) =>
            s |> setTechnicalQuestions techQs
              |> setTechnicalAnswers (replicate (length techQs) (Some ""))
              |> setHrQuestions hrQs
              |> setHrAnswers (replicate (length hrQs) (Some ""))
        | Rejected => s
        end
  | None => s
  end.

(** [questions.map((q, i) => ({ question: q, answer: answers[i] }))]
    followed by [conversation.map((turn, i) => ({ ...turn, type,
    feedback: feedbacks[i] }))]. *)
Definition answerResults (t : Round) (questions : list string)
    (answers : list (option string)) (feedbacks : list string)
    : list MockInterviewRoundResult :=
  imap (λ i q, AnswerResult t q (mjoin (answers !! i)) (feedbacks !! i)) questions.

Definition roundError (r : Round) : string :=
  "Failed to process the " +:+ roundName r
    +:+ " round or load the next one. Please try again.".

(** [proceedToNext]. [feedback] is what the feedback call of a technical
    or HR round returns; [generated] is used when the last round ends.
    The handler runs to its end before the next event is taken. *)
Definition proceedToNext (feedback : Outcome (list string)) (generated : Outcome Report)
    (s : State) : State :=
  match INTERVIEW_STRUCTURE !! currentRoundIndex s with
  | Some currentRoundType =>
      if bool_decide (Z.of_nat (currentQuestionIndex s)
                      = Z.of_nat (ROUND_QUESTION_COUNT currentRoundType) - 1) then
        let s1 := s |> setIsLoading true
                    |> setLoadingMessage ("Analyzing " +:+ roundName currentRoundType
                                            +:+ " round...") in
        let newRoundResults : Outcome (list MockInterviewRoundResult) :=
          match currentRoundType with
          | Aptitude =>
              let correct := countCorrect (aptitudeQuestions s) (aptitudeAnswers s) 0 0 in
              Fulfilled
                [AptitudeResult
                   (Js.ofNat correct / Js.ofNat (length (aptitudeQuestions s)) * 100)%float
                   (length (aptitudeQuestions s)) correct]
          | Technical =>
              match feedback with
              | Fulfilled feedbacks =>
                  Fulfilled (answerResults Technical (technicalQuestions s)
                                           (technicalAnswers s) feedbacks)
              | Rejected => Rejected
              end
          | HR =>
              match feedback with
              | Fulfilled feedbacks =>
                  Fulfilled (answerResults HR (hrQuestions s) (hrAnswers s) feedbacks)
              | Rejected => Rejected
              end
          end in
        let caught (s : State) : State :=
          s |> setError (Some (roundError currentRoundType)) |> setIsLoading false in
        match newRoundResults with
        | Fulfilled new =>
            let updatedResults := roundResults s ++ new in
            let s2 := s1 |> setRoundResults updatedResults in
            if bool_decide (Z.of_nat (currentRoundIndex s)
                            < Z.of_nat (length INTERVIEW_STRUCTURE) - 1) then
              let s3 := s2 |> setLoadingMessage "Preparing next round..." in
              match backgroundFetchPromise s3 with
              | Some p =>
                  let s4 := settleBackground s3 in
                  match outcome p with
                  | Fulfilled _ =>
                      s4 |> setCurrentRoundIndex (S (currentRoundIndex s4))
                         |> setCurrentQuestionIndex 0
                         |> setIsLoading false
                  | Rejected => caught s4
                  end
              | None =>
                  s3 |> setCurrentRoundIndex (S (currentRoundIndex s3))
                     |> setCurrentQuestionIndex 0
                     |> setIsLoading false
              end
            else
              s2 |> finishInterview generated updatedResults |> setIsLoading false
        | Rejected => caught s1
        end
      else s |> setCurrentQuestionIndex (S (currentQuestionIndex s))
  | None => s |> setCurrentQuestionIndex (S (currentQuestionIndex s))
  end.

(** The timer effect, run after every change of [flow], [timeLeft] or
    [roundResults]. *)
Definition timerEffect (generated : Outcome Report) (s : State) : State :=
  if bool_decide (flow s = active) && (timeLeft s =? 0)
  then finishInterview generated (roundResults s) s
  else s.

(** One second passes: the interval exists only while the interview is
    active with time left. *)
Definition tick (generated : Outcome Report) (s : State) : State :=
  if bool_decide (flow s = active) && (0 <? timeLeft s)
  then s |> setTimeLeft (timeLeft s - 1) |> timerEffect generated
  else s.

(** [startInterview]: [aptitude] is the outcome of fetching the first
    round, [background] how the background fetch will end. *)
Definition startInterview (aptitude : Outcome (list AptitudeQuestion))
    (background : Outcome (list string * list string)) (generated : Outcome Report)
    (s : State) : State :=
  let s := s |> setIsLoading true |> setError None
             |> setLoadingMessage "Generating your first round..." in
  match aptitude with
  | Fulfilled aptiQuestions =>
      s |> setAptitudeQuestions aptiQuestions
        |> setAptitudeAnswers (replicate (length aptiQuestions) None)
        |> setTechnicalQuestions [] |> setTechnicalAnswers []
        |> setHrQuestions [] |> setHrAnswers []
        |> setTimeLeft (duration s * 60)
        |> setCurrentRoundIndex 0 |> setCurrentQuestionIndex 0
        |> setRoundResults []
        |> setFlow active
        |> setBackground (Some (mkBackground background false))
        |> setIsLoading false
        |> timerEffect generated
  | Rejected =>
      s |> setError (Some "Failed to set up the interview. Please check your API key and try again.")
        |> setFlow setup
        |> setIsLoading false
  end.

(** The error line exists in [renderSetup] only; [renderActive] and
    [renderResults] do not print [error]. *)
Definition renderedError (s : State) : option string :=
  match flow s with
  | setup => error s
  | active => None
  | results => None
  end.

(** [renderActive] shows a question, its answer field and the Next button
    only when the current round has questions; otherwise a spinner. *)
Definition questionShown (s : State) : option Round :=
  match INTERVIEW_STRUCTURE !! currentRoundIndex s with
  | Some Aptitude =>
      if bool_decide (0 < length (aptitudeQuestions s))%nat then Some Aptitude else None
  | Some Technical =>
      if bool_decide (0 < length (technicalQuestions s))%nat then Some Technical else None
  | Some HR =>
      if bool_decide (0 < length (hrQuestions s))%nat then Some HR else None
  | None => None
  end.

(** What the user and the environment can do. *)
Inductive Event :=
  | SelectDuration (d : DurationChoice)
  | StartInterview (aptitude : Outcome (list AptitudeQuestion))
                   (background : Outcome (list string * list string))
  | BackgroundSettles
  | ChooseOption (option : string)
  | TypeTechnicalAnswer (text : string)
  | TypeHrAnswer (text : string)
  | ProceedToNext (feedback : Outcome (list string))
  | Tick
  | TryAnotherMock.

(** Whether the screen on display offers the control behind an event.
    (The Next button is also disabled while the current answer is empty;
    the model lets it be pressed all the same.) *)
Definition offered (e : Event) (s : State) : bool :=
  match e with
  | SelectDuration _ => bool_decide (flow s = setup)
  | StartInterview _ _ => bool_decide (flow s = setup) && negb (isLoading s)
  | BackgroundSettles => true
  | ChooseOption _ =>
      bool_decide (flow s = active) && negb (isLoading s)
      && bool_decide (questionShown s = Some Aptitude)
  | TypeTechnicalAnswer _ =>
      bool_decide (flow s = active) && negb (isLoading s)
      && bool_decide (questionShown s = Some Technical)
  | TypeHrAnswer _ =>
      bool_decide (flow s = active) && negb (isLoading s)
      && bool_decide (questionShown s = Some HR)
  | ProceedToNext _ =>
      bool_decide (flow s = active) && negb (isLoading s)
      && bool_decide (is_Some (questionShown s))
  | Tick => true
  | TryAnotherMock => bool_decide (flow s = results) && negb (isLoading s)
  end.

(** [generated] answers the report request of whichever event ends the
    interview. *)
Definition step (generated : Outcome Report) (e : Event) (s : State) : State :=
  if offered e s then
    match e with
    | SelectDuration d => s |> setDuration (minutes d)
    | StartInterview aptitude background =>
        startInterview aptitude background generated s
    | BackgroundSettles => settleBackground s
    | ChooseOption option =>
        s |> setAptitudeAnswers
               (Js.arraySet (currentQuestionIndex s) option (aptitudeAnswers s))
    | TypeTechnicalAnswer text =>
        s |> setTechnicalAnswers
               (Js.arraySet (currentQuestionIndex s) text (technicalAnswers s))
    | TypeHrAnswer text =>
        s |> setHrAnswers (Js.arraySet (currentQuestionIndex s) text (hrAnswers s))
    | ProceedToNext feedback => proceedToNext feedback generated s
    | Tick => tick generated s
    | TryAnotherMock => s |> setFlow setup
    end
  else s.

Definition run (generated : Outcome Report) (events : list Event) (s : State) : State :=
  fold_left (λ s e, step generated e s) events s.
End MockInterview.

(** ** services/geminiService.ts: reading the generated responses *)

Module Gemini.

(** A JavaScript value as [JSON.parse] builds it, plus [undefined] for a
    property that is not there. *)
#[local] Unset Elimination Schemes.
Inductive Value :=
  | VUndefined
  | VNull
  | VBool (b : bool)
  | VNumber (x : float)
  | VString (s : string)
  | VArray (items : list Value)
  | VObject (fields : list (string * Value)).
#[local] Set Elimination Schemes.

(** How an operation ends for its caller: a value, or an exception with
    its message. *)
Inductive Result (A : Type) :=
  | Returned (a : A)
  | Thrown (message : string).
Arguments Returned {A} a.
Arguments Thrown {A} message.

Definition bind {A B} (r : Result A) (k : A → Result B) : Result B :=
  match r with
  | Returned a => k a
  | Thrown e => Thrown e
  end.

#[global] Instance Result_bind : MBind Result := λ A B k r, bind r k.

(** [try { body } catch (error) { handler }]. *)
Definition tryCatch {A} (body : Result A) (handler : string → Result A) : Result A :=
  match body with
  | Returned a => Returned a
  | Thrown e => handler e
  end.

(** The text of a response, as [JSON.parse(response.text.trim())] sees it:
    the value it denotes, or no value when the text is not JSON (or there
    is no text to trim). *)
Inductive ResponseText :=
  | Json (v : Value)
  | NotJson.

Definition syntaxError : string := "SyntaxError".
Definition typeError : string := "TypeError".

Definition JSONparse (response : ResponseText) : Result Value :=
  match response with
  | Json v => Returned v
  | NotJson => Thrown syntaxError
  end.

(** [v.name]: reading a property of [null] or [undefined] throws; an
    object yields the last field of that name; nothing else has one. *)
Definition getProperty (name : string) (v : Value) : Result Value :=
  match v with
  | VNull | VUndefined => Thrown typeError
  | VObject fields =>
      Returned (default VUndefined
                  (snd <$> List.find (λ kv, bool_decide (kv.1 = name)) (reverse fields)))
  | _ => Returned VUndefined
  end.

Definition isArray (v : Value) : bool :=
  match v with VArray _ => true | _ => false end.

Definition isNonEmptyArray (v : Value) : bool :=
  match v with VArray (_ :: _) => true | _ => false end.

Definition strings (l : list string) : Value := VArray (VString <$> l).

Definition record (fields : list (string * string)) : Value :=
  VObject ((λ kv, (kv.1, VString kv.2)) <$> fields).

(** *** The operations, from the response onwards *)

Definition generateAptitudeQuestions (response : ResponseText) : Result Value :=
  tryCatch (JSONparse response)
    (λ _, Thrown "Failed to generate aptitude questions. The AI response was not valid JSON.").

Definition extractTopicFromGoal (response : ResponseText) : Result Value :=
  tryCatch (jsonText ← JSONparse response; getProperty "topic" jsonText)
    (λ _, Returned (VString Firestore.QUANTITATIVE)).

Definition parseUserGoal (response : ResponseText) : Result Value :=
  tryCatch (JSONparse response)
    (λ _, Thrown "Failed to parse user goal. The AI response was not valid JSON.").

(** The fall-back of the two question-list generators asks for one
    question at a time, [count] times; [single i] is how the [i]-th of
    those requests ends. *)
Fixpoint askOneByOne (single : nat → Result string) (i count : nat)
    : Result (list string) :=
  match count with
  | O => Returned []
  | S n =>
      q ← single i;
      rest ← askOneByOne single (S i) n;
      Returned (q :: rest)
  end.

Definition generateMultipleQuestions (single : nat → Result string) (count : nat)
    (response : ResponseText) : Result Value :=
  tryCatch (parsed ← JSONparse response;
            questions ← getProperty "questions" parsed;
            if isArray questions then Returned questions
            else Thrown "Invalid response format from AI.")
    (λ _, questions ← askOneByOne single 0 count; Returned (strings questions)).

Definition generateMultipleTechnicalQuestions := generateMultipleQuestions.
Definition generateMultipleHrQuestions := generateMultipleQuestions.

Definition getTechnicalFeedbackAndFollowUp (response : ResponseText) : Result Value :=
  tryCatch (JSONparse response)
    (λ _, Returned (record
       [ ("feedback",
          "I'm sorry, I had a little trouble processing that. Let's try another angle.");
         ("followUpQuestion",
          "Let's switch gears. What's a recent technical challenge you faced and how did you overcome it?") ])).

Definition noFeedback {A} (conversation : list A) : Value :=
  strings ((λ _, "Sorry, I was unable to generate feedback for this answer.")
             <$> conversation).

Definition getTechnicalInterviewFeedback {A} (conversation : list A)
    (response : ResponseText) : Result Value :=
  tryCatch (parsed ← JSONparse response; getProperty "feedbacks" parsed)
    (λ _, Returned (noFeedback conversation)).

Definition noReport : Value :=
  record [ ("rating", "N/A"); ("summary", "Error generating feedback.");
           ("report", "Could not generate a report.") ].

Definition getTechnicalSessionFeedback (response : ResponseText) : Result Value :=
  tryCatch (JSONparse response) (λ _, Returned noReport).

Definition getHrInterviewFeedback {A} (conversation : list A)
    (response : ResponseText) : Result Value :=
  tryCatch (parsed ← JSONparse response;
            feedbacks ← getProperty "feedbacks" parsed;
            if isArray feedbacks then Returned feedbacks
            else Thrown "Invalid response format")
    (λ _, Returned (noFeedback conversation)).

Definition getHrFinalReport (response : ResponseText) : Result Value :=
  tryCatch (JSONparse response) (λ _, Returned noReport).

Definition fallbackGdTopics : Value :=
  VArray
    [ record [ ("topic", "Success vs. Hard Work: Is one more important?");
               ("description", "Many believe that relentless hard work is the sole key to achieving one's goals. Others argue that 'working smart' or being in the right place at the right time (luck/success) plays a larger role. In today's world, which factor is a more critical determinant of long-term professional achievement, and why?") ];
      record [ ("topic", "The Future of Open Source Software");
               ("description", "Open-source software powers much of the modern internet, yet it often relies on unpaid volunteers, leading to burnout and security risks. Should large corporations that profit from open-source be mandated to contribute financially to these projects, or would that stifle the community-driven spirit of the movement?") ];
      record [ ("topic", "Gig Economy: Liberation or Exploitation?");
               ("description", "Platforms like Uber, DoorDash, and freelance marketplaces offer flexibility and autonomy to millions. However, they are also criticized for a lack of worker protections, benefits, and stable income. Is the gig economy a modern form of worker empowerment or a loophole that allows companies to bypass traditional labor laws?") ] ].

Definition generateGdTopics (response : ResponseText) : Result Value :=
  tryCatch (parsed ← JSONparse response;
            topics ← getProperty "topics" parsed;
            if isNonEmptyArray topics then Returned topics
            else Thrown "Invalid response format from AI.")
    (λ _, Returned fallbackGdTopics).

Definition orchestrateGdTurn (ai1Name : string) (response : ResponseText)
    : Result Value :=
  tryCatch (parsed ← JSONparse response; getProperty "responses" parsed)
    (λ _, Returned (VArray
       [ record [ ("participant", ai1Name);
                  ("message", "I'm sorry, I seem to have lost my train of thought. Could you repeat your last point?") ] ])).

Definition reviewProfile (response : ResponseText) : Result Value :=
  tryCatch (JSONparse response)
    (λ _, Returned (VObject
       [ ("rating", VString "N/A"); ("summary", VString "Error generating feedback.");
         ("keyRecommendations", VArray []);
         ("feedback", VString "Could not generate a report.") ])).

Definition getMockInterviewOverallFeedback (response : ResponseText) : Result Value :=
  tryCatch (JSONparse response)
    (λ _, Returned (record
       [ ("recommendation", "N/A"); ("summary", "Error generating feedback.");
         ("report", "Could not generate a report.") ])).

(** *** All fourteen, uniformly *)

Inductive Operation :=
  | GenerateAptitudeQuestions
  | ExtractTopicFromGoal
  | ParseUserGoal
  | GenerateMultipleTechnicalQuestions
  | GetTechnicalFeedbackAndFollowUp
  | GetTechnicalInterviewFeedback
  | GetTechnicalSessionFeedback
  | GenerateMultipleHrQuestions
  | GetHrInterviewFeedback
  | GetHrFinalReport
  | GenerateGdTopics
  | OrchestrateGdTurn
  | ReviewProfile
  | GetMockInterviewOverallFeedback.

(** What a call passes besides the response text. *)
Record Call := mkCall
  { conversation : list (string * string);
    count : nat;
    single : nat → Result string;
    ai1Name : string }.

Definition readResponse (op : Operation) (c : Call) (response : ResponseText)
    : Result Value :=
  match op with
  | GenerateAptitudeQuestions => generateAptitudeQuestions response
  | ExtractTopicFromGoal => extractTopicFromGoal response
  | ParseUserGoal => parseUserGoal response
  | GenerateMultipleTechnicalQuestions =>
      generateMultipleTechnicalQuestions (single c) (count c) response
  | GetTechnicalFeedbackAndFollowUp => getTechnicalFeedbackAndFollowUp response
  | GetTechnicalInterviewFeedback =>
      getTechnicalInterviewFeedback (conversation c) response
  | GetTechnicalSessionFeedback => getTechnicalSessionFeedback response
  | GenerateMultipleHrQuestions =>
      generateMultipleHrQuestions (single c) (count c) response
  | GetHrInterviewFeedback => getHrInterviewFeedback (conversation c) response
  | GetHrFinalReport => getHrFinalReport response
  | GenerateGdTopics => generateGdTopics response
  | OrchestrateGdTurn => orchestrateGdTurn (ai1Name c) response
  | ReviewProfile => reviewProfile response
  | GetMockInterviewOverallFeedback => getMockInterviewOverallFeedback response
  end.
End Gemini.

(** ** Sample data the closed lemmas evaluate the services on *)

Module Samples.
Import JsDate Firestore.

(** 2025-11-01 (a Saturday), 2025-11-02 (a Sunday) and 2025-11-03, at noon
    UTC unless the name says otherwise. *)
Definition saturdayNoon : Z := 1761998400000.
Definition sundayNoon : Z := 1762084800000.
Definition sundayOne : Z := 1762088400000.
Definition mondayNoon : Z := 1762171200000.

(** New York in the autumn of 2025: four hours behind UTC until Sunday
    2 November, 06:00 UTC, five hours behind from then on.  A wall-clock
    time before 02:00 of that Sunday is read with the earlier offset, a
    later one with the later offset. *)
Definition newYork : Zone := λ t isUTC,
  if isUTC
  then if t <? 1762063200000 then -14400000 else -18000000
  else if t <? 1762048800000 then -14400000 else -18000000.

Definition sundayNewYork : Z := 1762144200000.

Definition noData : DataReference := mkDataReference None None None.

Definition quiz (i : string) (at_ : Z) (t : string) (score : float) (n : Z)
    : InterviewHistory :=
  mkInterviewHistory i "u1" aptitude (Some at_) (ScoreNumber score)
                     (mkDataReference (Some "Practice") (Some t) (Some n)).

Definition emptyDb : Db := mkDb ∅ ∅ ∅ ∅ ∅.

(** A user who practised yesterday (Saturday) and holds a streak of 4. *)
Definition dbStreak4 : Db :=
  withUsers {[ "u1" := Profile.mk (Some "u1") (Some 4) (Some saturdayNoon) ]} emptyDb.

Definition newYorkTimes : Times :=
  mkTimes (sundayNewYork - 1000) sundayNewYork (sundayNewYork + 2000)
          (sundayNewYork + 3000) (sundayNewYork + 4000).

(** A session saved on Sunday at noon; the badge pass runs an hour later. *)
Definition sundayTimes : Times :=
  mkTimes sundayNoon sundayNoon sundayNoon sundayOne sundayOne.

(** One quiz taken on Sunday; the same history a day later, with a
    Monday quiz in front. *)
Definition mondayOne : Z := 1762174800000.
Definition sundayHistory : list InterviewHistory :=
  [ quiz "h1" sundayNoon QUANTITATIVE 60 5 ].
Definition mondayHistory : list InterviewHistory :=
  [ quiz "h2" mondayNoon QUANTITATIVE 60 5 ] ++ sundayHistory.

(** The Sunday history with a Saturday record listed in front of it. *)
Definition saturdayFirst : list InterviewHistory :=
  [ quiz "h0" saturdayNoon QUANTITATIVE 60 5 ] ++ sundayHistory.

(** A user who holds the weekend badge and practises again on Monday. *)
Definition dbWeekendBadge : Db :=
  mkDb {[ "u1" := Profile.mk (Some "u1") (Some 1) (Some sundayNoon) ]}
       {[ "u1" := sundayHistory ]} ∅
       {[ "u1" := {[ "weekend-warrior" :=
                       Badge.mk "weekend-warrior" "Weekend Warrior"
                         "Complete a practice session on a weekend." "Calendar"
                         Bronze true (Some sundayOne) ]} ]}
       ∅.

Definition mondayTimes : Times :=
  mkTimes mondayNoon mondayNoon mondayNoon mondayOne mondayOne.

(** Two stored goals of [u1] (one active, one retired), one active goal
    of another user, and six quantitative quizzes of [u1]. *)
Definition goalOf (u t : string) (current : float) (active : bool) : Goal.t :=
  Goal.mk None u t 80 50 current saturdayNoon mondayNoon active.

Definition sixQuizzes : list InterviewHistory :=
  [ quiz "q1" 1000 QUANTITATIVE 10 5; quiz "q2" 2000 QUANTITATIVE 40 5;
    quiz "q3" 3000 QUANTITATIVE 50 5; quiz "q4" 4000 QUANTITATIVE 60 5;
    quiz "q5" 5000 QUANTITATIVE 70 5; quiz "q6" 6000 QUANTITATIVE 80 5;
    quiz "q7" 7000 LOGICAL_REASONING 100 5 ].

Definition dbGoals : Db :=
  mkDb ∅ {[ "u1" := sixQuizzes ]} ∅ ∅
       {[ "g1" := goalOf "u1" QUANTITATIVE 50 true;
          "g0" := goalOf "u1" VERBAL_ABILITY 30 false;
          "g2" := goalOf "u2" QUANTITATIVE 20 true ]}.

(** A quiz of five questions in progress: three answered correctly, one
    wrongly, one not yet; the user is on the fifth question. *)
Definition ask (q a : string) : AptitudePrep.AptitudeQuestion :=
  AptitudePrep.mkQuestion q [a; "none of these"] a "see the solution" "Percentage".

Definition fiveQuestions : list AptitudePrep.AptitudeQuestion :=
  [ ask "10% of 50?" "5"; ask "20% of 50?" "10"; ask "30% of 50?" "15";
    ask "40% of 50?" "20"; ask "50% of 50?" "25" ].

Definition fiveAnswers : list (option string) :=
  [ Some "5"; Some "10"; Some "none of these"; Some "20"; None ].

Definition quizInProgress : AptitudePrep.State :=
  AptitudePrep.mkState AptitudePrep.active AptitudePrep.Medium 5 None fiveQuestions 4
    fiveAnswers (Some 300) [Some 12; Some 7.5; Some 20; Some 3.25; Some 0]%float
    sundayNoon QUANTITATIVE AptitudePrep.Diagnostic None.

(** A mock interview of 60 minutes: thirty aptitude questions, all
    answered "5" (right for the first of every five), then one technical
    answer typed before the clock runs out. *)
Definition thirtyQuestions : list AptitudePrep.AptitudeQuestion :=
  mjoin (replicate 6 fiveQuestions).

Definition technicalSix : list string :=
  [ "What is a closure?"; "Explain the event loop."; "What is a promise?";
    "REST or GraphQL?"; "What is an index?"; "How do you test a component?" ].
Definition hrSix : list string :=
  [ "Tell me about yourself."; "A conflict you resolved?"; "A failure?";
    "Why this role?"; "Your strengths?"; "Where in five years?" ].

Definition generatedReport : MockInterview.Outcome MockInterview.Report :=
  MockInterview.Fulfilled (MockInterview.mkReport "Hire" "Solid." "# Report" true).

Definition aptitudeRound : list MockInterview.Event :=
  mjoin (replicate 30 [ MockInterview.ChooseOption "5";
                        MockInterview.ProceedToNext (MockInterview.Fulfilled []) ]).

Definition untilTechnicalAnswer : list MockInterview.Event :=
  [ MockInterview.StartInterview (MockInterview.Fulfilled thirtyQuestions)
      (MockInterview.Fulfilled (technicalSix, hrSix)) ]
  ++ aptitudeRound
  ++ [ MockInterview.TypeTechnicalAnswer "A function with its environment." ].

(** The state one second before the clock runs out, and the state in
    which the sixth technical question is waiting for its feedback. *)
Definition lastSecond : MockInterview.State :=
  MockInterview.run generatedReport
    (untilTechnicalAnswer ++ replicate 3599 MockInterview.Tick)
    MockInterview.initialState.

Definition lastTechnicalQuestion : MockInterview.State :=
  MockInterview.run generatedReport
    (untilTechnicalAnswer
     ++ mjoin (replicate 5 [ MockInterview.ProceedToNext (MockInterview.Fulfilled []);
                             MockInterview.TypeTechnicalAnswer "An answer." ]))
    MockInterview.initialState.

(** A call of the generation service with a two-turn conversation, in
    which every request for a single question is answered. *)
Definition sampleCall : Gemini.Call :=
  Gemini.mkCall [("Q1", "A1"); ("Q2", "A2")] 2
                (λ i, Gemini.Returned (if (i =? 0)%nat then "First?" else "Next?"))
                "Priya".

(** A call asking for five questions, in which the third request for a
    single question fails. *)
Definition failingCall : Gemini.Call :=
  Gemini.mkCall [("Q1", "A1"); ("Q2", "A2")] 5
                (λ i, if (i =? 2)%nat then Gemini.Thrown "quota exceeded"
                      else Gemini.Returned "Why?")
                "Priya".
End Samples.

(** ** Predicates the theorems are stated with *)

Module StreakSpec.
Import JsDate Firestore.

(** What the streak update stores for a profile that exists: unchanged on
    the day of the last activity, streak plus one on the day after, streak
    1 otherwise. *)
Definition streakAfter (tza : Zone) (clk : Times) (p : Profile.t) : Profile.t :=
  let last := default 0 (Profile.lastActivityDate p) in
  if decide (localDay tza last = localDay tza (today clk)) then p
  else if decide (localDay tza last = localDay tza (today clk) - 1)
       then Profile.mk (Profile.userId p)
                       (Some (default 0 (Profile.streak p) + 1))
                       (Some (profileWritten clk))
       else Profile.mk (Profile.userId p) (Some 1) (Some (profileWritten clk)).

(** The wall-clock time one calendar day before the local time of [now],
    which is what [setDate(getDate() - 1)] builds, is read back on its own
    calendar day.  A zone with one offset satisfies it at every instant;
    so does a zone with daylight saving, unless that wall-clock time is
    one the zone skips and reading it back carries it past midnight. *)
Definition yesterdayReadsBack (tza : Zone) (now : Z) : Prop :=
  readsBackOnItsDay tza (LocalTime tza now - msPerDay).

End StreakSpec.

Module BadgeSpec.
(** How a rule table compares with the table of a later evaluation:
    same identifiers, and a rule that held still holds provided [Q] allows
    its identifier. *)
Definition keeps (Q : string → Prop) (x y : string * bool) : Prop :=
  x.1 = y.1 ∧ (x.2 = true → Q x.1 → y.2 = true).
End BadgeSpec.

Module GoalSpec.
Import Firestore.

(** The active goals of a user. *)
Definition activeGoalsOf (u : string) (db : Db) : gmap string Goal.t :=
  filter (isActiveGoalOf u) (userGoals db).

(** The history records a goal's topic selects, as the query sees them:
    aptitude records of that topic that carry a timestamp. *)
Definition topicRecords (db : Db) (uid t : string) : list InterviewHistory :=
  filter (λ h, is_Some (timestamp h)) (filter (matchesTopic t) (historyOf db uid)).
End GoalSpec.

Module AptitudeSpec.
Import AptitudePrep.

(** The user's answer at index [i] is exactly the correct answer of
    question [i]. *)
Definition answeredCorrectly (qs : list AptitudeQuestion)
    (answers : list (option string)) (i : nat) : Prop :=
  Some ∘ correctAnswer <$> qs !! i = answers !! i ∧ is_Some (qs !! i).

#[global] Instance answeredCorrectly_dec qs answers i :
  Decision (answeredCorrectly qs answers i).
Proof. unfold answeredCorrectly. apply _. Defined.
End AptitudeSpec.

Module MockSpec.
Import MockInterview.

Definition isAptitudeResult (r : MockInterviewRoundResult) : Prop :=
  resultType r = Aptitude.

Definition backgroundRejected (s : State) : Prop :=
  ∃ p, backgroundFetchPromise s = Some p ∧ outcome p = Rejected.

(** While the interview is active: before the technical round every
    accumulated result is an aptitude result, and there is more than none
    of them only after a round transition failed on a rejected background
    fetch; during the technical round the accumulated results are exactly
    one aptitude result, and the background fetch was not rejected. *)
Definition roundsInvariant (s : State) : Prop :=
  flow s = active →
  match currentRoundIndex s with
  | 0%nat =>
      roundResults s = []
      ∨ (Forall isAptitudeResult (roundResults s) ∧ backgroundRejected s)
  | 1%nat =>
      (∃ score total correct, roundResults s = [AptitudeResult score total correct])
      ∧ ¬ backgroundRejected s
  | _ => True
  end.

(** The ways the work at the end of a round can fail: the feedback
    request of a technical or HR round is rejected, or the background
    fetch awaited before the next round was rejected. *)
Definition transitionFails (r : Round) (feedback : Outcome (list string))
    (s : State) : Prop :=
  match r with
  | Aptitude => backgroundRejected s
  | Technical => feedback = Rejected ∨ backgroundRejected s
  | HR => feedback = Rejected
  end.
End MockSpec.

Module GeminiSpec.
(** The placeholder returned for a turn whose feedback could not be read. *)
Definition placeholderFeedback : string :=
  "Sorry, I was unable to generate feedback for this answer.".
End GeminiSpec.
(** ** services/firestoreService.ts: converting fetched data *)

Module Timestamps.

(** A value of a fetched document: what the application stores ([null],
    booleans, numbers, strings, timestamps, arrays and maps), and the
    [Date] objects the conversion puts in place of timestamps. A map lists
    its properties in the order [Object.keys] enumerates them. *)
#[local] Unset Elimination Schemes.
Inductive Data :=
  | DNull
  | DBool (b : bool)
  | DNumber (x : float)
  | DString (s : string)
  | DTimestamp (seconds nanoseconds : Z)
  | DDate (time : Z)
  | DArray (items : list Data)
  | DObject (fields : list (string * Data)).
#[local] Set Elimination Schemes.

(** [acc[key] = v]: an existing property keeps its place, a new one goes
    last. *)
Definition setProperty (key : string) (v : Data) (acc : list (string * Data))
    : list (string * Data) :=
  if decide (key ∈ acc.*1)
  then (λ kv, if decide (kv.1 = key) then (key, v) else kv) <$> acc
  else acc ++ [(key, v)].

Section Convert.
(** [Timestamp.toDate] of the Firestore SDK: the time value of the
    [Date] it builds from the seconds and nanoseconds of a timestamp. *)
Variable toDate : Z → Z → Z.

(** A [Date] is an object that is not an array and has no enumerable
    property of its own, so the last case rebuilds it as an empty map. *)
Fixpoint convertTimestamps (data : Data) : Data :=
  match data with
  | DTimestamp seconds nanoseconds => DDate (toDate seconds nanoseconds)
  | DArray items => DArray (convertTimestamps <$> items)
  | DObject fields =>
      DObject (fold_left (λ acc kv, setProperty kv.1 (convertTimestamps kv.2) acc)
                         fields [])
  | DDate _ => DObject []
  | _ => data
  end.
End Convert.

Fixpoint hasTimestamp (data : Data) : bool :=
  match data with
  | DTimestamp _ _ => true
  | DArray items => existsb hasTimestamp items
  | DObject fields => existsb (λ kv, hasTimestamp kv.2) fields
  | _ => false
  end.

(** Data as Firestore hands it over and the conversion leaves it alone:
    no timestamp, no [Date], and no map with a repeated key. *)
Fixpoint plain (data : Data) : bool :=
  match data with
  | DTimestamp _ _ | DDate _ => false
  | DArray items => forallb plain items
  | DObject fields =>
      bool_decide (NoDup fields.*1) && forallb (λ kv, plain kv.2) fields
  | _ => true
  end.
End Timestamps.

(** ** services/firestoreService.ts: profile, diagnostic flag, review hub,
    earned badges *)

Module Service.
Import JsDate Firestore.

Definition withRevisionQuestions (r : gmap string (list Revision.t)) (db : Db) : Db :=
  mkDb (users db) (interview_history db) r (badges db) (userGoals db).

(** [{ id: docSnap.id, ...docSnap.data() }], or [null] when there is no
    such document. *)
Record UserProfile := mkUserProfile
  { id : string;
    data : Profile.t }.

Definition getUserProfile (db : Db) (userId : string) : option UserProfile :=
  mkUserProfile userId <$> users db !! userId.

(** The two [where] clauses with [limit(1)]; no ordering is asked for, so
    a record counts whether or not its timestamp is set. *)
Definition isDiagnostic (h : InterviewHistory) : Prop :=
  type h = aptitude ∧ quizType (dataReference h) = Some "Diagnostic".

#[global] Instance isDiagnostic_dec h : Decision (isDiagnostic h).
Proof. unfold isDiagnostic. apply _. Defined.

Definition hasUserCompletedDiagnostic (db : Db) (userId : string) : bool :=
  let snapshot := take 1 (filter isDiagnostic (historyOf db userId)) in
  negb (bool_decide (snapshot = [])).

(** What [tagQuestionForRevision] returns: the question with the name of
    its new document and the browser's clock reading. *)
Record RevisionQuestion := mkRevisionQuestion
  { revisionId : string;
    revisionUserId : string;
    revisionQuizTopic : string;
    revisionTimestamp : Z }.

Section Tagging.
Variable tza : Zone.

(** [written] is the [serverTimestamp()] of the new document, [newId]
    the name [addDoc] gives it, [now] the browser's [new Date()] at the
    end; [clk] holds the instants of the streak and badge pass. *)
Definition tagQuestionForRevision (clk : Times) (written now : Z) (newId : string)
    (userId quizTopic : string) (db : Db) : RevisionQuestion * Db :=
  let docData := Revision.mk userId quizTopic (Some written) in
  let db :=
    withRevisionQuestions
      (<[userId := default [] (revisionQuestions db !! userId) ++ [docData]]>
         (revisionQuestions db)) db in
  let db := updateUserStreakAndBadges tza clk userId db in
  (mkRevisionQuestion newId userId quizTopic now, db).
End Tagging.

(** [orderBy('earnedAt', 'desc')]: badges without the field are not
    returned, and badges earned at the same instant come in descending
    order of their document names. *)
Definition earnedBefore (a b : string * Badge.t) : Prop :=
  default 0 (Badge.earnedAt b.2) < default 0 (Badge.earnedAt a.2)
  ∨ (default 0 (Badge.earnedAt b.2) = default 0 (Badge.earnedAt a.2)
     ∧ String.leb b.1 a.1 = true).

#[global] Instance earnedBefore_dec a b : Decision (earnedBefore a b).
Proof. unfold earnedBefore. apply _. Defined.

Definition getEarnedBadges (db : Db) (userId : string) : list Badge.t :=
  let docs := map_to_list (default ∅ (badges db !! userId)) in
  snd <$> merge_sort earnedBefore (filter (λ d, is_Some (Badge.earnedAt d.2)) docs).
End Service.

(** ** components/Dashboard.tsx: what the progress cards show *)

Module Dashboard.
Import Firestore Service.

(** [setStreak(profile?.streak || 0)]. *)
Definition shownStreak (profile : option UserProfile) : Z :=
  orZero (profile ≫= Profile.streak ∘ data).

(** [AllBadgesModal]: the catalogue grouped by tier, each badge with
    whether its identifier is among the earned ones. *)
Definition tiers : list Tier := [Gold; Silver; Bronze].

#[global] Instance Tier_eq_dec : EqDecision Tier.
Proof. solve_decision. Defined.

Definition badgesByTier (earnedBadges : list Badge.t)
    : list (Tier * list (Badge.t * bool)) :=
  let earnedBadgeIds := Badge.id <$> earnedBadges in
  (λ tier,
     (tier,
      (λ badge, (badge, bool_decide (Badge.id badge ∈ earnedBadgeIds)))
        <$> filter (λ b, Badge.tier b = tier) allBadges))
    <$> tiers.
End Dashboard.

(** ** Predicates the service theorems are stated with *)

Module ServiceSpec.
Import JsDate Firestore Service.

(** The rule of badge [b] holds of what is stored for [uid] at the instant
    [at_]: the evaluator, run on the user's fetched history, stored streak
    and fetched revision questions, returns [b]. *)
Definition ruleHolds (tza : Zone) (at_ : Z) (db : Db) (uid b : string) : Prop :=
  b ∈ checkAllBadges tza at_ (getInterviewHistory db uid)
        (default 0 (users db !! uid ≫= Profile.streak))
        (length (getRevisionQuestions db uid)).

(** The document the badge pass writes for a catalogue entry. *)
Definition written (at_ : Z) (def : Badge.t) : Badge.t :=
  Badge.mk (Badge.id def) (Badge.name def) (Badge.description def) (Badge.icon def)
           (Badge.tier def) true (Some at_).

(** [getEarnedBadges] lists badge [b], earned at [at_]. *)
Definition holdsBadge (db : Db) (uid b : string) (at_ : Z) : Prop :=
  ∃ badge, badge ∈ getEarnedBadges db uid ∧ Badge.id badge = b
           ∧ Badge.earned badge = true ∧ Badge.earnedAt badge = Some at_.

(** The achievements dialog, fed with [getEarnedBadges], shows badge [b]
    as earned. *)
Definition shownEarned (db : Db) (uid b : string) : Prop :=
  ∃ tier group badge,
    (tier, group) ∈ Dashboard.badgesByTier (getEarnedBadges db uid)
    ∧ (badge, true) ∈ group ∧ Badge.id badge = b.

(** Every stored record of the user is older than [t]. *)
Definition newerThanStored (db : Db) (uid : string) (t : Z) : Prop :=
  ∀ h t', h ∈ historyOf db uid → timestamp h = Some t' → t' < t.

(** The badges one session can earn by itself, each with its condition
    on that session. *)
Definition sessionBadges : list (string * (InterviewHistory → bool)) :=
  [ ("profile-auditor", λ h, bool_decide (type h = profile_review));
    ("diagnostic-complete", λ h, bool_decide (isDiagnostic h));
    ("diagnostic-high-potential",
      λ h, bool_decide (isDiagnostic h) && scoreAbove 75 h);
    ("apti-perfect", λ h, bool_decide (type h = aptitude) && perfectScore h);
    ("quant-master",
      λ h, bool_decide (type h = aptitude) && topicIs QUANTITATIVE h && scoreAbove 90 h);
    ("logical-master",
      λ h, bool_decide (type h = aptitude) && topicIs LOGICAL_REASONING h
           && scoreAbove 90 h);
    ("verbal-master",
      λ h, bool_decide (type h = aptitude) && topicIs VERBAL_ABILITY h && scoreAbove 90 h);
    ("di-detective",
      λ h, bool_decide (type h = aptitude) && topicIs DATA_INTERPRETATION h
           && scoreAbove 90 h) ].

(** One saved session: its clock readings, the name of its document and
    its content. *)
Record Session := mkSession
  { clock : Times;
    newId : string;
    sessionType : HistoryType;
    sessionScore : ScoreRating;
    sessionData : DataReference }.

Definition saveSession (tza : Zone) (uid : string) (db : Db) (s : Session) : Db :=
  saveInterviewHistory tza (clock s) (newId s) uid (sessionType s) (sessionScore s)
                       (sessionData s) db.

Definition saveSessions (tza : Zone) (uid : string) (sessions : list Session) (db : Db)
    : Db :=
  fold_left (saveSession tza uid) sessions db.

(** The local calendar day of a session, by the browser's clock. *)
Definition dayOf (tza : Zone) (s : Session) : Z := localDay tza (today (clock s)).

(** The server stamps the profile on the day the browser is in. *)
Definition sameDayWrite (tza : Zone) (s : Session) : Prop :=
  localDay tza (profileWritten (clock s)) = dayOf tza s.

(** Yesterday's wall-clock time, as the session builds it, reads back on
    its own day. *)
Definition yesterdayRead (tza : Zone) (s : Session) : Prop :=
  StreakSpec.yesterdayReadsBack tza (today (clock s)).

(** Sessions in time order that leave no day out: each one is on the day
    of the one before it or on the next day. *)
Fixpoint noDayMissed (tza : Zone) (first : Session) (rest : list Session) : Prop :=
  match rest with
  | [] => True
  | s :: rest' =>
      (dayOf tza s = dayOf tza first ∨ dayOf tza s = dayOf tza first + 1)
      ∧ noDayMissed tza s rest'
  end.

(** A stored profile that has a last-activity date has a streak of at
    least one. *)
Definition streakKept (p : Profile.t) : Prop :=
  is_Some (Profile.lastActivityDate p) → ∃ n, Profile.streak p = Some n ∧ 1 ≤ n.
End ServiceSpec.

(** ** A week of practice *)

Module Week.
Import Firestore ServiceSpec.

Definition msPerDay : Z := 86400000.

(** The [k]-th session: saved at noon UTC of the [k]-th day after
    Saturday 2025-11-01, the badge pass running an hour later. *)
Definition session (k : Z) : Session :=
  let name := default "h" (["h0"; "h1"; "h2"; "h3"; "h4"; "h5"; "h6"] !! Z.to_nat k) in
  let noon := Samples.saturdayNoon + k * msPerDay in
  mkSession (mkTimes noon noon noon (noon + 3600000) (noon + 3600000))
            name hr ScoreAbsent Samples.noData.

Definition first : Session := session 0.
Definition rest : list Session := session <$> [1; 2; 3; 4; 5; 6].
End Week.

(** A result over three sub-topics, one of them unnamed. *)
Module Mixed.
Import AptitudePrep.

Definition questions : list AptitudeQuestion :=
  [ mkQuestion "10% of 50?" ["5"; "10"] "5" "" "Percentage";
    mkQuestion "A fair coin: heads?" ["1/2"; "1/3"] "1/2" "" "Probability";
    mkQuestion "20% of 50?" ["5"; "10"] "10" "" "Percentage";
    mkQuestion "Next in 2, 4, 8?" ["12"; "16"] "16" "" "" ].

Definition answers : list (option string) := [Some "5"; Some "1/3"; Some "10"; None].

Definition times : list (option float) := [Some 30; Some 200; Some 40; Some 0]%float.

Definition quiz : State :=
  mkState active Medium 4 None questions 3 answers (Some 100) times 0
          "Mixed Topics" Practice None.
End Mixed.

(** ** types.ts: aptitude topics and their sub-topics *)

Module Topics.
Import Firestore.

(** The values of [enum AptitudeTopic], in declaration order. *)
Definition AptitudeTopic : list string :=
  [QUANTITATIVE; LOGICAL_REASONING; VERBAL_ABILITY; DATA_INTERPRETATION].

(** [AptitudeSubTopics], in the order a [for ... in] loop and
    [Object.entries] go through it. *)
Definition AptitudeSubTopics : list (string * list string) :=
  [ (QUANTITATIVE,
     [ "All Topics"; "Number System"; "HCF & LCM"; "Percentage"; "Profit & Loss";
       "Ratio & Proportion"; "Time & Work"; "Time, Speed & Distance"; "Boats & Streams";
       "Simple & Compound Interest"; "Area & Volume"; "Permutation & Combination";
       "Probability" ]);
    (LOGICAL_REASONING,
     [ "All Topics"; "Analogy"; "Blood Relations"; "Calendars & Clocks";
       "Coding-Decoding"; "Direction Sense"; "Number Series"; "Seating Arrangement";
       "Syllogism"; "Statement & Conclusion" ]);
    (VERBAL_ABILITY,
     [ "All Topics"; "Synonyms & Antonyms"; "Idioms & Phrases"; "Error Spotting";
       "Sentence Correction"; "Para Jumbles"; "Reading Comprehension"; "Close Test" ]);
    (DATA_INTERPRETATION,
     [ "All Topics"; "Tables"; "Bar Charts"; "Pie Charts"; "Line Graphs" ]) ].

(** [AptitudeSubTopics[category]]. *)
Definition subTopicsOf (category : string) : list string :=
  default [] (snd <$> List.find (λ kv, bool_decide (kv.1 = category)) AptitudeSubTopics).
End Topics.

(** ** components/AptitudePrep.tsx: starting, answering and timing a quiz *)

Module Quiz.
Import AptitudePrep Topics.
Import MockInterview (Outcome, Fulfilled, Rejected).

(** [subTopicToTopicMap] as [startQuiz] builds it: every sub-topic name
    of the table under the topic that lists it last. (The names looked
    up in it are those of the check boxes; names every object inherits,
    such as [constructor], are not among them.) *)
Definition subTopicToTopicMap : gmap string string :=
  fold_left (λ m entry,
               fold_left (λ m sub, <[sub := entry.1]> m) entry.2 m)
            AptitudeSubTopics ∅.

Definition mainTopicsOf (subTopics : list string) : list string :=
  fold_left (λ mainTopics sub,
               match subTopicToTopicMap !! sub with
               | Some topic => Js.setAdd topic mainTopics
               | None => mainTopics
               end)
            subTopics [].

(** [newQuizTopic]. *)
Definition newQuizTopic (type : QuizType) (subTopics : list string) : string :=
  match type with
  | Diagnostic => "Diagnostic Test"
  | Practice =>
      let mainTopicsArray := mainTopicsOf subTopics in
      if bool_decide (1 < length mainTopicsArray)%nat then "Mixed Topics"
      else match mainTopicsArray !! 0%nat with
           | Some topic => if bool_decide (topic = "") then "Aptitude Test" else topic
           | None => "Aptitude Test"
           end
  end.

(** The component state: the part the earlier handlers use, the
    sub-topic selection, the loading flag, the error text and the stop
    dialog. *)
Record Screen := mkScreen
  { quiz : State;
    selectedSubTopics : list string;
    isLoading : bool;
    error : option string;
    isStopModalOpen : bool }.

Definition withQuiz (q : State) (s : Screen) : Screen :=
  mkScreen q (selectedSubTopics s) (isLoading s) (error s) (isStopModalOpen s).

Definition initialScreen : Screen := mkScreen initialState [] false None false.

(** [startQuiz]: [fetched] is how [generateAptitudeQuestions] ends, [now]
    the reading of [Date.now()]. The setting [selectedDifficulty] is not
    touched: [difficulty] only sets the clock. *)
Definition startQuiz (now : Z) (type : QuizType) (subTopics : list string)
    (difficulty : Difficulty) (fetched : Outcome (list AptitudeQuestion))
    (s : Screen) (storage : LocalStorage) : Screen * LocalStorage :=
  let q := quiz s in
  let topic := newQuizTopic type subTopics in
  let failed (message : string) : Screen :=
    mkScreen (mkState setup (selectedDifficulty q) (numQuestions q) None (questions q)
                      (currentQuestionIndex q) (userAnswers q) (timeLeft q)
                      (timePerQuestion q) (questionStartTime q) topic type None)
             (selectedSubTopics s) false (Some message) (isStopModalOpen s) in
  match fetched with
  | Fulfilled fetchedQuestions =>
      if bool_decide (0 < length fetchedQuestions)%nat then
        let n := length fetchedQuestions in
        let clock :=
          match type with
          | Diagnostic => 40 * 60
          | Practice =>
              let timePerQuestionVal :=
                match difficulty with Easy => 75 | Medium => 90 | _ => 120 end in
              Z.of_nat n * timePerQuestionVal
          end in
        (mkScreen (mkState active (selectedDifficulty q) (numQuestions q) None
                           fetchedQuestions 0 (replicate n None) (Some clock)
                           (replicate n (Some 0%float)) now topic type None)
                  (selectedSubTopics s) false None (isStopModalOpen s),
         None)
      else (failed "Could not fetch questions. Please try again.", None)
  | Rejected =>
      (failed "An error occurred while fetching questions. Please check your API key and network connection.",
       None)
  end.

Definition handleStartPractice (now : Z) (fetched : Outcome (list AptitudeQuestion))
    (s : Screen) (storage : LocalStorage) : Screen * LocalStorage :=
  let effectiveSubTopics := filter (λ t, t ≠ "All Topics") (selectedSubTopics s) in
  if bool_decide (length effectiveSubTopics = 0%nat) then
    (mkScreen (quiz s) (selectedSubTopics s) (isLoading s)
              (Some "Please select at least one sub-topic to start the quiz.")
              (isStopModalOpen s),
     storage)
  else startQuiz now Practice effectiveSubTopics (selectedDifficulty (quiz s)) fetched
                 s storage.

Definition allSubTopics : list string :=
  filter (λ topic, topic ≠ "All Topics") (mjoin (snd <$> AptitudeSubTopics)).

Definition handleStartDiagnostic (now : Z) (fetched : Outcome (list AptitudeQuestion))
    (s : Screen) (storage : LocalStorage) : Screen * LocalStorage :=
  startQuiz now Diagnostic allSubTopics Mixed fetched s storage.

(** [handleSubTopicChange]. *)
Definition handleSubTopicChange (subTopic category : string) (isChecked : bool)
    (selected : list string) : list string :=
  let categorySubTopics := subTopicsOf category in
  if bool_decide (subTopic = "All Topics") then
    let otherSelected := filter (λ t, t ∉ categorySubTopics) selected in
    if isChecked then otherSelected ++ categorySubTopics else otherSelected
  else if isChecked then selected ++ [subTopic]
  else filter (λ t, t ≠ subTopic ∧ t ≠ "All Topics") selected.

(** [handleAnswer]. *)
Definition handleAnswer (answer : string) (q : State) : State :=
  mkState (flow q) (selectedDifficulty q) (numQuestions q) (savedQuizState q)
          (questions q) (currentQuestionIndex q)
          (Js.arraySet (currentQuestionIndex q) answer (userAnswers q)) (timeLeft q)
          (timePerQuestion q) (questionStartTime q) (quizTopic q) (quizType q)
          (result q).

(** [handlePreviousQuestion]. *)
Definition handlePreviousQuestion (now : Z) (q : State) : State :=
  if bool_decide (0 < currentQuestionIndex q)%nat then
    let q1 := recordTime now q in
    mkState (flow q1) (selectedDifficulty q1) (numQuestions q1) (savedQuizState q1)
            (questions q1) (currentQuestionIndex q - 1) (userAnswers q1) (timeLeft q1)
            (timePerQuestion q1) (questionStartTime q1) (quizTopic q1) (quizType q1)
            (result q1)
  else q.

(** The interval of the timer effect, which exists while the quiz is
    active with time left: [setTimeLeft(prevTime => prevTime ? prevTime - 1 : 0)]. *)
Definition countDown (q : State) : State :=
  match timeLeft q with
  | Some t =>
      if bool_decide (flow q = active) && (0 <? t) then
        mkState (flow q) (selectedDifficulty q) (numQuestions q) (savedQuizState q)
                (questions q) (currentQuestionIndex q) (userAnswers q)
                (Some (if t =? 0 then 0 else t - 1))
                (timePerQuestion q) (questionStartTime q) (quizTopic q) (quizType q)
                (result q)
      else q
  | None => q
  end.

(** The other branch of the timer effect: an active quiz whose clock
    shows 0 is submitted. *)
Definition timerEffect (now : Z) (q : State) (storage : LocalStorage)
    : State * LocalStorage :=
  if bool_decide (flow q = active) && bool_decide (timeLeft q = Some 0)
  then handleNextQuestion now true q storage
  else (q, storage).

(** What the user and the clock do to a quiz on screen; each event
    carries the reading of [Date.now()] its handler takes. *)
Inductive Event :=
  | Answer (option : string)
  | Next (now : Z)
  | Previous (now : Z)
  | Tick (now : Z).

(** The quiz screen offers its controls while the quiz is active; the
    Next button is disabled until the current question has an answer,
    the Previous button on the first question. *)
Definition offered (e : Event) (q : State) : bool :=
  bool_decide (flow q = active)
  && match e with
     | Answer _ => true
     | Next _ =>
         match mjoin (userAnswers q !! currentQuestionIndex q) with
         | Some answer => negb (bool_decide (answer = ""))
         | None => false
         end
     | Previous _ => bool_decide (0 < currentQuestionIndex q)%nat
     | Tick _ => true
     end.

Definition step (e : Event) (qs : State * LocalStorage) : State * LocalStorage :=
  let '(q, storage) := qs in
  if offered e q then
    match e with
    | Answer option => (handleAnswer option q, storage)
    | Next now => handleNextQuestion now false q storage
    | Previous now => (handlePreviousQuestion now q, storage)
    | Tick now => timerEffect now (countDown q) storage
    end
  else qs.

Definition run (events : list Event) (qs : State * LocalStorage)
    : State * LocalStorage :=
  fold_left (λ qs e, step e qs) events qs.

(** *** The save effect *)

(** The clean-up of the save effect. React runs it before the effect of
    a later render whose dependencies differ and when the component is
    torn down; it calls [saveQuizProgress] as the render that registered
    the effect defined it, that is, on the state of that render. *)
Definition cleanup (now : Z) (rendered : State) (storage : LocalStorage)
    : LocalStorage :=
  saveQuizProgress now rendered storage.

(** The Next button on the render [q], followed by the commit of the
    next render: the handler always installs a new [timePerQuestion]
    array, so the dependencies of the save effect differ and its
    clean-up runs, at [later]. *)
Definition nextAndCommit (now later : Z) (q : State) (storage : LocalStorage)
    : State * LocalStorage :=
  let '(q', storage') := handleNextQuestion now false q storage in
  (q', cleanup later q storage').

(** [confirmStopQuiz] on the render [q]: the snapshot is removed and the
    dashboard is navigated to, which tears the component down, at
    [later]. *)
Definition confirmStopQuiz (later : Z) (q : State) (storage : LocalStorage)
    : LocalStorage :=
  cleanup later q None.

(** [formatTime], on whole seconds. *)
Definition showNat (n : N) : string := NilZero.string_of_uint (N.to_uint n).

Definition showZ (z : Z) : string :=
  match z with
  | Zneg p => "-" +:+ showNat (Npos p)
  | _ => showNat (Z.to_N z)
  end.

Definition formatTime (seconds : Z) : string :=
  let minutes := seconds `div` 60 in
  let secs := Z.rem seconds 60 in
  showZ minutes +:+ ":" +:+ (if secs <? 10 then "0" else "") +:+ showZ secs.
End Quiz.

(** ** Predicates the quiz theorems are stated with *)

Module QuizSpec.
Import AptitudePrep Quiz.

(** While the quiz is active the question on screen exists, and there is
    one answer slot and one time slot per question. *)
Definition inBounds (n : nat) (q : State) : Prop :=
  flow q = active →
  (currentQuestionIndex q < n)%nat
  ∧ length (userAnswers q) = n
  ∧ length (timePerQuestion q) = n.

(** What a run never changes, together with the bounds it keeps. *)
Definition steady (fetched : list AptitudeQuestion) (topic : string) (type : QuizType)
    (q : State) : Prop :=
  questions q = fetched ∧ quizTopic q = topic ∧ quizType q = type
  ∧ (flow q = active ∨ flow q = results)
  ∧ inBounds (length fetched) q.

(** A quiz on its [k]-th question, none of the questions from the
    [k]-th on having been timed yet. *)
Definition untimedFrom (fetched : list AptitudeQuestion) (k : nat) (q : State) : Prop :=
  flow q = active ∧ questions q = fetched ∧ currentQuestionIndex q = k
  ∧ length (userAnswers q) = length fetched
  ∧ length (timePerQuestion q) = length fetched
  ∧ ∀ i, (k ≤ i < length fetched)%nat → timePerQuestion q !! i = Some (Some 0%float).

(** The history record of a quiz that ends in state [q], as it is
    stored: under the name [newId], stamped [at_]. *)
Definition recordOf (q : State) (finalAnswers : list (option string))
    (finalTimes : list (option float)) (newId uid : string) (at_ : Z)
    : Firestore.InterviewHistory :=
  let data := historyData (quizResultData q finalAnswers finalTimes) in
  Firestore.mkInterviewHistory newId uid data.1.1 (Some at_) data.1.2 data.2.

(** The selection holds a sub-topic of topic [t]. *)
Definition spans (subTopics : list string) (t : string) : Prop :=
  ∃ sub, sub ∈ subTopics ∧ subTopicToTopicMap !! sub = Some t.

(** [setSelectedSubTopics]. *)
Definition select (selected : list string) (s : Screen) : Screen :=
  mkScreen (quiz s) selected (isLoading s) (error s) (isStopModalOpen s).

Definition isTick (e : Event) : bool :=
  match e with Tick _ => true | _ => false end.

(** The seconds that pass during a list of events. *)
Definition ticks (events : list Event) : nat := length (List.filter isTick events).

(** A quiz answered straight through: each question is answered and
    Next is pressed, at the given instant. *)
Definition straightThrough (rounds : list (string * Z)) : list Event :=
  rounds ≫= λ r, [Answer r.1; Next r.2].
End QuizSpec.

(** ** JavaScript objects used as dictionaries *)

Module JsObject.

(** The own properties of an object, in the order they were created. *)
Definition t (A : Type) := list (string * A).

(** The names every object inherits from [Object.prototype]: reading one
    of them from an object that has no own property of that name gives
    the inherited value (a function, or the prototype itself), which is
    truthy. *)
Definition inherited : list string :=
  ["constructor"; "hasOwnProperty"; "isPrototypeOf"; "propertyIsEnumerable";
   "toLocaleString"; "toString"; "valueOf"; "__proto__";
   "__defineGetter__"; "__defineSetter__"; "__lookupGetter__"; "__lookupSetter__"].

Fixpoint get {A} (key : string) (o : t A) : option A :=
  match o with
  | [] => None
  | (k, v) :: rest => if bool_decide (k = key) then Some v else get key rest
  end.

(** [o[key] = v]: an existing property keeps its place, a new one is
    created last. *)
Fixpoint put {A} (key : string) (v : A) (o : t A) : t A :=
  match o with
  | [] => [(key, v)]
  | (k, w) :: rest =>
      if bool_decide (k = key) then (k, v) :: rest else (k, w) :: put key v rest
  end.

(** An array index: the canonical decimal text of an integer below
    [2^32 - 1]. *)
Definition arrayIndex (key : string) : option N :=
  match NilZero.uint_of_string key with
  | Some d =>
      let n := N.of_uint d in
      if bool_decide (NilZero.string_of_uint (N.to_uint n) = key)
         && bool_decide (n < 2 ^ 32 - 1)%N
      then Some n else None
  | None => None
  end.

Definition byIndex {A} (a b : N * A) : Prop := (a.1 ≤ b.1)%N.

#[global] Instance byIndex_dec {A} (a b : N * A) : Decision (byIndex a b).
Proof. unfold byIndex. apply _. Defined.

(** [Object.entries]: the properties named by an array index first, in
    ascending order of the index, then the others in the order they were
    created. *)
Definition entries {A} (o : t A) : list (string * A) :=
  let indexed := omap (λ kv, (λ n, (n, kv)) <$> arrayIndex kv.1) o in
  (snd <$> merge_sort byIndex indexed)
  ++ filter (λ kv, arrayIndex kv.1 = None) o.
End JsObject.

(** ** components/AptitudePrep.tsx: the analysis of a result *)

Module Analysis.
Import AptitudePrep.

Module Stats.
Record t := mk { correct : nat; total : nat; times : list float }.
End Stats.

Module Row.
Record t := mk
  { subTopic : string;
    correct : nat;
    total : nat;
    times : list float;
    accuracy : float;
    avgTime : float }.
End Row.

Record SpeedAccuracy := mkSpeedAccuracy
  { fastAccurate : list string;
    slowAccurate : list string;
    fastInaccurate : list string;
    slowInaccurate : list string }.

Record t := mk
  { topicBreakdown : list Row.t;
    speedAccuracy : SpeedAccuracy;
    radarData : list (string * float);
    suggestions : list string }.

(** [q.subTopic || 'General']. *)
Definition topicOf (q : AptitudeQuestion) : string :=
  if bool_decide (subTopic q = "") then "General" else subTopic q.

(** [times.reduce((a, b) => a + b, 0)]. *)
Definition sum (times : list float) : float := fold_left PrimFloat.add times 0%float.

(** The body of [questions.forEach((q, i) => ...)]. For a topic named
    like an inherited property the look-up finds the inherited value, no
    record is created, and [.times.push] is called on [undefined]: a
    [TypeError], here [None]. *)
Definition tally (userAnswers : list (option string))
    (timePerQuestion : list (option float)) (i : nat) (q : AptitudeQuestion)
    (subTopicStats : JsObject.t Stats.t) : option (JsObject.t Stats.t) :=
  let topic := topicOf q in
  if bool_decide (topic ∈ JsObject.inherited) then None
  else
    let started :=
      match JsObject.get topic subTopicStats with
      | Some _ => subTopicStats
      | None => JsObject.put topic (Stats.mk 0 0 []) subTopicStats
      end in
    let stats := default (Stats.mk 0 0 []) (JsObject.get topic started) in
    Some (JsObject.put topic
            (Stats.mk (if bool_decide (userAnswers !! i = Some (Some (correctAnswer q)))
                       then S (Stats.correct stats) else Stats.correct stats)
                      (S (Stats.total stats))
                      (Stats.times stats ++ [Js.numberOrZero (mjoin (timePerQuestion !! i))]))
            started).

Fixpoint tallyAll (userAnswers : list (option string))
    (timePerQuestion : list (option float)) (questions : list AptitudeQuestion)
    (i : nat) (subTopicStats : JsObject.t Stats.t) : option (JsObject.t Stats.t) :=
  match questions with
  | [] => Some subTopicStats
  | q :: rest =>
      match tally userAnswers timePerQuestion i q subTopicStats with
      | Some next => tallyAll userAnswers timePerQuestion rest (S i) next
      | None => None
      end
  end.

Definition row (entry : string * Stats.t) : Row.t :=
  let stats := entry.2 in
  Row.mk entry.1 (Stats.correct stats) (Stats.total stats) (Stats.times stats)
         (Js.ofNat (Stats.correct stats) / Js.ofNat (Stats.total stats) * 100)%float
         (sum (Stats.times stats) / Js.ofNat (length (Stats.times stats)))%float.

(** [timePerQuestion.filter(t => t > 0)]: [null] is not above 0. *)
Definition positive (timePerQuestion : list (option float)) : list float :=
  omap (λ t, match t with
             | Some v => if PrimFloat.ltb 0 v then Some v else None
             | None => None
             end) timePerQuestion.

(** [sum / length || 60]: NaN, when no time is positive, is falsy. *)
Definition overallAvgTime (timePerQuestion : list (option float)) : float :=
  let avg := (sum (positive timePerQuestion)
              / Js.ofNat (length (positive timePerQuestion)))%float in
  if PrimFloat.eqb avg 0 || PrimFloat.is_nan avg then 60%float else avg.

(** The double written [1.1]. *)
Definition tenPercentMore : float := 0x1.199999999999ap+0%float.

(** The body of [topicBreakdown.forEach(topic => ...)]. *)
Definition place (overall : float) (sa : SpeedAccuracy) (topic : Row.t) : SpeedAccuracy :=
  if PrimFloat.leb 60 (Row.accuracy topic) then
    if PrimFloat.leb (Row.avgTime topic) (overall * tenPercentMore)%float
    then mkSpeedAccuracy (fastAccurate sa ++ [Row.subTopic topic]) (slowAccurate sa)
                         (fastInaccurate sa) (slowInaccurate sa)
    else mkSpeedAccuracy (fastAccurate sa) (slowAccurate sa ++ [Row.subTopic topic])
                         (fastInaccurate sa) (slowInaccurate sa)
  else
    if PrimFloat.leb (Row.avgTime topic) (overall * tenPercentMore)%float
    then mkSpeedAccuracy (fastAccurate sa) (slowAccurate sa)
                         (fastInaccurate sa ++ [Row.subTopic topic]) (slowInaccurate sa)
    else mkSpeedAccuracy (fastAccurate sa) (slowAccurate sa)
                         (fastInaccurate sa) (slowInaccurate sa ++ [Row.subTopic topic]).

(** [analysis], the memoised value of [QuizResults]. *)
Definition analysis (result : AptitudeQuizResult) : option t :=
  subTopicStats ← tallyAll (resultUserAnswers result) (resultTimePerQuestion result)
                           (resultQuestions result) 0 [];
  let topicBreakdown := row <$> JsObject.entries subTopicStats in
  let overall := overallAvgTime (resultTimePerQuestion result) in
  let speedAccuracy :=
    fold_left (place overall) topicBreakdown (mkSpeedAccuracy [] [] [] []) in
  let radarData :=
    (λ topic, (Row.subTopic topic, (Row.accuracy topic / 100)%float)) <$> topicBreakdown in
  Some (mk topicBreakdown speedAccuracy radarData
           (slowInaccurate speedAccuracy ++ fastInaccurate speedAccuracy
            ++ slowAccurate speedAccuracy)).
End Analysis.

Module AnalysisSpec.
Import AptitudePrep.

(** The names of the own properties, in creation order. *)
Definition keys {A} (o : JsObject.t A) : list string := o.*1.

(** The topics of the breakdown. *)
Definition topics (a : Analysis.t) : list string :=
  Analysis.Row.subTopic <$> Analysis.topicBreakdown a.

(** The four quadrants, one after the other. *)
Definition quadrantsOf (sa : Analysis.SpeedAccuracy) : list string :=
  Analysis.fastAccurate sa ++ Analysis.slowAccurate sa
  ++ Analysis.fastInaccurate sa ++ Analysis.slowInaccurate sa.

Definition quadrants (a : Analysis.t) : list string :=
  quadrantsOf (Analysis.speedAccuracy a).
End AnalysisSpec.

(** ** Runs of the mock interview *)

Module MockRunSpec.
Import MockInterview.

(** The event starts an interview. *)
Definition isStart (e : Event) : bool :=
  match e with
  | StartInterview _ _ => true
  | _ => false
  end.

(** An interview started with [aptitude] as its first round and a
    background fetch that ends as [background], followed by [events]. *)
Definition interview (generated : Outcome Report)
    (aptitude : list AptitudePrep.AptitudeQuestion)
    (background : Outcome (list string * list string)) (events : list Event) : State :=
  run generated (StartInterview (Fulfilled aptitude) background :: events) initialState.
End MockRunSpec.

(** ** The fall-back of the question-list generators *)

Module FallbackSpec.
Import Gemini.

(** The response holds no list of questions: it is not JSON, or the value
    it denotes has no array under [questions]. *)
Definition unusable (response : ResponseText) : Prop :=
  ∀ items, (parsed ← JSONparse response; getProperty "questions" parsed)
           ≠ Returned (VArray items).

(** A response without the key, and requests of which the third fails. *)
Definition noQuestions : ResponseText := Json (VObject [("items", VArray [])]).

Definition thirdFails (i : nat) : Result string :=
  if bool_decide (i = 2%nat) then Thrown "quota exceeded" else Returned "Why?".
End FallbackSpec.

(** ** The technical interview (the [TechnicalPrep] component) *)

Module TechnicalPrep.

Inductive Flow := setup | active | results.

#[global] Instance Flow_eq_dec : EqDecision Flow.
Proof. solve_decision. Defined.

(** A question is the text of a response, which may be missing. *)
Record ConversationTurn := mkTurn { question : option string; answer : string }.

(** The part of the history record that depends on the conversation. *)
Record HistoryData := mkHistoryData
  { scoreRating : string;
    summary : string;
    questionsAnswered : nat;
    qAndA_list : list (ConversationTurn * string);
    fullReport : string }.

(** A request that has been sent and not yet answered, with what its
    handler holds on to. *)
Inductive Request :=
  | FirstQuestion
  | FollowUp (newTurn : ConversationTurn)
  | Report (finalConversation : list ConversationTurn).

(** How a request ends: the text of a question, or a rejection. For the
    report, which takes two requests and a write: the first request is
    rejected; or the second is; or both are answered, with the feedback
    per question and the session feedback, and the record is saved or
    not. *)
Inductive Response :=
  | Text (text : option string)
  | Rejected
  | SessionFeedbackRejected
  | Reported (perQuestionFeedback : list string) (rating summary report : string)
             (saved : bool).

(** The component state; the set-up fields, the microphone and the stop
    dialog are left out. [pending] holds the requests in flight, [stored]
    the records [saveInterviewHistory] has accepted. *)
Record State := mkState
  { flow : Flow;
    conversation : list ConversationTurn;
    finalReport : string;
    currentQuestion : option string;
    currentAnswer : string;
    isLoading : bool;
    loadingMessage : string;
    error : option string;
    pending : list Request;
    stored : list HistoryData }.

Definition initialState : State :=
  mkState setup [] "" (Some "") "" false "" None [] [].

(** A value used as a condition: a missing or empty text is falsy. *)
Definition truthy (text : option string) : bool :=
  match text with
  | Some s => negb (bool_decide (s = ""))
  | None => false
  end.

Section Handlers.
(** [String.prototype.trim]. *)
Variable trim : string → string.

(** The part of [startInterview] before its request. *)
Definition startInterview (s : State) : State :=
  mkState (flow s) (conversation s) (finalReport s) (currentQuestion s)
          (currentAnswer s) true "Preparing your first question..." None
          (pending s ++ [FirstQuestion]) (stored s).

(** [recognition.onresult]. *)
Definition onresult (transcript : string) (s : State) : State :=
  mkState (flow s) (conversation s) (finalReport s) (currentQuestion s)
          (if bool_decide (currentAnswer s = "") then transcript
           else trim (currentAnswer s) +:+ " " +:+ transcript)
          (isLoading s) (loadingMessage s) (error s) (pending s) (stored s).

Definition setCurrentAnswer (text : string) (s : State) : State :=
  mkState (flow s) (conversation s) (finalReport s) (currentQuestion s) text
          (isLoading s) (loadingMessage s) (error s) (pending s) (stored s).

(** The part of [handleSubmitAnswer] before its request. *)
Definition handleSubmitAnswer (s : State) : State :=
  if bool_decide (trim (currentAnswer s) = "") then s
  else
    let newTurn := mkTurn (currentQuestion s) (currentAnswer s) in
    let updatedConversation := conversation s ++ [newTurn] in
    mkState (flow s) updatedConversation (finalReport s) (Some "") ""
            true "Preparing the next question..." None
            (pending s ++ [FollowUp newTurn]) (stored s).

(** The part of [handleEndSession] before its requests. *)
Definition handleEndSession (s : State) : State :=
  let finalConversation :=
    if bool_decide (trim (currentAnswer s) = "") then conversation s
    else conversation s ++ [mkTurn (currentQuestion s) (currentAnswer s)] in
  if bool_decide (length finalConversation = 0%nat) then
    mkState setup (conversation s) (finalReport s) (currentQuestion s)
            (currentAnswer s) (isLoading s) (loadingMessage s) (error s)
            (pending s) (stored s)
  else
    mkState results (conversation s) (finalReport s) (currentQuestion s)
            (currentAnswer s) true "Analyzing your answers..." None
            (pending s ++ [Report finalConversation]) (stored s).

(** [perQuestionFeedback[i] || "N/A"]. *)
Definition feedbackSummary (perQuestionFeedback : list string) (i : nat) : string :=
  match perQuestionFeedback !! i with
  | Some feedback => if bool_decide (feedback = "") then "N/A" else feedback
  | None => "N/A"
  end.

Definition historyData (finalConversation : list ConversationTurn)
    (perQuestionFeedback : list string) (rating summary report : string)
    : HistoryData :=
  mkHistoryData rating summary (length finalConversation)
                (imap (λ i turn, (turn, feedbackSummary perQuestionFeedback i))
                      finalConversation)
                report.

(** What a handler does once its request has ended, up to and including
    its [finally] block; the two requests and the write of the report
    are taken in one step. Another kind of response than the request
    asks for does not occur. *)
Definition settle (request : Request) (response : Response) (s : State) : State :=
  match request, response with
  | FirstQuestion, Text firstQuestion =>
      mkState active [] "" firstQuestion "" false (loadingMessage s) (error s)
              (pending s) (stored s)
  | FirstQuestion, Rejected =>
      mkState (flow s) (conversation s) (finalReport s) (currentQuestion s)
              (currentAnswer s) false (loadingMessage s)
              (Some "Failed to start the interview. Please check your API key.")
              (pending s) (stored s)
  | FollowUp _, Text followUpQuestion =>
      mkState (flow s) (conversation s) (finalReport s) followUpQuestion
              (currentAnswer s) false (loadingMessage s) (error s)
              (pending s) (stored s)
  | FollowUp newTurn, Rejected =>
      mkState (flow s) (conversation s) (finalReport s) (question newTurn)
              (currentAnswer s) false (loadingMessage s)
              (Some "Failed to process your answer. You can try ending the session to get feedback on your progress so far.")
              (pending s) (stored s)
  | Report finalConversation, Reported perQuestionFeedback rating summary report saved =>
      if saved then
        mkState (flow s) (conversation s) report (currentQuestion s)
                (currentAnswer s) false "Synthesizing your final report..." (error s)
                (pending s)
                (stored s ++ [historyData finalConversation perQuestionFeedback
                                          rating summary report])
      else
        mkState (flow s) (conversation s) report (currentQuestion s)
                (currentAnswer s) false "Synthesizing your final report..."
                (Some "Failed to generate or save your final report.")
                (pending s) (stored s)
  | Report _, Rejected =>
      mkState (flow s) (conversation s) (finalReport s) (currentQuestion s)
              (currentAnswer s) false (loadingMessage s)
              (Some "Failed to generate or save your final report.")
              (pending s) (stored s)
  | Report _, SessionFeedbackRejected =>
      mkState (flow s) (conversation s) (finalReport s) (currentQuestion s)
              (currentAnswer s) false "Synthesizing your final report..."
              (Some "Failed to generate or save your final report.")
              (pending s) (stored s)
  | _, _ => s
  end.

Definition answers (request : Request) (response : Response) : bool :=
  match request, response with
  | (FirstQuestion | FollowUp _), (Text _ | Rejected) => true
  | Report _, (Reported _ _ _ _ _ | Rejected | SessionFeedbackRejected) => true
  | _, _ => false
  end.

(** What the user and the environment can do. *)
Inductive Event :=
  | StartInterview
  | TypeAnswer (text : string)
  | Transcript (transcript : string)
  | SubmitAnswer
  | EndSession
  | NewInterview
  | Settles (k : nat) (response : Response).

(** Whether the event can occur. The answer field, with its Enter key,
    and the Submit button are enabled when nothing is loading and a
    question is shown; the session can be ended from the button or from
    the stop dialog; a transcript can arrive at any time. *)
Definition offered (e : Event) (s : State) : bool :=
  match e with
  | StartInterview => bool_decide (flow s = setup) && negb (isLoading s)
  | TypeAnswer _ | SubmitAnswer =>
      bool_decide (flow s = active) && negb (isLoading s) && truthy (currentQuestion s)
  | Transcript _ => true
  | EndSession => bool_decide (flow s = active)
  | NewInterview => bool_decide (flow s = results)
  | Settles k response =>
      match pending s !! k with
      | Some request => answers request response
      | None => false
      end
  end.

Definition setFlow (v : Flow) (s : State) : State :=
  mkState v (conversation s) (finalReport s) (currentQuestion s) (currentAnswer s)
          (isLoading s) (loadingMessage s) (error s) (pending s) (stored s).

Definition setPending (v : list Request) (s : State) : State :=
  mkState (flow s) (conversation s) (finalReport s) (currentQuestion s)
          (currentAnswer s) (isLoading s) (loadingMessage s) (error s) v (stored s).

Definition step (e : Event) (s : State) : State :=
  if offered e s then
    match e with
    | StartInterview => startInterview s
    | TypeAnswer text => setCurrentAnswer text s
    | Transcript transcript => onresult transcript s
    | SubmitAnswer => handleSubmitAnswer s
    | EndSession => handleEndSession s
    | NewInterview => setFlow setup s
    | Settles k response =>
        match pending s !! k with
        | Some request => settle request response (setPending (delete k (pending s)) s)
        | None => s
        end
    end
  else s.

Definition run (events : list Event) (s : State) : State :=
  fold_left (λ s e, step e s) events s.
End Handlers.
End TechnicalPrep.

Module TechnicalSpec.
Import TechnicalPrep.

Section WithTrim.
Variable trim : string → string.

(** The answer of the turn is not blank. *)
Definition answered (turn : ConversationTurn) : Prop := trim (answer turn) ≠ "".

(** A stored record counts its turns, has at least one, and holds no
    blank answer. *)
Definition sound (r : HistoryData) : Prop :=
  questionsAnswered r = length (qAndA_list r)
  ∧ (0 < questionsAnswered r)%nat
  ∧ Forall (λ entry, answered entry.1) (qAndA_list r).

Definition requestAnswered (request : Request) : Prop :=
  match request with
  | FirstQuestion => True
  | FollowUp newTurn => answered newTurn
  | Report finalConversation =>
      finalConversation ≠ [] ∧ Forall answered finalConversation
  end.
End WithTrim.

(** Removes the spaces at both ends. *)
Fixpoint dropSpaces (s : string) : string :=
  match s with
  | String " " rest => dropSpaces rest
  | _ => s
  end.

Definition trimSpaces (s : string) : string :=
  String.rev (dropSpaces (String.rev (dropSpaces s))).
End TechnicalSpec.

(** ** components/GroupDiscussion.tsx *)

Module GroupDiscussion.
Import MockInterview (Outcome, Fulfilled, Rejected).

Inductive Flow := loading | setup | active | finished.

#[global] Instance Flow_eq_dec : EqDecision Flow.
Proof. solve_decision. Defined.

Record GDChatMessage := mkMessage { participant : string; message : string }.

(** The part of the history record that depends on the discussion. *)
Record HistoryData := mkHistoryData
  { topic : string; userTurns : nat; savedChatLog : list GDChatMessage }.

(** The component state; the names of the two AI participants, the
    microphone, the speaker and the stop dialog are left out. [requested]
    holds the histories sent to [orchestrateGdTurn], [stored] the records
    [saveInterviewHistory] has accepted, [left] tells that the component
    has navigated away. *)
Record State := mkState
  { flow : Flow;
    duration : Z;
    timeLeft : Z;
    topics : list (string * string);
    selectedTopic : option string;
    chatLog : list GDChatMessage;
    isLoading : bool;
    error : option string;
    isThinking : bool;
    requested : list string;
    stored : list HistoryData;
    left : bool }.

(** The state of the first render. *)
Definition initialState : State :=
  mkState loading 5 0 [] None [] true None false [] [] false.

(** A value used as a condition: [null] and the empty text are falsy. *)
Definition truthy (text : option string) : bool :=
  match text with
  | Some s => negb (bool_decide (s = ""))
  | None => false
  end.

(** [fetchTopics]: run by the mount effect and by the two buttons that
    ask for new topics; [t] is how [generateGdTopics] ends. Like the
    other handlers that wait for a request, it runs to its end before the
    next event is taken. *)
Definition fetchTopics (t : Outcome (list (string * string))) (s : State) : State :=
  match t with
  | Fulfilled t =>
      mkState setup (duration s) (timeLeft s) t None (chatLog s) false None
              (isThinking s) (requested s) (stored s) (left s)
  | Rejected =>
      mkState loading (duration s) (timeLeft s) (topics s) None (chatLog s) false
              (Some "Failed to generate a topic. Please check your API key.")
              (isThinking s) (requested s) (stored s) (left s)
  end.

(** [chatLog.map(m => `${m.participant}: ${m.message}`).join('\n')]. *)
Fixpoint join (lines : list string) : string :=
  match lines with
  | [] => ""
  | [line] => line
  | line :: rest => line +:+ String (Ascii.ascii_of_nat 10) (join rest)
  end.

Definition historyOf (log : list GDChatMessage) : string :=
  join ((λ m, participant m +:+ ": " +:+ message m) <$> log).

(** [handleAiTurn] as the render [render] defines it: the topic and the
    chat log it reads are those of that render; the updates are applied
    to the state [s] of the time it runs. [response] is how
    [orchestrateGdTurn] ends; of the responses, the first is added at
    once and each next one when the one before has been spoken, [spoken]
    of them in all. *)
Definition handleAiTurn (render : State) (response : Outcome (list GDChatMessage))
    (spoken : nat) (s : State) : State :=
  if truthy (selectedTopic render) then
    let asked := requested s ++ [historyOf (chatLog render)] in
    match response with
    | Fulfilled aiResponses =>
        mkState (flow s) (duration s) (timeLeft s) (topics s) (selectedTopic s)
                (chatLog s ++ take (S spoken) aiResponses) (isLoading s) (error s)
                false asked (stored s) (left s)
    | Rejected =>
        mkState (flow s) (duration s) (timeLeft s) (topics s) (selectedTopic s)
                (chatLog s ++ [mkMessage "System"
                                 "I'm having trouble connecting. Let's try again."])
                (isLoading s) (error s) false asked (stored s) (left s)
    end
  else s.

(** [handleUserMessage] as the render [render] defines it: the message
    is added, and half a second later that render's [handleAiTurn]
    runs. *)
Definition handleUserMessage (render : State) (transcript : string)
    (response : Outcome (list GDChatMessage)) (spoken : nat) (s : State) : State :=
  handleAiTurn render response spoken
    (mkState (flow s) (duration s) (timeLeft s) (topics s) (selectedTopic s)
             (chatLog s ++ [mkMessage "You" transcript]) (isLoading s) (error s)
             (isThinking s) (requested s) (stored s) (left s)).

(** [recognition.onresult]. The effect that installs it has no
    dependencies: it runs once, after the first render, and the
    [handleUserMessage] it calls is the one that render defined. *)
Definition onresult (transcript : string) (response : Outcome (list GDChatMessage))
    (spoken : nat) (s : State) : State :=
  if bool_decide (transcript = "") then s
  else handleUserMessage initialState transcript response spoken s.

(** [handleStartDiscussion], called from the render on display. *)
Definition handleStartDiscussion (opening : Outcome string) (s : State) : State :=
  if truthy (selectedTopic s) then
    match opening with
    | Fulfilled openingMessage =>
        mkState active (duration s) (duration s * 60) (topics s) (selectedTopic s)
                [mkMessage "Moderator" openingMessage] (isLoading s) (error s) false
                (requested s) (stored s) (left s)
    | Rejected =>
        mkState setup (duration s) (duration s * 60) (topics s) (selectedTopic s)
                [] (isLoading s)
                (Some "Failed to start the discussion. Please try again.") false
                (requested s) (stored s) (left s)
    end
  else s.

(** The timer effect and its interval. *)
Definition timerEffect (s : State) : State :=
  if bool_decide (flow s = active) && (timeLeft s =? 0) then
    mkState finished (duration s) (timeLeft s) (topics s) (selectedTopic s) (chatLog s)
            (isLoading s) (error s) (isThinking s) (requested s) (stored s) (left s)
  else s.

Definition tick (s : State) : State :=
  if bool_decide (flow s = active) && (0 <? timeLeft s) then
    timerEffect
      (mkState (flow s) (duration s) (timeLeft s - 1) (topics s) (selectedTopic s)
               (chatLog s) (isLoading s) (error s) (isThinking s) (requested s)
               (stored s) (left s))
  else s.

(** [handleSaveAndEnd], called from the render on display; [saved] tells
    whether the write succeeds. *)
Definition handleSaveAndEnd (saved : bool) (s : State) : State :=
  match selectedTopic s with
  | Some selected =>
      if bool_decide (length (chatLog s) = 0%nat) || bool_decide (selected = "") then
        mkState (flow s) (duration s) (timeLeft s) (topics s) (selectedTopic s)
                (chatLog s) (isLoading s) (error s) (isThinking s) (requested s)
                (stored s) true
      else if saved then
        mkState (flow s) (duration s) (timeLeft s) (topics s) (selectedTopic s)
                (chatLog s) false (error s) (isThinking s) (requested s)
                (stored s
                 ++ [mkHistoryData selected
                       (length (filter (λ m, participant m = "You") (chatLog s)))
                       (chatLog s)])
                true
      else
        mkState (flow s) (duration s) (timeLeft s) (topics s) (selectedTopic s)
                (chatLog s) false
                (Some "Failed to save your discussion. Please try again.")
                (isThinking s) (requested s) (stored s) (left s)
  | None =>
      mkState (flow s) (duration s) (timeLeft s) (topics s) (selectedTopic s)
              (chatLog s) (isLoading s) (error s) (isThinking s) (requested s)
              (stored s) true
  end.

(** What is on display. *)
Inductive Screen := Spinner | ErrorScreen | SetupScreen | FinishedScreen | ActiveScreen.

#[global] Instance Screen_eq_dec : EqDecision Screen.
Proof. solve_decision. Defined.

Definition screen (s : State) : Screen :=
  if isLoading s || bool_decide (flow s = loading) then Spinner
  else if truthy (error s) then ErrorScreen
  else match flow s with
       | setup => SetupScreen
       | finished => FinishedScreen
       | _ => ActiveScreen
       end.

(** What the user and the environment can do. *)
Inductive Event :=
  | NewTopics (t : Outcome (list (string * string)))
  | SelectTopic (t : string)
  | SetDuration (d : Z)
  | StartDiscussion (opening : Outcome string)
  | Transcript (transcript : string) (response : Outcome (list GDChatMessage))
               (spoken : nat)
  | Tick
  | SaveAndEnd (saved : bool).

(** Whether the screen on display offers the control behind an event; a
    transcript and a tick of the clock can arrive on any screen. Once the
    component has navigated away nothing happens any more. *)
Definition offered (e : Event) (s : State) : bool :=
  negb (left s) &&
  match e with
  | NewTopics _ =>
      bool_decide (screen s = ErrorScreen) || bool_decide (screen s = FinishedScreen)
  | SelectTopic t => bool_decide (screen s = SetupScreen) && bool_decide (t ∈ (topics s).*1)
  | SetDuration d => bool_decide (screen s = SetupScreen) && bool_decide (d ∈ [5; 10; 15])
  | StartDiscussion _ =>
      bool_decide (screen s = SetupScreen) && truthy (selectedTopic s)
  | Transcript _ _ _ => true
  | Tick => true
  | SaveAndEnd _ => bool_decide (screen s = FinishedScreen)
  end.

Definition step (e : Event) (s : State) : State :=
  if offered e s then
    match e with
    | NewTopics t => fetchTopics t s
    | SelectTopic t =>
        mkState (flow s) (duration s) (timeLeft s) (topics s) (Some t) (chatLog s)
                (isLoading s) (error s) (isThinking s) (requested s) (stored s) (left s)
    | SetDuration d =>
        mkState (flow s) d (timeLeft s) (topics s) (selectedTopic s) (chatLog s)
                (isLoading s) (error s) (isThinking s) (requested s) (stored s) (left s)
    | StartDiscussion opening => timerEffect (handleStartDiscussion opening s)
    | Transcript transcript response spoken => onresult transcript response spoken s
    | Tick => tick s
    | SaveAndEnd saved => handleSaveAndEnd saved s
    end
  else s.

Definition run (events : list Event) (s : State) : State :=
  fold_left (λ s e, step e s) events s.
End GroupDiscussion.

Module DiscussionSpec.
Import GroupDiscussion.

(** The message is the moderator's or the user's. *)
Definition fromModeratorOrUser (m : GDChatMessage) : Prop :=
  participant m = "Moderator" ∨ participant m = "You".
End DiscussionSpec.

(** * Proofs *)

(** ** Facts about the calendar *)

Module JsDateFacts.
Import JsDate.

(** The calendar is a bijection between day numbers and dates. *)

Lemma wB_value : wB = 9223372036854775808.
Proof. reflexivity. Qed.

Lemma to_Z_sub (a b : int) : to_Z b <= to_Z a -> to_Z (a - b) = to_Z a - to_Z b.
Proof.
  intros H. rewrite sub_spec. apply Z.mod_small.
  pose proof (to_Z_bounded a). pose proof (to_Z_bounded b). lia.
Qed.

Lemma to_Z_add (a b : int) : to_Z a + to_Z b < wB -> to_Z (a + b) = to_Z a + to_Z b.
Proof.
  intros H. rewrite add_spec. apply Z.mod_small.
  pose proof (to_Z_bounded a). pose proof (to_Z_bounded b). lia.
Qed.

Lemma to_Z_mul (a b : int) : to_Z a * to_Z b < wB -> to_Z (a * b) = to_Z a * to_Z b.
Proof.
  intros H. rewrite mul_spec. apply Z.mod_small.
  pose proof (to_Z_bounded a). pose proof (to_Z_bounded b). nia.
Qed.

Lemma allFrom_spec (n : nat) :
  forall z, 0 <= z -> z + Z.of_nat n < wB -> allFrom n (of_Z z) = true ->
  forall d, z <= d < z + Z.of_nat n -> eraDayOk (of_Z d) = true.
Proof.
  induction n as [|k IH]; intros z Hz Hn H d Hd; [lia|].
  assert (Hn' : z + 1 + Z.of_nat k < wB) by lia.
  cbn [allFrom] in H. apply andb_prop in H. destruct H as [H0 Hk].
  destruct (Z.eq_dec d z) as [->|Hne]; [exact H0|].
  apply (IH (z + 1)); [lia|exact Hn'| |lia].
  replace (of_Z (z + 1)) with (of_Z z + 1)%uint63; [exact Hk|].
  apply to_Z_inj. rewrite add_spec, !of_Z_spec.
  change (to_Z 1%uint63) with 1.
  rewrite (Z.mod_small z); [reflexivity|]. rewrite wB_value in *. lia.
Qed.

Lemma eraDays_checked : allFrom (Z.to_nat daysPerEra) (of_Z 0) = true.
Proof. vm_compute. reflexivity. Qed.

Ltac div_lia := Z.to_euclidean_division_equations; lia.

(** Within an era the year of the era is below 400 and the day of that
    year is below 366. *)
Lemma eraDay_bounds (doe : Z) :
  0 <= doe < daysPerEra ->
  0 <= yearOfEra doe <= 399 /\ 0 <= dayOfYear doe (yearOfEra doe) <= 365.
Proof.
  intros Hd.
  assert (H : eraDayOk (of_Z doe) = true).
  { assert (Hw : 0 + Z.of_nat (Z.to_nat daysPerEra) < wB)
      by (rewrite Z2Nat.id by discriminate; reflexivity).
    apply (allFrom_spec (Z.to_nat daysPerEra) 0 (Z.le_refl 0) Hw eraDays_checked).
    rewrite Z2Nat.id by discriminate. lia. }
  unfold daysPerEra in Hd. pose proof wB_value as HwB.
  unfold eraDayOk in H. cbv zeta in H.
  set (x := of_Z doe) in H.
  assert (Hx : to_Z x = doe).
  { unfold x. rewrite of_Z_spec. apply Z.mod_small. rewrite HwB. clear -Hd. lia. }
  set (n1 := (x - x / 1460)%uint63) in H.
  assert (H1 : to_Z n1 = doe - doe / 1460).
  { unfold n1. rewrite to_Z_sub; rewrite div_spec, Hx;
      change (to_Z 1460%uint63) with 1460; clear -Hd; div_lia. }
  set (n2 := (n1 + x / 36524)%uint63) in H.
  assert (H2 : to_Z n2 = doe - doe / 1460 + doe / 36524).
  { unfold n2. rewrite to_Z_add; rewrite div_spec, H1, Hx;
      change (to_Z 36524%uint63) with 36524; rewrite ?HwB; clear -Hd; div_lia. }
  set (n3 := (n2 - x / 146096)%uint63) in H.
  assert (H3 : to_Z n3 = doe - doe / 1460 + doe / 36524 - doe / 146096).
  { unfold n3. rewrite to_Z_sub; rewrite div_spec, H2, Hx;
      change (to_Z 146096%uint63) with 146096; clear -Hd; div_lia. }
  set (y := (n3 / 365)%uint63) in H.
  assert (Hy : to_Z y = yearOfEra doe).
  { unfold y, yearOfEra. rewrite div_spec, H3. reflexivity. }
  apply andb_prop in H. destruct H as [Hle Hdoy].
  apply leb_spec in Hle, Hdoy.
  change (to_Z 399%uint63) with 399 in Hle. change (to_Z 365%uint63) with 365 in Hdoy.
  rewrite Hy in Hle.
  assert (Hy0 : 0 <= yearOfEra doe)
    by (unfold yearOfEra; apply Z.div_pos; clear -Hd; div_lia).
  split; [clear -Hle Hy0; lia|].
  set (m1 := (365 * y)%uint63) in Hdoy.
  assert (M1 : to_Z m1 = 365 * yearOfEra doe).
  { unfold m1. rewrite to_Z_mul; rewrite Hy;
      change (to_Z 365%uint63) with 365; rewrite ?HwB; clear -Hle Hy0; lia. }
  set (m2 := (m1 + y / 4)%uint63) in Hdoy.
  assert (M2 : to_Z m2 = 365 * yearOfEra doe + yearOfEra doe / 4).
  { unfold m2. rewrite to_Z_add; rewrite div_spec, M1, Hy;
      change (to_Z 4%uint63) with 4; rewrite ?HwB; clear -Hle Hy0; div_lia. }
  set (m3 := (m2 - y / 100)%uint63) in Hdoy.
  assert (M3 : to_Z m3 = 365 * yearOfEra doe + yearOfEra doe / 4 - yearOfEra doe / 100).
  { unfold m3. rewrite to_Z_sub; rewrite div_spec, M2, Hy;
      change (to_Z 100%uint63) with 100; clear -Hle Hy0; div_lia. }
  rewrite sub_spec, Hx, M3, HwB in Hdoy.
  unfold dayOfYear. clear -Hd Hle Hy0 Hdoy. div_lia.
Qed.

(** March-based month numbers of a day of the year, and back. *)
Lemma marchMonth_bounds (doy : Z) :
  0 <= doy <= 365 ->
  0 <= marchMonth doy <= 11
  /\ marchOfMonth (monthOfMarch (marchMonth doy)) = marchMonth doy
  /\ 0 <= monthOfMarch (marchMonth doy) < 12.
Proof.
  intros Hdoy.
  assert (Hmp : 0 <= marchMonth doy <= 11) by (unfold marchMonth; div_lia).
  split; [exact Hmp|].
  unfold marchOfMonth, monthOfMarch.
  destruct (Z.ltb_spec (marchMonth doy) 10); split.
  - destruct (Z.ltb_spec 1 (marchMonth doy + 2)); lia.
  - lia.
  - destruct (Z.ltb_spec 1 (marchMonth doy - 10)); lia.
  - lia.
Qed.

Lemma daysFromCivil_civilFromDays (z : Z) :
  let c := civilFromDays z in daysFromCivil (year c) (month c) (date c) = z.
Proof.
  cbv zeta. unfold civilFromDays, daysFromCivil. cbn [year month date].
  set (s := z + epochShift).
  assert (Hdoe : 0 <= s mod daysPerEra < daysPerEra)
    by (apply Z.mod_pos_bound; reflexivity).
  destruct (eraDay_bounds _ Hdoe) as [Hyoe Hdoy].
  destruct (marchMonth_bounds _ Hdoy) as (_ & Hmp & _).
  set (doe := s mod daysPerEra) in *.
  set (yoe := yearOfEra doe) in *.
  set (doy := dayOfYear doe yoe) in *.
  set (mp := marchMonth doy) in *.
  replace (yoe + s / daysPerEra * 400 + janFeb (monthOfMarch mp)
           - janFeb (monthOfMarch mp))
    with (yoe + s / daysPerEra * 400) by lia.
  assert (Hera : (yoe + s / daysPerEra * 400) / 400 = s / daysPerEra).
  { rewrite Z.div_add by lia. rewrite Z.div_small by lia. lia. }
  assert (Hmod : (yoe + s / daysPerEra * 400) mod 400 = yoe).
  { rewrite Z.mod_add by lia. apply Z.mod_small. lia. }
  rewrite Hera, Hmod, Hmp.
  pose proof (Z.div_mod s daysPerEra ltac:(discriminate)) as Hs.
  fold doe in Hs. unfold doy, dayOfYear. subst s. lia.
Qed.

Lemma civilFromDays_inj (a b : Z) : civilFromDays a = civilFromDays b -> a = b.
Proof.
  intros H. rewrite <- (daysFromCivil_civilFromDays a), H.
  apply daysFromCivil_civilFromDays.
Qed.

Lemma daysFromCivil_date (y m d : Z) :
  daysFromCivil y m d = daysFromCivil y m 1 + d - 1.
Proof. unfold daysFromCivil. cbv zeta. ring. Qed.

Lemma MakeDay_of_month (d dt : Z) :
  let c := civilFromDays d in
  MakeDay (year c) (month c) dt = d - date c + dt.
Proof.
  cbv zeta. pose proof (daysFromCivil_civilFromDays d) as H. cbv zeta in H.
  assert (Hm : 0 <= month (civilFromDays d) < 12).
  { unfold civilFromDays. cbn [month].
    assert (Hdoe : 0 <= (d + epochShift) mod daysPerEra < daysPerEra)
      by (apply Z.mod_pos_bound; reflexivity).
    destruct (eraDay_bounds _ Hdoe) as [_ Hdoy].
    apply (marchMonth_bounds _ Hdoy). }
  unfold MakeDay.
  rewrite Z.div_small, Z.mod_small by lia.
  rewrite Z.add_0_r.
  rewrite (daysFromCivil_date _ _ (date (civilFromDays d))) in H. lia.
Qed.

Section LocalTimeFacts.
Variable tza : Zone.

Lemma Day_MakeDate (day t : Z) : Day (MakeDate day (TimeWithinDay t)) = day.
Proof.
  unfold Day, MakeDate, TimeWithinDay.
  rewrite Z.add_comm, Z.div_add by discriminate.
  rewrite Z.div_small; [lia|]. apply Z.mod_pos_bound. reflexivity.
Qed.

(** The local time [setDate] builds is the same time of day, on the
    given day of the month of the date. *)
Lemma setDate_local (t dt : Z) :
  let lt := LocalTime tza t in
  MakeDate (MakeDay (YearFromTime lt) (MonthFromTime lt) dt) (TimeWithinDay lt)
  = lt + (dt - getDate tza t) * msPerDay.
Proof.
  cbv zeta. unfold getDate.
  pose proof (MakeDay_of_month (Day (LocalTime tza t)) dt) as Hday.
  unfold YearFromTime, MonthFromTime, DateFromTime in *.
  unfold MakeDate. rewrite Hday. unfold Day, TimeWithinDay, msPerDay.
  pose proof (Z.div_mod (LocalTime tza t) 86400000 ltac:(lia)). lia.
Qed.

(** [setDate] moves a date to the given day of its own month, provided
    the wall-clock time it builds reads back on its own day. *)
Lemma localDay_setDate (t dt : Z) :
  readsBackOnItsDay tza (LocalTime tza t + (dt - getDate tza t) * msPerDay) →
  localDay tza (setDate tza t dt) = localDay tza t - getDate tza t + dt.
Proof.
  unfold readsBackOnItsDay, localDay, setDate. cbv zeta.
  rewrite setDate_local. intros ->.
  unfold Day, msPerDay. rewrite Z.div_add by discriminate. lia.
Qed.

(** Two dates print the same date string exactly when they fall on
    the same local calendar day. *)
Lemma dateStringEqb_localDay (a b : Z) :
  dateStringEqb (toDateString tza a) (toDateString tza b) = true
  <-> localDay tza a = localDay tza b.
Proof.
  unfold dateStringEqb, toDateString, localDay.
  cbn [dsWeekDay dsMonth dsDate dsYear].
  unfold MonthFromTime, DateFromTime, YearFromTime.
  split.
  - intros H.
    apply andb_prop in H as [H Hy]. apply andb_prop in H as [H Hd].
    apply andb_prop in H as [_ Hm].
    apply Z.eqb_eq in Hy, Hd, Hm.
    apply civilFromDays_inj. revert Hy Hd Hm.
    generalize (civilFromDays (Day (LocalTime tza a)))
               (civilFromDays (Day (LocalTime tza b))).
    intros [y1 m1 d1] [y2 m2 d2]. cbn [year month date]. congruence.
  - unfold WeekDay. intros ->. rewrite !Z.eqb_refl. reflexivity.
Qed.
End LocalTimeFacts.

(** In a zone with one offset every wall-clock time reads back as
    itself. *)
Lemma fixedZone_readsBack (offset tl : Z) :
  readsBackOnItsDay (fixedZone offset) tl.
Proof.
  unfold readsBackOnItsDay, LocalTime, UTC, fixedZone. f_equal. lia.
Qed.

End JsDateFacts.
(** ** Facts about insertion-ordered sets *)

Module JsFacts.
Import Js.

Lemma elem_of_setAdd (x y : string) (s : list string) :
  y ∈ setAdd x s ↔ y = x ∨ y ∈ s.
Proof.
  unfold setAdd. case_decide.
  - split; [auto|]. intros [->|?]; done.
  - rewrite elem_of_app, list_elem_of_singleton. tauto.
Qed.

Lemma NoDup_setAdd (x : string) (s : list string) : NoDup s → NoDup (setAdd x s).
Proof.
  unfold setAdd. case_decide; [done|]. intros Hs.
  apply NoDup_app. split_and!; [done| |apply NoDup_singleton].
  intros y Hy ->%list_elem_of_singleton. done.
Qed.
End JsFacts.

(** ** The streak rule *)

Module StreakFacts.
Import JsDate JsDateFacts Firestore StreakSpec.

Section Streak.
Variable tza : Zone.

Lemma localDay_yesterday (t : Z) :
  yesterdayReadsBack tza t →
  localDay tza (setDate tza t (getDate tza t - 1)) = localDay tza t - 1.
Proof.
  intros Hback. rewrite localDay_setDate; [lia|].
  unfold yesterdayReadsBack in Hback.
  replace (LocalTime tza t + (getDate tza t - 1 - getDate tza t) * msPerDay)
    with (LocalTime tza t - msPerDay) by lia.
  exact Hback.
Qed.

Lemma dateStringEqb_false (a b : Z) :
  dateStringEqb (toDateString tza a) (toDateString tza b) = false
  ↔ localDay tza a ≠ localDay tza b.
Proof.
  rewrite <- dateStringEqb_localDay.
  destruct (dateStringEqb _ _); split; congruence.
Qed.

Lemma orZero_default (x : option Z) : orZero x = default 0 x.
Proof.
  destruct x as [n|]; [|done]. cbn. case Z.eqb_spec; congruence.
Qed.

(** The badge pass and the insertion of the history record leave the
    [users] collection as the streak update made it. *)
Lemma saveInterviewHistory_users clk newId uid ty sr dr db :
  users (saveInterviewHistory tza clk newId uid ty sr dr db)
  = users (updateUserStreak tza clk uid db).2.
Proof.
  unfold saveInterviewHistory, updateUserStreakAndBadges, updateUserStreak.
  cbn [users withHistory].
  destruct (users db !! uid) as [p|]; cbn [users withUsers];
    repeat match goal with
           | |- context [if ?c then _ else _] => destruct c
           end; reflexivity.
Qed.

(** Whatever the zone does, a stored profile is left as it is, or gets
    its streak plus one, or gets streak 1, the last two with the
    timestamp of the write. *)
Lemma updateUserStreak_cases clk uid db p :
  users db !! uid = Some p →
  let stored := users (updateUserStreak tza clk uid db).2 !! uid in
  stored = Some p
  ∨ stored = Some (Profile.mk (Profile.userId p)
                              (Some (default 0 (Profile.streak p) + 1))
                              (Some (profileWritten clk)))
  ∨ stored = Some (Profile.mk (Profile.userId p) (Some 1) (Some (profileWritten clk))).
Proof.
  intros Hp. cbv zeta. unfold updateUserStreak. rewrite Hp.
  destruct (dateStringEqb (toDateString tza (today clk)) _); cbn [negb].
  - left. exact Hp.
  - right. cbn [snd users withUsers]. rewrite lookup_insert_eq, Hp. cbn [mergeStreak].
    destruct (dateStringEqb _ _); [left|right]; [|reflexivity].
    rewrite orZero_default. reflexivity.
Qed.

Lemma updateUserStreak_stored clk uid db p :
  yesterdayReadsBack tza (today clk) →
  users db !! uid = Some p →
  users (updateUserStreak tza clk uid db).2 !! uid = Some (streakAfter tza clk p).
Proof.
  intros Hback Hp. unfold updateUserStreak, streakAfter. rewrite Hp.
  set (last := default 0 (Profile.lastActivityDate p)).
  destruct (dateStringEqb (toDateString tza (today clk)) (toDateString tza last))
    eqn:Hsame; cbn [negb].
  - apply dateStringEqb_localDay in Hsame.
    rewrite decide_True by done. exact Hp.
  - apply dateStringEqb_false in Hsame.
    rewrite decide_False by done.
    cbn [snd users withUsers]. rewrite lookup_insert_eq, Hp. cbn [mergeStreak].
    destruct (dateStringEqb (toDateString tza last) _) eqn:Hy.
    + apply dateStringEqb_localDay in Hy.
      rewrite localDay_yesterday in Hy by done.
      rewrite decide_True by done. rewrite orZero_default. reflexivity.
    + apply dateStringEqb_false in Hy.
      rewrite localDay_yesterday in Hy by done.
      rewrite decide_False by done. reflexivity.
Qed.
End Streak.



(** C10. A user with no profile document, or with a profile that has no
    lastActivityDate, saves a history record (on any day after the 2nd of
    January 1970, local time, in any zone where yesterday's wall-clock
    time reads back on its own day, which holds in every zone with one
    offset): the missing date is read as the epoch, the reset branch is
    taken, and the stored profile has streak 1 and the timestamp of this
    write as lastActivityDate. *)
Theorem first_record_starts_streak (tza : Zone) (clk : Times) (newId uid : string)
    (ty : HistoryType) (sr : ScoreRating) (dr : DataReference) (db : Db) :
  users db !! uid ≫= Profile.lastActivityDate = None →
  localDay tza 0 + 1 < localDay tza (today clk) →
  yesterdayReadsBack tza (today clk) →
  ∃ p', users (saveInterviewHistory tza clk newId uid ty sr dr db) !! uid = Some p'
        ∧ Profile.streak p' = Some 1
        ∧ Profile.lastActivityDate p' = Some (profileWritten clk).
Proof.
  intros Hnone Hclock Hback. rewrite saveInterviewHistory_users.
  destruct (users db !! uid) as [p|] eqn:Hp.
  - cbn in Hnone.
    rewrite (updateUserStreak_stored tza clk uid db p Hback Hp).
    unfold streakAfter. rewrite Hnone.
    change (default 0 None) with 0.
    rewrite !decide_False by lia. eexists. split_and!; reflexivity.
  - unfold updateUserStreak. rewrite Hp. cbn [Profile.lastActivityDate].
    change (default 0 None) with 0.
    assert (Hsame : dateStringEqb (toDateString tza (today clk)) (toDateString tza 0)
                    = false) by (apply dateStringEqb_false; lia).
    rewrite Hsame. cbn [negb].
    assert (Hy : dateStringEqb (toDateString tza 0)
                   (toDateString tza (setDate tza (today clk) (getDate tza (today clk) - 1)))
                 = false).
    { apply dateStringEqb_false. rewrite localDay_yesterday by done. lia. }
    rewrite Hy. cbn [snd users withUsers]. rewrite !lookup_insert_eq.
    eexists. split_and!; reflexivity.
Qed.

Lemma first_record_starts_streak_witness :
  users Samples.emptyDb !! "u1" ≫= Profile.lastActivityDate = None
  ∧ localDay Samples.newYork 0 + 1 < localDay Samples.newYork (today Samples.newYorkTimes)
  ∧ yesterdayReadsBack Samples.newYork (today Samples.newYorkTimes)
  ∧ ∃ p', users (saveInterviewHistory Samples.newYork Samples.newYorkTimes "h1" "u1"
                   aptitude (ScoreNumber 60) Samples.noData Samples.emptyDb) !! "u1"
          = Some p'
          ∧ Profile.streak p' = Some 1
          ∧ Profile.lastActivityDate p' = Some (profileWritten Samples.newYorkTimes).
Proof.
  split_and!; [vm_compute; reflexivity..|].
  apply (first_record_starts_streak Samples.newYork Samples.newYorkTimes "h1" "u1"
           aptitude (ScoreNumber 60) Samples.noData Samples.emptyDb);
    vm_compute; reflexivity.
Defined.
End StreakFacts.

(** ** The badge evaluator *)

Module BadgeFacts.
Import JsDate Firestore BadgeSpec.

Lemma elem_of_earned (rules : list (string * bool)) (acc : list string) (b : string) :
  b ∈ fold_left (λ (earnedBadgeIds : list string) (rule : string * bool),
                   if rule.2 then Js.setAdd rule.1 earnedBadgeIds else earnedBadgeIds)
                rules acc
  ↔ b ∈ acc ∨ (b, true) ∈ rules.
Proof.
  revert acc. induction rules as [|[i c] rules IH]; intros acc; cbn [fold_left].
  - rewrite elem_of_nil. tauto.
  - rewrite IH, elem_of_cons. cbn [fst snd]. destruct c.
    + rewrite JsFacts.elem_of_setAdd. split.
      * intros [[->|?]|?]; auto.
      * intros [?|[[= ->]|?]]; auto.
    + split; [tauto|]. intros [?|[?|?]]; auto. congruence.
Qed.

(** A badge is returned exactly when its rule holds. *)
Lemma elem_of_checkAllBadges tza now history streak revisionCount (b : string) :
  b ∈ checkAllBadges tza now history streak revisionCount
  ↔ (b, true) ∈ badgeRules tza now history streak revisionCount.
Proof.
  unfold checkAllBadges. rewrite elem_of_earned, elem_of_nil. tauto.
Qed.

Lemma submseteq_filter {A} (P : A → Prop) `{!∀ x, Decision (P x)} (l k : list A) :
  l ⊆+ k → filter P l ⊆+ filter P k.
Proof.
  induction 1; rewrite ?filter_cons; repeat case_decide;
    eauto using submseteq_nil, submseteq_skip, submseteq_swap, submseteq_cons,
                submseteq_trans.
Qed.

Lemma existsb_submseteq {A} (f : A → bool) (l k : list A) :
  l ⊆+ k → existsb f l = true → existsb f k = true.
Proof.
  intros Hlk. rewrite !existsb_exists. intros (x & Hx & Hf).
  exists x. split; [|done].
  apply list_elem_of_In. eapply elem_of_submseteq; [|done]. by apply list_elem_of_In.
Qed.

Lemma atLeast_submseteq {A} (n : nat) (l k : list A) :
  l ⊆+ k → bool_decide (n ≤ length l)%nat = true → bool_decide (n ≤ length k)%nat = true.
Proof.
  intros Hlk%submseteq_length. rewrite !bool_decide_eq_true. lia.
Qed.

Lemma nonempty_submseteq {A} (l k : list A) :
  l ⊆+ k → bool_decide (0 < length l)%nat = true → bool_decide (0 < length k)%nat = true.
Proof.
  intros Hlk%submseteq_length. rewrite !bool_decide_eq_true. lia.
Qed.

Lemma modules_submseteq (ts : list HistoryType) (l k : list InterviewHistory) :
  l ⊆+ k →
  forallb (λ t, bool_decide (t ∈ type <$> l)) ts = true →
  forallb (λ t, bool_decide (t ∈ type <$> k)) ts = true.
Proof.
  intros Hlk. rewrite !forallb_forall. intros H t Ht.
  specialize (H t Ht). rewrite bool_decide_eq_true in *.
  eapply elem_of_submseteq; [done|]. by apply fmap_submseteq.
Qed.

Lemma keeps_elem_of Q (rs rs' : list (string * bool)) (b : string) :
  Forall2 (keeps Q) rs rs' → (b, true) ∈ rs → Q b → (b, true) ∈ rs'.
Proof.
  induction 1 as [|[i c] [i' c'] rs rs' [Hi Hc] _ IH]; [by rewrite elem_of_nil|].
  rewrite !elem_of_cons. cbn [fst snd] in *. intros [[= -> <-]|?] HQ.
  - left. rewrite Hc by done. by subst.
  - right. auto.
Qed.

Lemma badgeRules_keeps tza now now' H H' streak streak' (rc rc' : nat) :
  H ⊆+ H' → streak ≤ streak' → (rc ≤ rc')%nat →
  Forall2 (keeps (λ b, b = "weekend-warrior" → weekendWarrior tza now' H' = true))
          (badgeRules tza now H streak rc) (badgeRules tza now' H' streak' rc').
Proof.
  intros HH Hs Hr. unfold badgeRules.
  pose proof (submseteq_filter (λ item, type item = aptitude) _ _ HH) as Hapt.
  pose proof (submseteq_filter
                (λ h, quizType (dataReference h) = Some "Diagnostic") _ _ Hapt) as Hdiag.
  repeat match goal with
         | |- Forall2 _ (_ :: _) (_ :: _) => constructor
         | |- Forall2 _ [] [] => constructor
         end.
  all: unfold keeps; cbn [fst snd]; (split; [reflexivity|intros Hc HQ]).
  all: try (apply Z.leb_le; apply Z.leb_le in Hc; lia).
  all: try (eapply atLeast_submseteq; [|exact Hc]; by try apply submseteq_filter).
  all: try (eapply existsb_submseteq; [|exact Hc]; done).
  all: try (eapply nonempty_submseteq; [|exact Hc]; done).
  all: try (eapply modules_submseteq; [|exact Hc]; done).
  - by apply HQ.
  - rewrite bool_decide_eq_true in *. lia.
Qed.

(** C2, as the code has it. Let [H'] hold every record of [H] (and
    possibly more), with a streak and a revision count that are no
    smaller. Every badge returned for [H] is returned for [H'], whenever
    the two evaluations run, with one exception: weekend-warrior is
    returned again only when its own rule (the evaluation day is a
    Saturday or Sunday and the most recent record carries that date) holds
    at the re-evaluation. *)
Theorem badges_kept_except_weekend (tza : Zone) (now now' : Z) (H H' : list InterviewHistory)
    (streak streak' : Z) (rc rc' : nat) (b : string) :
  H ⊆+ H' → streak ≤ streak' → (rc ≤ rc')%nat →
  b ∈ checkAllBadges tza now H streak rc →
  (b = "weekend-warrior" → weekendWarrior tza now' H' = true) →
  b ∈ checkAllBadges tza now' H' streak' rc'.
Proof.
  intros HH Hs Hr Hb HQ. rewrite elem_of_checkAllBadges in *.
  eapply keeps_elem_of; [by apply badgeRules_keeps| |]; done.
Qed.

Lemma badges_kept_except_weekend_witness :
  Samples.sundayHistory ⊆+ Samples.mondayHistory
  ∧ "weekend-warrior" ∈ checkAllBadges utc Samples.sundayOne Samples.sundayHistory 7 0
  ∧ "streak-7" ∈ checkAllBadges utc Samples.sundayOne Samples.sundayHistory 7 0
  ∧ "streak-7" ∈ checkAllBadges utc Samples.mondayOne Samples.mondayHistory 8 0.
Proof.
  assert (Hsub : Samples.sundayHistory ⊆+ Samples.mondayHistory)
    by apply submseteq_inserts_l, reflexivity.
  assert (Hin : ∀ b, (b, true) ∈ badgeRules utc Samples.sundayOne Samples.sundayHistory 7 0
                     → b ∈ checkAllBadges utc Samples.sundayOne Samples.sundayHistory 7 0)
    by (intros b; apply elem_of_checkAllBadges).
  assert (H7 : "streak-7" ∈ checkAllBadges utc Samples.sundayOne Samples.sundayHistory 7 0)
    by (apply Hin; vm_compute; apply list_elem_of_here).
  split_and!; [exact Hsub| |exact H7|].
  - apply Hin. vm_compute. do 2 apply list_elem_of_further. apply list_elem_of_here.
  - apply (badges_kept_except_weekend utc Samples.sundayOne Samples.mondayOne
             Samples.sundayHistory Samples.mondayHistory 7 8 0 0 "streak-7" Hsub);
      [lia|lia|exact H7|discriminate].
Defined.

(** C2 as stated fails: a user who practised on Sunday holds
    weekend-warrior; re-evaluated on Monday, over the same history
    extended by a Monday quiz, the evaluator no longer returns it. *)
Lemma weekend_badge_not_returned_again :
  Samples.sundayHistory ⊆+ Samples.mondayHistory
  ∧ "weekend-warrior" ∈ checkAllBadges utc Samples.sundayOne Samples.sundayHistory 1 0
  ∧ "weekend-warrior" ∉ checkAllBadges utc Samples.mondayOne Samples.mondayHistory 2 0
  ∧ Samples.sundayHistory ⊆+ Samples.saturdayFirst
  ∧ "weekend-warrior" ∉ checkAllBadges utc Samples.sundayOne Samples.saturdayFirst 1 0.
Proof.
  split_and!.
  - apply submseteq_inserts_l. reflexivity.
  - apply elem_of_checkAllBadges. vm_compute.
    do 2 apply list_elem_of_further. apply list_elem_of_here.
  - rewrite elem_of_checkAllBadges.
    apply (bool_decide_eq_false_1
             (("weekend-warrior", true)
                ∈ badgeRules utc Samples.mondayOne Samples.mondayHistory 2 0)).
    vm_compute. reflexivity.
  - apply submseteq_inserts_l. reflexivity.
  - rewrite elem_of_checkAllBadges.
    apply (bool_decide_eq_false_1
             (("weekend-warrior", true)
                ∈ badgeRules utc Samples.sundayOne Samples.saturdayFirst 1 0)).
    vm_compute. reflexivity.
Qed.

(** *** Stored badges *)

Lemma writeBadges_keeps (at_ : Z) (newBadgeIds : list string)
    (stored : gmap string Badge.t) (b : string) :
  is_Some (stored !! b) → is_Some (writeBadges at_ newBadgeIds stored !! b).
Proof.
  revert stored. unfold writeBadges.
  induction newBadgeIds as [|i ids IH]; intros stored Hb; [exact Hb|].
  cbn [fold_left]. apply IH.
  destruct (List.find _ allBadges); [|exact Hb].
  destruct (decide (i = b)) as [->|Hne].
  - rewrite lookup_insert_eq. eauto.
  - rewrite lookup_insert_ne by done. exact Hb.
Qed.

(** The badges stored for a user. *)
Lemma badges_after_save tza clk newId uid ty sr dr db :
  ∃ ids, badges (saveInterviewHistory tza clk newId uid ty sr dr db) !! uid
         = Some (writeBadges (badgesWritten clk) ids (default ∅ (badges db !! uid))).
Proof.
  unfold saveInterviewHistory, updateUserStreakAndBadges.
  destruct (updateUserStreak tza clk uid _) as [profile db1] eqn:Hdb1.
  assert (Hb : badges db1 = badges db).
  { unfold updateUserStreak in Hdb1. cbn [users withHistory] in Hdb1.
    destruct (users db !! uid); destruct (negb _); simplify_eq; reflexivity. }
  cbn [badges withBadges]. rewrite lookup_insert_eq, Hb. eauto.
Qed.

(** Saving a history record never removes a badge the user already holds:
    the badge pass only writes badge documents, so a badge whose rule no
    longer holds stays stored. *)
Theorem stored_badges_are_kept (tza : Zone) (clk : Times) (newId uid : string)
    (ty : HistoryType) (sr : ScoreRating) (dr : DataReference) (db : Db) (b : string) :
  is_Some (default ∅ (badges db !! uid) !! b) →
  is_Some (default ∅ (badges (saveInterviewHistory tza clk newId uid ty sr dr db) !! uid)
             !! b).
Proof.
  intros Hb. destruct (badges_after_save tza clk newId uid ty sr dr db) as [ids ->].
  cbn [default from_option]. by apply writeBadges_keeps.
Qed.

Lemma stored_badges_are_kept_witness :
  let db' := saveInterviewHistory utc Samples.mondayTimes "h2" "u1" aptitude
               (ScoreNumber 60) Samples.noData Samples.dbWeekendBadge in
  is_Some (default ∅ (badges Samples.dbWeekendBadge !! "u1") !! "weekend-warrior")
  ∧ "weekend-warrior"
    ∉ checkAllBadges utc Samples.mondayOne (getInterviewHistory db' "u1") 2 0
  ∧ is_Some (default ∅ (badges db' !! "u1") !! "weekend-warrior").
Proof.
  cbv zeta.
  assert (Hheld : is_Some (default ∅ (badges Samples.dbWeekendBadge !! "u1")
                             !! "weekend-warrior")) by (vm_compute; eauto).
  split_and!; [exact Hheld| |].
  - rewrite elem_of_checkAllBadges.
    apply (bool_decide_eq_false_1 (("weekend-warrior", true) ∈ _)).
    vm_compute. reflexivity.
  - apply (stored_badges_are_kept utc Samples.mondayTimes "h2" "u1" aptitude
             (ScoreNumber 60) Samples.noData Samples.dbWeekendBadge "weekend-warrior"
             Hheld).
Defined.
End BadgeFacts.

(** ** Goals *)

Module GoalFacts.
Import Firestore GoalSpec.

(** What the batch of [setUserGoal] leaves under a document name, before
    the new goal is inserted. *)
Lemma lookup_deactivated (u : string) (m : gmap string Goal.t) (k : string) :
  ((Goal.withIsActive false <$> filter (isActiveGoalOf u) m) ∪ m) !! k
  = (λ g, if decide (isActiveGoalOf u (k, g)) then Goal.withIsActive false g else g)
      <$> m !! k.
Proof.
  rewrite lookup_union, lookup_fmap.
  destruct (m !! k) as [g|] eqn:Hk; cbn [fmap option_fmap option_map].
  - case_decide as Hd.
    + rewrite (map_lookup_filter_Some_2 _ m k g Hk Hd). reflexivity.
    + rewrite (proj2 (map_lookup_filter_None _ m k)); [reflexivity|].
      right. intros g'. rewrite Hk. intros [= <-]. exact Hd.
  - rewrite (proj2 (map_lookup_filter_None _ m k)); [reflexivity|]. by left.
Qed.

(** C4. After [setUserGoal] with a goal marked active and a fresh
    document name, the user's active goals are exactly the new goal; each
    goal of the user that was active is still stored, with isActive set to
    false and nothing else changed; every other stored goal is untouched;
    no document is deleted. *)
Theorem setUserGoal_single_active (newId : string) (goal : Goal.t) (db : Db) :
  Goal.isActive goal = true →
  userGoals db !! newId = None →
  let db' := setUserGoal newId goal db in
  activeGoalsOf (Goal.userId goal) db' = {[ newId := goal ]}
  ∧ (∀ k g, userGoals db !! k = Some g →
            userGoals db' !! k
            = Some (if decide (isActiveGoalOf (Goal.userId goal) (k, g))
                    then Goal.withIsActive false g else g))
  ∧ (∀ k, is_Some (userGoals db !! k) → is_Some (userGoals db' !! k)).
Proof.
  intros Hact Hfresh db'.
  assert (Hold : ∀ k g, userGoals db !! k = Some g →
            userGoals db' !! k
            = Some (if decide (isActiveGoalOf (Goal.userId goal) (k, g))
                    then Goal.withIsActive false g else g)).
  { intros k g Hk. unfold db', setUserGoal. cbn [userGoals withUserGoals].
    rewrite lookup_insert_ne by congruence.
    rewrite lookup_deactivated, Hk. reflexivity. }
  split_and!; [|exact Hold|].
  - apply map_eq. intros k. unfold activeGoalsOf.
    destruct (decide (k = newId)) as [->|Hne].
    + rewrite lookup_singleton_eq. apply map_lookup_filter_Some.
      unfold db', setUserGoal. cbn [userGoals withUserGoals].
      rewrite lookup_insert_eq. done.
    + rewrite lookup_singleton_ne by done. apply map_lookup_filter_None.
      destruct (userGoals db !! k) as [g|] eqn:Hk.
      * right. intros g'. rewrite (Hold k g Hk). intros [= <-].
        unfold isActiveGoalOf. cbn [snd]. case_decide as Hd.
        -- cbn. intros [_ ?]. done.
        -- exact Hd.
      * left. unfold db', setUserGoal. cbn [userGoals withUserGoals].
        rewrite lookup_insert_ne by done. rewrite lookup_deactivated, Hk. done.
  - intros k [g Hk]. rewrite (Hold k g Hk). eauto.
Qed.

Lemma setUserGoal_single_active_witness :
  let goal := Samples.goalOf "u1" LOGICAL_REASONING 0 true in
  let db' := setUserGoal "g3" goal Samples.dbGoals in
  activeGoalsOf "u1" db' = {[ "g3" := goal ]}
  ∧ userGoals db' !! "g1" = Some (Samples.goalOf "u1" QUANTITATIVE 50 false)
  ∧ userGoals db' !! "g2" = Some (Samples.goalOf "u2" QUANTITATIVE 20 true)
  ∧ is_Some (userGoals db' !! "g0").
Proof.
  cbv zeta.
  destruct (setUserGoal_single_active "g3" (Samples.goalOf "u1" LOGICAL_REASONING 0 true)
              Samples.dbGoals) as (Hone & Hold & Hkept).
  - reflexivity.
  - vm_compute. reflexivity.
  - split_and!.
    + exact Hone.
    + rewrite (Hold "g1" (Samples.goalOf "u1" QUANTITATIVE 50 true))
        by (vm_compute; reflexivity).
      reflexivity.
    + rewrite (Hold "g2" (Samples.goalOf "u2" QUANTITATIVE 20 true))
        by (vm_compute; reflexivity).
      reflexivity.
    + apply Hkept. vm_compute. eauto.
Defined.

(** *** Refreshing the accuracy of the active goal *)

#[local] Instance newer_trans {A} (ts : A → option Z) :
  Transitive (λ a b, newerOrEqual (ts a) (ts b)).
Proof. intros a b c. unfold newerOrEqual. lia. Qed.

#[local] Instance newer_total {A} (ts : A → option Z) :
  Total (λ a b, newerOrEqual (ts a) (ts b)).
Proof. intros a b. unfold newerOrEqual. lia. Qed.

(** [orderBy('timestamp', 'desc')] followed by [limit(n)] splits the
    dated documents into the [n] most recent and the rest. *)
Lemma limit_most_recent {A} (ts : A → option Z) (n : nat) (docs : list A) :
  let sorted := orderByTimestampDesc ts docs in
  take n sorted ++ drop n sorted ≡ₚ filter (λ d, is_Some (ts d)) docs
  ∧ ∀ x y, x ∈ take n sorted → y ∈ drop n sorted → newerOrEqual (ts x) (ts y).
Proof.
  cbv zeta. unfold orderByTimestampDesc. split.
  - rewrite take_drop. apply merge_sort_Permutation.
  - pose proof (StronglySorted_merge_sort (λ a b, newerOrEqual (ts a) (ts b))
                  (filter (λ d, is_Some (ts d)) docs)) as Hs.
    rewrite <- (take_drop n) in Hs. apply StronglySorted_app in Hs.
    intros x y Hx Hy. by apply Hs.
Qed.

(** The query for the active goal returns the one active goal. *)
Lemma active_goal_found (db : Db) (uid docId : string) (g : Goal.t) :
  userGoals db !! docId = Some g →
  isActiveGoalOf uid (docId, g) →
  (∀ k g', userGoals db !! k = Some g' → isActiveGoalOf uid (k, g') → k = docId) →
  map_to_list (filter (isActiveGoalOf uid) (userGoals db)) = [(docId, g)].
Proof.
  intros Hg Hact Honly.
  assert (Heq : filter (isActiveGoalOf uid) (userGoals db) = {[ docId := g ]}).
  { apply map_eq. intros k. destruct (decide (k = docId)) as [->|Hne].
    - rewrite lookup_singleton_eq. by apply map_lookup_filter_Some.
    - rewrite lookup_singleton_ne by done. apply map_lookup_filter_None.
      destruct (userGoals db !! k) as [g'|] eqn:Hk; [right|by left].
      intros g'' [= <-] Hact'. apply Hne. eauto. }
  rewrite Heq. apply map_to_list_singleton.
Qed.


(** What the average query returns: the dated aptitude records of the
    topic split into [recent], the five most recent (all of them when
    there are fewer), and [older]; with no such record the answer is
    [null], otherwise it is the sum of the scores of [recent], added from
    0 in the order of the query, divided by their number. *)
Lemma getAverageAccuracyForTopic_recent (db : Db) (uid t : string) :
  Forall (λ h, type h = aptitude → is_Some (scoreAsNumber h)) (historyOf db uid) →
  ∃ (recent older : list InterviewHistory) (scores : list float),
    recent ++ older ≡ₚ topicRecords db uid t
    ∧ length recent = min 5 (length (topicRecords db uid t))
    ∧ (∀ x y, x ∈ recent → y ∈ older → newerOrEqual (timestamp x) (timestamp y))
    ∧ Forall2 (λ h s, scoreRating h = ScoreNumber s) recent scores
    ∧ getAverageAccuracyForTopic db uid t
      = Some (match recent with
              | [] => None
              | _ => Some (fold_left PrimFloat.add scores 0
                           / Js.ofNat (length scores))%float
              end).
Proof.
  intros Hnum.
  set (matching := filter (matchesTopic t) (historyOf db uid)).
  set (sorted := orderByTimestampDesc timestamp matching).
  destruct (limit_most_recent timestamp 5 matching) as [Hperm Hnewer].
  fold sorted in Hperm, Hnewer.
  assert (Hin : ∀ h, h ∈ take 5 sorted → is_Some (scoreAsNumber h)).
  { intros h Hh. rewrite Forall_forall in Hnum.
    assert (Hd : h ∈ filter (λ d, is_Some (timestamp d)) matching).
    { rewrite <- Hperm. apply elem_of_app. by left. }
    apply list_elem_of_filter in Hd as [_ Hm].
    apply list_elem_of_filter in Hm as [[Hty _] Hh']. auto. }
  destruct (mapM_is_Some_2 scoreAsNumber (take 5 sorted)) as [scores Hscores].
  { apply Forall_forall. exact Hin. }
  exists (take 5 sorted), (drop 5 sorted), scores.
  split_and!.
  - exact Hperm.
  - rewrite length_take. f_equal. unfold topicRecords. fold matching.
    rewrite <- Hperm, take_drop. reflexivity.
  - exact Hnewer.
  - apply mapM_Some_1 in Hscores. eapply Forall2_impl; [exact Hscores|].
    intros h s. unfold scoreAsNumber. destruct (scoreRating h); congruence.
  - unfold getAverageAccuracyForTopic. fold matching. fold sorted.
    destruct (take 5 sorted) as [|h0 rest] eqn:Htake; [reflexivity|].
    rewrite Hscores. reflexivity.
Qed.


(** Six quantitative quizzes scored 10, 40, 50, 60, 70 and 80, oldest
    first: the five most recent average 60, which replaces the stored 50. *)
Example getActiveGoal_sample :
  getActiveGoal Samples.dbGoals "u1"
  = Some (Some (Goal.withId (Some "g1") (Samples.goalOf "u1" QUANTITATIVE 60 true)),
          withUserGoals (<["g1" := Samples.goalOf "u1" QUANTITATIVE 60 true]>
                           (userGoals Samples.dbGoals)) Samples.dbGoals).
Proof. vm_compute. reflexivity. Qed.

End GoalFacts.

(** ** The aptitude quiz: scoring and the resume snapshot *)

Module AptitudeFacts.
Import AptitudePrep AptitudeSpec.

Lemma countCorrect_from (pre rest : list AptitudeQuestion)
    (answers : list (option string)) (correct : nat) :
  countCorrect rest answers (length pre) correct
  = (correct + length (filter (answeredCorrectly (pre ++ rest) answers)
                              (seq (length pre) (length rest))))%nat.
Proof.
  revert pre correct. induction rest as [|q rest IH]; intros pre correct.
  - cbn. lia.
  - cbn [countCorrect length seq]. rewrite filter_cons.
    replace (S (length pre)) with (length (pre ++ [q])) by (rewrite length_app; cbn; lia).
    rewrite IH. rewrite <- (assoc_L (++) pre [q] rest). cbn [app].
    assert (Hq : (pre ++ q :: rest) !! length pre = Some q)
      by (rewrite lookup_app_r, Nat.sub_diag by lia; reflexivity).
    assert (Hiff : answeredCorrectly (pre ++ q :: rest) answers (length pre)
                   ↔ answers !! length pre = Some (Some (correctAnswer q))).
    { unfold answeredCorrectly. rewrite Hq. cbn.
      split; [intros [? _]; congruence|]. intros ->. eauto. }
    case_bool_decide as Hb; case_decide as Hd; cbn [length]; try lia.
    + exfalso. apply Hd, Hiff, Hb.
    + exfalso. apply Hb, Hiff, Hd.
Qed.

Lemma countCorrect_spec (qs : list AptitudeQuestion) (answers : list (option string)) :
  countCorrect qs answers 0 0
  = length (filter (answeredCorrectly qs answers) (seq 0 (length qs))).
Proof. apply (countCorrect_from [] qs answers 0). Qed.

Lemma countCorrect_le (qs : list AptitudeQuestion) (answers : list (option string)) :
  (countCorrect qs answers 0 0 ≤ length qs)%nat.
Proof.
  rewrite countCorrect_spec.
  etransitivity; [apply length_filter|]. by rewrite length_seq.
Qed.

(** C6. The result [calculateResult] shows for a quiz of [n] questions:
    correctAnswers is the number of indices at which the answer given is
    exactly the question's correct answer, incorrectAnswers is [n] minus
    that (and is not negative), and score is (correctAnswers / n) * 100
    in floating point; with 5 questions and 3 correct answers the score is
    60 and incorrectAnswers is 2. *)
Theorem calculateResult_scores (s : State) (finalAnswers : list (option string))
    (finalTimes : list (option float)) :
  (1 ≤ length (questions s))%nat →
  ∃ r, result (calculateResult finalAnswers finalTimes s).1 = Some r
    ∧ total r = length (questions s)
    ∧ correctAnswers r
      = length (filter (answeredCorrectly (questions s) finalAnswers)
                       (seq 0 (length (questions s))))
    ∧ incorrectAnswers r = Z.of_nat (total r) - Z.of_nat (correctAnswers r)
    ∧ 0 ≤ incorrectAnswers r
    ∧ score r = (Js.ofNat (correctAnswers r) / Js.ofNat (total r) * 100)%float
    ∧ (total r = 5%nat → correctAnswers r = 3%nat →
       score r = 60%float ∧ incorrectAnswers r = 2).
Proof.
  intros _. eexists. split; [reflexivity|].
  cbn [quizResultData total correctAnswers incorrectAnswers score].
  pose proof (countCorrect_le (questions s) finalAnswers) as Hle.
  split_and!; try reflexivity.
  - apply countCorrect_spec.
  - lia.
  - intros -> ->. split; reflexivity.
Qed.

Lemma calculateResult_scores_witness :
  (1 ≤ length (questions Samples.quizInProgress))%nat
  ∧ ∃ r, result (calculateResult Samples.fiveAnswers [] Samples.quizInProgress).1 = Some r
      ∧ total r = length (questions Samples.quizInProgress)
      ∧ correctAnswers r
        = length (filter (answeredCorrectly (questions Samples.quizInProgress)
                                            Samples.fiveAnswers)
                         (seq 0 (length (questions Samples.quizInProgress))))
      ∧ incorrectAnswers r = Z.of_nat (total r) - Z.of_nat (correctAnswers r)
      ∧ 0 ≤ incorrectAnswers r
      ∧ score r = (Js.ofNat (correctAnswers r) / Js.ofNat (total r) * 100)%float
      ∧ (total r = 5%nat → correctAnswers r = 3%nat →
         score r = 60%float ∧ incorrectAnswers r = 2).
Proof.
  split; [vm_compute; lia|].
  apply (calculateResult_scores Samples.quizInProgress Samples.fiveAnswers []).
  vm_compute. lia.
Defined.

(** The five-question quiz with three correct answers, evaluated. *)
Example five_questions_three_correct :
  let r := quizResultData Samples.quizInProgress Samples.fiveAnswers [] in
  score r = 60%float ∧ correctAnswers r = 3%nat ∧ incorrectAnswers r = 2.
Proof. vm_compute. done. Qed.

(** C5. A quiz in progress (flow active, at least one question) is
    snapshotted by [saveQuizProgress], the page is loaded again (the mount
    effect reads the snapshot into a fresh component) and the user
    resumes: the questions, the answer list and the current question
    index are those of the snapshotted quiz, as are the remaining time,
    the topic, the difficulty and the number of questions; the quiz is
    active again; the per-question times are those written to the
    snapshot; and the timing baseline [questionStartTime] is the moment of
    resumption. *)
Theorem resume_restores_quiz (s : State) (storage : LocalStorage)
    (savedAt resumedAt : Z) (hasCompleted : option bool) :
  flow s = active →
  (0 < length (questions s))%nat →
  let storage' := saveQuizProgress savedAt s storage in
  let mounted := checkDiagnosticStatus storage' hasCompleted initialState in
  let resumed := handleResumeQuiz resumedAt mounted in
  questions resumed = questions s
  ∧ userAnswers resumed = userAnswers s
  ∧ currentQuestionIndex resumed = currentQuestionIndex s
  ∧ timeLeft resumed = timeLeft s
  ∧ quizTopic resumed = quizTopic s
  ∧ selectedDifficulty resumed = selectedDifficulty s
  ∧ numQuestions resumed = numQuestions s
  ∧ flow resumed = active
  ∧ timePerQuestion resumed = Js.jsonNumber <$> addTimeSpent savedAt s
  ∧ questionStartTime resumed = resumedAt.
Proof.
  intros Hflow Hq storage' mounted resumed.
  unfold resumed, mounted, storage', saveQuizProgress.
  rewrite Hflow, !bool_decide_eq_true_2 by done.
  cbn. split_and!; reflexivity.
Qed.

Lemma resume_restores_quiz_witness :
  let s := Samples.quizInProgress in
  let resumed :=
    handleResumeQuiz Samples.mondayNoon
      (checkDiagnosticStatus (saveQuizProgress Samples.sundayOne s None) (Some true)
                             initialState) in
  flow s = active
  ∧ (0 < length (questions s))%nat
  ∧ questions resumed = Samples.fiveQuestions
  ∧ userAnswers resumed = Samples.fiveAnswers
  ∧ currentQuestionIndex resumed = 4%nat
  ∧ questionStartTime resumed = Samples.mondayNoon.
Proof.
  cbv zeta.
  pose proof (resume_restores_quiz Samples.quizInProgress None Samples.sundayOne
                Samples.mondayNoon (Some true) eq_refl) as H.
  cbv zeta in H.
  destruct H as (Hq & Ha & Hi & _ & _ & _ & _ & _ & _ & Ht); [vm_compute; lia|].
  split_and!; [reflexivity|vm_compute; lia|exact Hq|exact Ha|exact Hi|exact Ht].
Defined.
End AptitudeFacts.

(** ** The mock-interview orchestrator *)

Module MockFacts.
Import MockInterview MockSpec.

Lemma settleBackground_frame (s : State) :
  flow (settleBackground s) = flow s
  ∧ currentRoundIndex (settleBackground s) = currentRoundIndex s
  ∧ currentQuestionIndex (settleBackground s) = currentQuestionIndex s
  ∧ roundResults (settleBackground s) = roundResults s
  ∧ error (settleBackground s) = error s
  ∧ isLoading (settleBackground s) = isLoading s
  ∧ (backgroundRejected (settleBackground s) ↔ backgroundRejected s).
Proof.
  unfold settleBackground, backgroundRejected.
  destruct (backgroundFetchPromise s) as [[o st]|] eqn:Hp.
  - destruct st; cbn [settled outcome].
    + rewrite Hp. repeat split; auto.
    + destruct o as [[techQs hrQs]|]; cbn; repeat split; try done.
      * intros (p & [= <-] & Ho). discriminate Ho.
      * intros (p & [= <-] & Ho). discriminate Ho.
      * intros (p & [= <-] & Ho). eauto.
      * intros (p & [= <-] & Ho). eauto.
  - rewrite Hp. repeat split; auto.
Qed.

Lemma finishInterview_flow generated currentResults s :
  flow (finishInterview generated currentResults s) = results
  ∧ finalResults (finishInterview generated currentResults s) = currentResults.
Proof.
  unfold finishInterview. destruct generated as [[? ? ? []]|]; cbn; done.
Qed.

Lemma roundsInvariant_settle (s : State) :
  roundsInvariant s → roundsInvariant (settleBackground s).
Proof.
  unfold roundsInvariant.
  destruct (settleBackground_frame s) as (-> & -> & _ & -> & _ & _ & Hrej).
  intros H Hf. specialize (H Hf).
  destruct (currentRoundIndex s) as [|[|n]]; [|tauto|done].
  destruct H as [?|[? ?]]; [by left|right]. tauto.
Qed.

(** Brings a goal about a handler applied to an explicit state record to
    its cases. *)
Ltac handler_cases :=
  repeat match goal with
         | |- context [bool_decide ?P] =>
             first [ rewrite (bool_decide_eq_true_2 P) by (cbn; lia)
                   | rewrite (bool_decide_eq_false_2 P) by (cbn; lia) ]
         end;
  cbn.

Lemma roundsInvariant_proceed feedback generated (s : State) :
  roundsInvariant s → roundsInvariant (proceedToNext feedback generated s).
Proof.
  destruct s as [fl bg dur tl idx rr aq aa qi tq ta hq ha il lm er fr ov].
  unfold roundsInvariant, proceedToNext, backgroundRejected.
  cbn [flow currentRoundIndex roundResults backgroundFetchPromise currentQuestionIndex].
  intros Hinv.
  destruct idx as [|[|[|n]]]; cbn [lookup list_lookup INTERVIEW_STRUCTURE];
    [| | |exact Hinv]; case_bool_decide as Hlast; try exact Hinv.
  - (* the aptitude round ends *)
    handler_cases.
    destruct bg as [[[[techQs hrQs]|] st]|]; [destruct st|destruct st|]; cbn;
      intros Hfl; specialize (Hinv Hfl).
    all: try (destruct Hinv as [->|[_ (p & [= <-] & Ho)]]; [|discriminate Ho];
              split; [cbn; eauto|intros (p & [= <-] & Ho); discriminate Ho]).
    all: try (right; split; [|eauto];
              apply Forall_app; split; [|repeat constructor];
              destruct Hinv as [->|[? _]]; [constructor|done]).
    destruct Hinv as [->|[_ (p & [=] & _)]].
    split; [cbn; eauto|]. intros (p & [=] & _).
  - (* the technical round ends *)
    destruct feedback as [feedbacks|]; handler_cases.
    + destruct bg as [[[[techQs hrQs]|] st]|]; [destruct st|destruct st|]; cbn;
        try done; intros Hfl; destruct (Hinv Hfl) as [_ Hnot];
        exfalso; apply Hnot; eauto.
    + exact Hinv.
  - (* the HR round ends *)
    destruct feedback as [feedbacks|]; handler_cases.
    + destruct generated as [[? ? ? []]|]; cbn; discriminate.
    + done.
Qed.

Lemma roundsInvariant_tick generated (s : State) :
  roundsInvariant s → roundsInvariant (tick generated s).
Proof.
  intros Hinv. unfold tick. destruct (_ && _); [|exact Hinv].
  unfold timerEffect. destruct (_ && _).
  - intros Hflow. exfalso. revert Hflow.
    match goal with
    | |- context [finishInterview ?g ?c ?t] =>
        destruct (finishInterview_flow g c t) as [-> _]
    end. discriminate.
  - exact Hinv.
Qed.

Lemma roundsInvariant_start aptitude background generated (s : State) :
  roundsInvariant (startInterview aptitude background generated s).
Proof.
  unfold startInterview. destruct aptitude as [aptiQuestions|].
  - unfold timerEffect. destruct (_ && _).
    + intros Hflow. exfalso. revert Hflow.
      match goal with
      | |- context [finishInterview ?g ?c ?t] =>
          destruct (finishInterview_flow g c t) as [-> _]
      end. discriminate.
    + intros _. cbn. by left.
  - intros Hflow. cbn in Hflow. discriminate.
Qed.

Lemma roundsInvariant_step generated (e : Event) (s : State) :
  roundsInvariant s → roundsInvariant (step generated e s).
Proof.
  intros Hinv. unfold step. destruct (offered e s) eqn:Hoff; [|exact Hinv].
  destruct e; cbn [offered] in Hoff.
  - apply bool_decide_eq_true in Hoff. intros Hflow. cbn in Hflow. congruence.
  - apply roundsInvariant_start.
  - by apply roundsInvariant_settle.
  - exact Hinv.
  - exact Hinv.
  - exact Hinv.
  - by apply roundsInvariant_proceed.
  - by apply roundsInvariant_tick.
  - intros Hflow. cbn in Hflow. discriminate.
Qed.

Lemma roundsInvariant_run generated (events : list Event) (s : State) :
  roundsInvariant s → roundsInvariant (run generated events s).
Proof.
  revert s. induction events as [|e events IH]; intros s Hinv; [exact Hinv|].
  cbn. apply IH. by apply roundsInvariant_step.
Qed.

Lemma roundsInvariant_initial : roundsInvariant initialState.
Proof. intros Hflow. cbn in Hflow. discriminate. Qed.

(** C3, as the code has it. In any run of the orchestrator, when the
    clock reaches zero while the technical round is in progress the
    interview is finalized at once, and the result list handed to the
    report is the accumulated [roundResults]: exactly the one aptitude
    result, with no technical and no HR entry (answers typed in the
    unfinished round are not part of it). *)
Theorem timer_expiry_in_technical_round (generated : Outcome Report)
    (events : list Event) :
  let s := run generated events initialState in
  flow s = active → currentRoundIndex s = 1%nat → timeLeft s = 1 →
  let s' := step generated Tick s in
  flow s' = results
  ∧ finalResults s' = roundResults s
  ∧ ∃ score total correct, finalResults s' = [AptitudeResult score total correct].
Proof.
  intros s Hflow Hidx Htime s'.
  pose proof (roundsInvariant_run generated events initialState
                roundsInvariant_initial) as Hinv.
  fold s in Hinv. specialize (Hinv Hflow). rewrite Hidx in Hinv.
  destruct Hinv as [Hone _].
  assert (Hs' : s' = finishInterview generated (roundResults s) (setTimeLeft 0 s)).
  { unfold s', step, tick, timerEffect. cbn [offered].
    rewrite Hflow, Htime. cbn. rewrite Hflow. reflexivity. }
  destruct (finishInterview_flow generated (roundResults s) (setTimeLeft 0 s))
    as [Hfl Hfin].
  rewrite Hs', Hfl, Hfin. split_and!; [reflexivity|reflexivity|exact Hone].
Qed.

Lemma timer_expiry_in_technical_round_witness :
  let s := Samples.lastSecond in
  let s' := step Samples.generatedReport Tick s in
  flow s = active ∧ currentRoundIndex s = 1%nat ∧ timeLeft s = 1
  ∧ flow s' = results
  ∧ finalResults s' = roundResults s
  ∧ ∃ score total correct, finalResults s' = [AptitudeResult score total correct].
Proof.
  cbv zeta. unfold Samples.lastSecond.
  set (events := Samples.untilTechnicalAnswer ++ replicate 3599 Tick).
  assert (Hflow : flow (run Samples.generatedReport events initialState) = active)
    by (vm_compute; reflexivity).
  assert (Hidx : currentRoundIndex (run Samples.generatedReport events initialState)
                 = 1%nat) by (vm_compute; reflexivity).
  assert (Htime : timeLeft (run Samples.generatedReport events initialState) = 1)
    by (vm_compute; reflexivity).
  destruct (timer_expiry_in_technical_round Samples.generatedReport events
              Hflow Hidx Htime) as (Hresults & Hfinal & Hone).
  split_and!; assumption.
Defined.

(** C3 as stated fails: the user has typed an answer to the first
    technical question when the clock runs out, and the finalized list
    holds the aptitude result alone; the typed answer is in no entry. *)
Lemma partial_technical_answers_left_out :
  let s := Samples.lastSecond in
  let s' := step Samples.generatedReport Tick s in
  flow s = active ∧ currentRoundIndex s = 1%nat ∧ timeLeft s = 1
  ∧ technicalAnswers s !! 0%nat = Some (Some "A function with its environment.")
  ∧ flow s' = results
  ∧ finalResults s' = [AptitudeResult 20 30 6]
  ∧ Forall isAptitudeResult (finalResults s').
Proof.
  cbv zeta.
  assert (Hfin : finalResults (step Samples.generatedReport Tick Samples.lastSecond)
                 = [AptitudeResult 20 30 6]) by (vm_compute; reflexivity).
  split_and!; try (vm_compute; reflexivity).
  rewrite Hfin. repeat constructor.
Qed.

(** *** A failed round transition *)

(** On every such failure the orchestrator stays in the round and on the
    question it was on and records the error message in its state; the
    screen of an active interview does not print that message. *)
Lemma proceedToNext_failure (feedback : Outcome (list string))
    (generated : Outcome Report) (r : Round) (s : State) :
  flow s = active →
  INTERVIEW_STRUCTURE !! currentRoundIndex s = Some r →
  Z.of_nat (currentQuestionIndex s) = Z.of_nat (ROUND_QUESTION_COUNT r) - 1 →
  transitionFails r feedback s →
  let s' := proceedToNext feedback generated s in
  currentRoundIndex s' = currentRoundIndex s
  ∧ currentQuestionIndex s' = currentQuestionIndex s
  ∧ flow s' = active
  ∧ error s' = Some (roundError r)
  ∧ renderedError s' = None.
Proof.
  destruct s as [fl bg dur tl idx rr aq aa qi tq ta hq ha il lm er fr ov].
  unfold proceedToNext, transitionFails, backgroundRejected, renderedError.
  cbn [flow currentRoundIndex roundResults backgroundFetchPromise currentQuestionIndex].
  intros -> Hr Hlast Hfail. rewrite Hr. cbv zeta.
  rewrite bool_decide_eq_true_2 by exact Hlast.
  destruct idx as [|[|[|n]]]; cbn in Hr; simplify_eq; handler_cases.
  - destruct Hfail as (p & [= ->] & Ho). destruct p as [o st].
    cbn in Ho. subst o. destruct st; cbn; done.
  - destruct feedback as [feedbacks|]; handler_cases; [|done].
    destruct Hfail as [[=]|(p & [= ->] & Ho)]. destruct p as [o st].
    cbn in Ho. subst o. destruct st; cbn; done.
  - done.
Qed.

Lemma proceedToNext_failure_witness :
  let s := Samples.lastTechnicalQuestion in
  let s' := proceedToNext Rejected Samples.generatedReport s in
  flow s = active
  ∧ transitionFails Technical Rejected s
  ∧ currentRoundIndex s' = currentRoundIndex s
  ∧ currentQuestionIndex s' = currentQuestionIndex s
  ∧ flow s' = active
  ∧ error s' = Some (roundError Technical)
  ∧ renderedError s' = None.
Proof.
  cbv zeta.
  assert (Hfails : transitionFails Technical Rejected Samples.lastTechnicalQuestion)
    by (left; reflexivity).
  assert (Hflow : flow Samples.lastTechnicalQuestion = active)
    by (vm_compute; reflexivity).
  split_and!; [exact Hflow|exact Hfails|..];
    refine (_ (proceedToNext_failure Rejected Samples.generatedReport Technical
                 Samples.lastTechnicalQuestion Hflow _ _ Hfails));
    try (vm_compute; reflexivity); cbv zeta; intros (? & ? & ? & ? & ?); assumption.
Defined.

(** C9 on a run: the feedback request for the technical round is rejected
    when the sixth question is submitted. The orchestrator stays in the
    technical round, on the sixth question, with the error message in its
    state, and the screen it shows prints no error. *)
Lemma failed_round_error_not_rendered :
  let s := Samples.lastTechnicalQuestion in
  let s' := step Samples.generatedReport (ProceedToNext Rejected) s in
  flow s = active ∧ currentRoundIndex s = 1%nat ∧ currentQuestionIndex s = 5%nat
  ∧ currentRoundIndex s' = 1%nat ∧ currentQuestionIndex s' = 5%nat
  ∧ flow s' = active
  ∧ error s'
    = Some "Failed to process the Technical round or load the next one. Please try again."
  ∧ renderedError s' = None.
Proof. cbv zeta. split_and!; vm_compute; reflexivity. Qed.
End MockFacts.

(** ** Parse failures in the generation service *)

Module GeminiFacts.
Import Gemini GeminiSpec.

Lemma fmap_const_replicate {A B} (b : B) (l : list A) :
  (λ _, b) <$> l = replicate (length l) b.
Proof. induction l as [|a l IH]; [done|]. cbn. by rewrite IH. Qed.

(** The loop that asks for one question at a time returns the questions
    when every request is answered, and fails with the error of the first
    request that fails. *)
Lemma askOneByOne_all (single : nat → Result string) (i : nat) (qs : list string) :
  (∀ k q, qs !! k = Some q → single (i + k)%nat = Returned q) →
  askOneByOne single i (length qs) = Returned qs.
Proof.
  revert i. induction qs as [|q qs IH]; intros i Hall; [done|].
  cbn [length askOneByOne].
  pose proof (Hall 0%nat q eq_refl) as H0. rewrite Nat.add_0_r in H0. rewrite H0.
  cbn. rewrite IH; [done|].
  intros k q' Hk. replace (S i + k)%nat with (i + S k)%nat by lia. by apply Hall.
Qed.

Lemma askOneByOne_first_failure (single : nat → Result string) (i count k : nat)
    (e : string) :
  (k < count)%nat → single (i + k)%nat = Thrown e →
  (∀ j, (j < k)%nat → ∃ q, single (i + j)%nat = Returned q) →
  askOneByOne single i count = Thrown e.
Proof.
  revert i k. induction count as [|count IH]; intros i k Hk He Hbefore; [lia|].
  cbn [askOneByOne]. destruct k as [|k].
  - rewrite Nat.add_0_r in He. by rewrite He.
  - destruct (Hbefore 0%nat ltac:(lia)) as [q Hq]. rewrite Nat.add_0_r in Hq.
    rewrite Hq. cbn. rewrite (IH (S i) k); [done|lia| |].
    + by replace (S i + k)%nat with (i + S k)%nat by lia.
    + intros j Hj. replace (S i + j)%nat with (i + S j)%nat by lia.
      apply Hbefore. lia.
Qed.

(** C8, as the code has it. When the text of a response is not JSON,
    every one of the fourteen operations that parse a response catches
    the failure. Ten return a fixed stand-in: the default topic, a fixed
    feedback or report record, one placeholder feedback per turn of the
    conversation, three fixed discussion topics, or one fixed discussion
    turn. The two question-list generators ask again, one request per
    question: when every request is answered they return exactly those
    questions, in the order asked, and when a request fails the call
    throws the error of the first failing request and returns nothing.
    The other two, [generateAptitudeQuestions] and [parseUserGoal], throw
    an error of their own with a fixed message instead of returning a
    value. *)
Theorem parse_failure_outcome (op : Operation) (c : Call) :
  readResponse op c NotJson =
  match op with
  | GenerateAptitudeQuestions =>
      Thrown "Failed to generate aptitude questions. The AI response was not valid JSON."
  | ParseUserGoal =>
      Thrown "Failed to parse user goal. The AI response was not valid JSON."
  | GenerateMultipleTechnicalQuestions | GenerateMultipleHrQuestions =>
      match askOneByOne (single c) 0 (count c) with
      | Returned questions => Returned (strings questions)
      | Thrown e => Thrown e
      end
  | ExtractTopicFromGoal => Returned (VString "Quantitative Aptitude")
  | GetTechnicalFeedbackAndFollowUp =>
      Returned (VObject
        [ ("feedback", VString "I'm sorry, I had a little trouble processing that. Let's try another angle.");
          ("followUpQuestion", VString "Let's switch gears. What's a recent technical challenge you faced and how did you overcome it?") ])
  | GetTechnicalInterviewFeedback | GetHrInterviewFeedback =>
      Returned (VArray (replicate (length (conversation c)) (VString placeholderFeedback)))
  | GetTechnicalSessionFeedback | GetHrFinalReport =>
      Returned (VObject
        [ ("rating", VString "N/A"); ("summary", VString "Error generating feedback.");
          ("report", VString "Could not generate a report.") ])
  | GenerateGdTopics => Returned fallbackGdTopics
  | OrchestrateGdTurn =>
      Returned (VArray
        [ VObject
            [ ("participant", VString (ai1Name c));
              ("message", VString "I'm sorry, I seem to have lost my train of thought. Could you repeat your last point?") ] ])
  | ReviewProfile =>
      Returned (VObject
        [ ("rating", VString "N/A"); ("summary", VString "Error generating feedback.");
          ("keyRecommendations", VArray []);
          ("feedback", VString "Could not generate a report.") ])
  | GetMockInterviewOverallFeedback =>
      Returned (VObject
        [ ("recommendation", VString "N/A");
          ("summary", VString "Error generating feedback.");
          ("report", VString "Could not generate a report.") ])
  end
  ∧ (op = GenerateMultipleTechnicalQuestions ∨ op = GenerateMultipleHrQuestions →
     (∀ qs, length qs = count c →
            (∀ i q, qs !! i = Some q → single c i = Returned q) →
            readResponse op c NotJson = Returned (strings qs))
     ∧ (∀ i e, (i < count c)%nat → single c i = Thrown e →
               (∀ j, (j < i)%nat → ∃ q, single c j = Returned q) →
               readResponse op c NotJson = Thrown e)).
Proof.
  split.
  - destruct op; try reflexivity.
    + cbn. unfold noFeedback, strings. rewrite fmap_const_replicate.
      by rewrite fmap_replicate.
    + cbn. unfold noFeedback, strings. rewrite fmap_const_replicate.
      by rewrite fmap_replicate.
  - intros Hop.
    assert (Hread : readResponse op c NotJson
                    = (questions ← askOneByOne (single c) 0 (count c);
                       Returned (strings questions)))
      by (destruct Hop as [-> | ->]; reflexivity).
    rewrite Hread. split.
    + intros qs <- Hall. by rewrite (askOneByOne_all (single c) 0 qs Hall).
    + intros i e Hi He Hbefore.
      by rewrite (askOneByOne_first_failure (single c) 0 (count c) i e Hi He Hbefore).
Qed.

(** On the sample calls: the feedback operation returns one placeholder
    per turn, a question-list generator returns the two questions asked
    for one at a time, and throws when the third of five requests
    fails. *)
Lemma parse_failure_outcome_witness :
  readResponse GetHrInterviewFeedback Samples.sampleCall NotJson
  = Returned (VArray [VString placeholderFeedback; VString placeholderFeedback])
  ∧ readResponse GenerateMultipleHrQuestions Samples.sampleCall NotJson
    = Returned (strings ["First?"; "Next?"])
  ∧ readResponse GenerateMultipleTechnicalQuestions Samples.failingCall NotJson
    = Thrown "quota exceeded".
Proof.
  split; [exact (proj1 (parse_failure_outcome GetHrInterviewFeedback Samples.sampleCall))|].
  split.
  - apply (proj2 (parse_failure_outcome GenerateMultipleHrQuestions Samples.sampleCall)).
    + by right.
    + reflexivity.
    + intros i q Hq. destruct i as [|[|i]]; cbn in Hq; by simplify_eq.
  - apply (proj2 (parse_failure_outcome GenerateMultipleTechnicalQuestions
                    Samples.failingCall)) with (i := 2%nat).
    + by left.
    + cbn. lia.
    + reflexivity.
    + intros j Hj. exists "Why?". destruct j as [|[|j]]; [done|done|lia].
Defined.

(** C8 as stated fails for four operations. On a response that is not
    JSON, [generateAptitudeQuestions] and [parseUserGoal] return no value;
    their callers receive an exception. The two question-list generators
    return no value either when one of the requests they fall back on
    fails; their callers receive the error of that request. *)
Lemma parse_failure_rethrown :
  readResponse GenerateAptitudeQuestions Samples.sampleCall NotJson
  = Thrown "Failed to generate aptitude questions. The AI response was not valid JSON."
  ∧ readResponse ParseUserGoal Samples.sampleCall NotJson
    = Thrown "Failed to parse user goal. The AI response was not valid JSON."
  ∧ (∀ v, readResponse GenerateAptitudeQuestions Samples.sampleCall NotJson
          ≠ Returned v)
  ∧ readResponse GenerateMultipleTechnicalQuestions Samples.failingCall NotJson
    = Thrown "quota exceeded"
  ∧ readResponse GenerateMultipleHrQuestions Samples.failingCall NotJson
    = Thrown "quota exceeded".
Proof.
  split_and!; [reflexivity|reflexivity| |reflexivity|reflexivity].
  intros v. discriminate.
Qed.

(** The stand-ins on the sample call. *)
Example parse_failure_feedback_sample :
  readResponse GetHrInterviewFeedback Samples.sampleCall NotJson
  = Returned (VArray [VString placeholderFeedback; VString placeholderFeedback])
  ∧ readResponse GenerateMultipleHrQuestions Samples.sampleCall NotJson
    = Returned (VArray [VString "First?"; VString "Next?"]).
Proof. split; reflexivity. Qed.
End GeminiFacts.
(** ** Converting fetched data *)

Module TimestampFacts.
Import Timestamps.

Lemma Data_nested_ind (P : Data → Prop) :
  P DNull → (∀ b, P (DBool b)) → (∀ x, P (DNumber x)) → (∀ s, P (DString s)) →
  (∀ s n, P (DTimestamp s n)) → (∀ t, P (DDate t)) →
  (∀ items, Forall P items → P (DArray items)) →
  (∀ fields, Forall (λ kv, P kv.2) fields → P (DObject fields)) →
  ∀ d, P d.
Proof.
  intros Hnull Hbool Hnum Hstr Hts Hdate Harr Hobj. fix IH 1.
  intros [ |b|x|s|s n|t|items|fields];
    [exact Hnull|apply Hbool|apply Hnum|apply Hstr|apply Hts|apply Hdate| |].
  - apply Harr. induction items as [|d items IHitems]; constructor; [apply IH|exact IHitems].
  - apply Hobj. induction fields as [|[k d] fields IHfields]; constructor;
      [apply IH|exact IHfields].
Qed.

Lemma setProperty_values (Q : Data → Prop) key v acc :
  Q v → Forall (λ kv, Q kv.2) acc → Forall (λ kv, Q kv.2) (setProperty key v acc).
Proof.
  intros Hv Hacc. unfold setProperty. case_decide.
  - apply Forall_fmap. eapply Forall_impl; [exact Hacc|].
    intros [k d] Hd. cbn. case_decide; done.
  - apply Forall_app. split; [done|]. by constructor.
Qed.

Lemma fold_setProperty_values (Q : Data → Prop) (f : Data → Data) fields acc :
  Forall (λ kv, Q (f kv.2)) fields → Forall (λ kv, Q kv.2) acc →
  Forall (λ kv, Q kv.2)
         (fold_left (λ acc kv, setProperty kv.1 (f kv.2) acc) fields acc).
Proof.
  revert acc. induction fields as [|kv fields IH]; intros acc Hf Hacc; [done|].
  cbn [fold_left]. apply Forall_cons in Hf as [Hkv Hf].
  apply IH; [done|]. by apply setProperty_values.
Qed.

Lemma fold_setProperty_fresh (f : Data → Data) fields acc :
  NoDup (acc.*1 ++ fields.*1) →
  fold_left (λ acc kv, setProperty kv.1 (f kv.2) acc) fields acc
  = acc ++ ((λ kv, (kv.1, f kv.2)) <$> fields).
Proof.
  revert acc. induction fields as [|[k d] fields IH]; intros acc Hnd.
  - by rewrite app_nil_r.
  - cbn [fold_left fmap list_fmap fst snd]. cbn [fmap list_fmap fst] in Hnd.
    assert (Hk : k ∉ acc.*1).
    { apply NoDup_app in Hnd as (_ & Hdisj & _). intros Hin.
      apply (Hdisj k Hin). apply list_elem_of_here. }
    unfold setProperty at 2. rewrite decide_False by done.
    rewrite IH.
    + by rewrite <- app_assoc.
    + rewrite fmap_app. cbn. rewrite <- app_assoc. exact Hnd.
Qed.

(** Whatever the fetched data looks like, the converted data holds no
    Firestore timestamp at any depth: not in an array, not under any key
    of a map, however deeply nested. *)
Theorem convertTimestamps_no_timestamp (toDate : Z → Z → Z) (data : Data) :
  hasTimestamp (convertTimestamps toDate data) = false.
Proof.
  induction data as [ | | | | | |items IH|fields IH] using Data_nested_ind;
    try reflexivity.
  - cbn [convertTimestamps hasTimestamp].
    apply not_true_is_false. rewrite existsb_exists.
    intros (d & Hd & Ht). apply list_elem_of_In, list_elem_of_fmap in Hd as (d0 & -> & Hd0).
    rewrite Forall_forall in IH. rewrite (IH d0 Hd0) in Ht. discriminate.
  - cbn [convertTimestamps hasTimestamp].
    apply not_true_is_false. rewrite existsb_exists.
    intros ([k d] & Hd & Ht). apply list_elem_of_In in Hd.
    pose proof (fold_setProperty_values (λ d, hasTimestamp d = false)
                  (convertTimestamps toDate) fields [] IH (Forall_nil_2 _)) as Hall.
    rewrite Forall_forall in Hall. rewrite (Hall _ Hd) in Ht. discriminate.
Qed.

(** Data without timestamps and dates, whose maps have no repeated key,
    comes back from the conversion exactly as it went in: same keys in
    the same order, same array elements, same leaves. *)
Theorem convertTimestamps_plain (toDate : Z → Z → Z) (data : Data) :
  plain data = true → convertTimestamps toDate data = data.
Proof.
  induction data as [ | | | | | |items IH|fields IH] using Data_nested_ind;
    try reflexivity; try discriminate.
  - cbn [plain convertTimestamps]. rewrite forallb_forall. intros Hp. f_equal.
    rewrite <- (list_fmap_id items) at 2. apply list_fmap_ext.
    intros i d Hd. apply list_elem_of_lookup_2 in Hd.
    rewrite Forall_forall in IH. apply IH; [done|]. apply Hp. by apply list_elem_of_In.
  - cbn [plain convertTimestamps]. intros [Hnd Hp]%andb_prop.
    apply bool_decide_eq_true in Hnd. rewrite forallb_forall in Hp. f_equal.
    rewrite fold_setProperty_fresh by done. cbn [app].
    rewrite <- (list_fmap_id fields) at 2. apply list_fmap_ext.
    intros i [k d] Hd. apply list_elem_of_lookup_2 in Hd. cbn.
    rewrite Forall_forall in IH. f_equal. apply (IH (k, d) Hd).
    apply (Hp (k, d)). by apply list_elem_of_In.
Qed.

Lemma convertTimestamps_plain_witness :
  let doc := DObject [ ("userId", DString "u1"); ("streak", DNumber 3);
                       ("tags", DArray [DString "a"; DNull]) ] in
  plain doc = true ∧ convertTimestamps (λ s n, s * 1000 + n `div` 1000000) doc = doc.
Proof.
  cbv zeta.
  assert (Hp : plain (DObject [ ("userId", DString "u1"); ("streak", DNumber 3);
                                ("tags", DArray [DString "a"; DNull]) ]) = true)
    by (vm_compute; reflexivity).
  split; [exact Hp|].
  exact (convertTimestamps_plain (λ s n, s * 1000 + n `div` 1000000) _ Hp).
Defined.
End TimestampFacts.

(** ** The badge pass, and what the dashboard reads *)

Module ServiceFacts.
Import JsDate JsDateFacts Firestore Service ServiceSpec.

#[local] Instance timestamp_order_trans {A} (ts : A → option Z) :
  Transitive (λ a b, newerOrEqual (ts a) (ts b)).
Proof. intros a b c. unfold newerOrEqual. lia. Qed.

#[local] Instance timestamp_order_total {A} (ts : A → option Z) :
  Total (λ a b, newerOrEqual (ts a) (ts b)).
Proof. intros a b. unfold newerOrEqual. lia. Qed.

(** *** Ordered queries *)

Lemma elem_of_orderByTimestampDesc {A} (ts : A → option Z) (docs : list A) (x : A) :
  x ∈ orderByTimestampDesc ts docs ↔ x ∈ docs ∧ is_Some (ts x).
Proof.
  unfold orderByTimestampDesc.
  rewrite merge_sort_Permutation, list_elem_of_filter. tauto.
Qed.

Lemma length_orderByTimestampDesc {A} (ts : A → option Z) (docs : list A) :
  length (orderByTimestampDesc ts docs) = length (filter (λ d, is_Some (ts d)) docs).
Proof. unfold orderByTimestampDesc. by rewrite merge_sort_Permutation. Qed.

(** A document that is strictly newer than every other one comes first. *)
Lemma head_orderByTimestampDesc {A} (ts : A → option Z) (docs : list A) (x : A) (t : Z) :
  x ∈ docs → ts x = Some t →
  (∀ y t', y ∈ docs → ts y = Some t' → y = x ∨ t' < t) →
  head (orderByTimestampDesc ts docs) = Some x.
Proof.
  intros Hx Ht Hnewest.
  assert (Hin : x ∈ orderByTimestampDesc ts docs)
    by (apply elem_of_orderByTimestampDesc; rewrite Ht; eauto).
  pose proof (StronglySorted_merge_sort (λ a b, newerOrEqual (ts a) (ts b))
                (filter (λ d, is_Some (ts d)) docs)) as Hs.
  fold (orderByTimestampDesc ts docs) in Hs.
  destruct (orderByTimestampDesc ts docs) as [|h tl] eqn:Hsorted;
    [by apply elem_of_nil in Hin|].
  cbn [head]. f_equal.
  assert (Hh : h ∈ docs ∧ is_Some (ts h)).
  { apply elem_of_orderByTimestampDesc. rewrite Hsorted. apply list_elem_of_here. }
  destruct Hh as [Hhd [th Hth]].
  apply elem_of_cons in Hin as [->|Hin]; [done|].
  apply StronglySorted_inv in Hs as [_ Hall]. rewrite Forall_forall in Hall.
  specialize (Hall x Hin). unfold newerOrEqual in Hall. rewrite Ht, Hth in Hall.
  cbn in Hall. destruct (Hnewest h th Hhd Hth) as [->|?]; [done|lia].
Qed.

(** *** The evaluator and the catalogue *)

Lemma NoDup_earned (rules : list (string * bool)) (acc : list string) :
  NoDup acc →
  NoDup (fold_left (λ (earnedBadgeIds : list string) (rule : string * bool),
                      if rule.2 then Js.setAdd rule.1 earnedBadgeIds else earnedBadgeIds)
                   rules acc).
Proof.
  revert acc. induction rules as [|[i c] rules IH]; intros acc Hacc; [done|].
  cbn [fold_left fst snd]. apply IH. destruct c; [|done].
  by apply JsFacts.NoDup_setAdd.
Qed.

Lemma find_by_id (l : list Badge.t) (b : string) :
  b ∈ Badge.id <$> l →
  ∃ def, List.find (λ d, bool_decide (Badge.id d = b)) l = Some def ∧ Badge.id def = b.
Proof.
  induction l as [|d l IH]; [by rewrite elem_of_nil|].
  cbn [fmap list_fmap List.find]. rewrite elem_of_cons. intros Hb.
  case_bool_decide as Hd; [by eauto|].
  destruct Hb as [->|Hb]; [done|]. auto.
Qed.

Lemma badgeRules_ids tza now history streak revisionCount :
  (badgeRules tza now history streak revisionCount).*1 = Badge.id <$> allBadges.
Proof. reflexivity. Qed.

(** For every history, streak, revision count and clock reading, the
    evaluator returns each badge identifier at most once, and every
    identifier it returns names a badge of the catalogue: the look-up in
    the loop that writes the badges never comes back empty. *)
Theorem checkAllBadges_catalogue (tza : Zone) (now : Z) (history : list InterviewHistory)
    (streak : Z) (revisionCount : nat) :
  NoDup (checkAllBadges tza now history streak revisionCount)
  ∧ ∀ b, b ∈ checkAllBadges tza now history streak revisionCount →
         ∃ def, List.find (λ d, bool_decide (Badge.id d = b)) allBadges = Some def
                ∧ Badge.id def = b.
Proof.
  split.
  - apply NoDup_earned, NoDup_nil_2.
  - intros b Hb%BadgeFacts.elem_of_checkAllBadges. apply find_by_id.
    rewrite <- (badgeRules_ids tza now history streak revisionCount).
    apply list_elem_of_fmap. by exists (b, true).
Qed.

(** *** What the badge pass writes *)

Lemma writeBadges_lookup (at_ : Z) (ids : list string) (stored : gmap string Badge.t)
    (b : string) (def : Badge.t) :
  List.find (λ d, bool_decide (Badge.id d = b)) allBadges = Some def →
  b ∈ ids ∨ stored !! b = Some (written at_ def) →
  writeBadges at_ ids stored !! b = Some (written at_ def).
Proof.
  intros Hdef. unfold writeBadges. revert stored.
  induction ids as [|i ids IH]; intros stored Hb; cbn [fold_left].
  - destruct Hb as [Hb|Hb]; [by apply elem_of_nil in Hb|done].
  - apply IH. destruct (decide (i = b)) as [->|Hne].
    + rewrite Hdef. right. cbv beta iota. by rewrite lookup_insert_eq.
    + destruct Hb as [Hb|Hb].
      * apply elem_of_cons in Hb as [->|Hb]; [done|by left].
      * right.
        destruct (List.find (λ d, bool_decide (Badge.id d = i)) allBadges); [|done].
        by rewrite lookup_insert_ne.
Qed.

Lemma elem_of_getEarnedBadges (db : Db) (uid : string) (badge : Badge.t) :
  badge ∈ getEarnedBadges db uid
  ↔ ∃ k, default ∅ (badges db !! uid) !! k = Some badge
         ∧ is_Some (Badge.earnedAt badge).
Proof.
  unfold getEarnedBadges. rewrite list_elem_of_fmap. split.
  - intros ([k bd] & -> & Hin). rewrite merge_sort_Permutation in Hin.
    apply list_elem_of_filter in Hin as [Hat Hin].
    apply elem_of_map_to_list in Hin. by exists k.
  - intros (k & Hk & Hat). exists (k, badge). split; [done|].
    rewrite merge_sort_Permutation. apply list_elem_of_filter. split; [done|].
    by apply elem_of_map_to_list.
Qed.

Section Pass.
Variable tza : Zone.

Lemma updateUserStreak_frame clk uid db :
  interview_history (updateUserStreak tza clk uid db).2 = interview_history db
  ∧ revisionQuestions (updateUserStreak tza clk uid db).2 = revisionQuestions db
  ∧ badges (updateUserStreak tza clk uid db).2 = badges db
  ∧ userGoals (updateUserStreak tza clk uid db).2 = userGoals db.
Proof.
  unfold updateUserStreak.
  destruct (users db !! uid); destruct (negb _); done.
Qed.

Lemma updateUserStreak_profile clk uid db :
  default 0 (Profile.streak (updateUserStreak tza clk uid db).1)
  = default 0 (users (updateUserStreak tza clk uid db).2 !! uid ≫= Profile.streak).
Proof.
  unfold updateUserStreak.
  destruct (users db !! uid) as [p|] eqn:Hp; destruct (negb _);
    cbn [fst snd users withUsers]; rewrite ?lookup_insert_eq, ?Hp; done.
Qed.

(** The badge pass: what is stored for the user afterwards, in terms of
    the evaluation of the rules on what is stored afterwards. *)
Lemma updateUserStreakAndBadges_spec clk uid db :
  let db' := updateUserStreakAndBadges tza clk uid db in
  badges db' !! uid
  = Some (writeBadges (badgesWritten clk)
            (checkAllBadges tza (badgesChecked clk) (getInterviewHistory db' uid)
               (default 0 (users db' !! uid ≫= Profile.streak))
               (length (getRevisionQuestions db' uid)))
            (default ∅ (badges db !! uid)))
  ∧ users db' = users (updateUserStreak tza clk uid db).2
  ∧ interview_history db' = interview_history db
  ∧ revisionQuestions db' = revisionQuestions db
  ∧ userGoals db' = userGoals db.
Proof.
  cbv zeta. unfold updateUserStreakAndBadges.
  pose proof (updateUserStreak_frame clk uid db) as (Hh & Hr & Hb & Hg).
  pose proof (updateUserStreak_profile clk uid db) as Hs.
  destruct (updateUserStreak tza clk uid db) as [profile db1].
  cbn [fst snd] in *.
  unfold getInterviewHistory, getRevisionQuestions, historyOf.
  cbn [badges users interview_history revisionQuestions userGoals withBadges].
  rewrite lookup_insert_eq, Hb, Hs. done.
Qed.

Lemma badge_pass_lists clk uid db b :
  let db' := updateUserStreakAndBadges tza clk uid db in
  ruleHolds tza (badgesChecked clk) db' uid b →
  holdsBadge db' uid b (badgesWritten clk) ∧ shownEarned db' uid b.
Proof.
  cbv zeta. intros Hrule.
  destruct (updateUserStreakAndBadges_spec clk uid db) as (Hb & _).
  destruct (proj2 (checkAllBadges_catalogue _ _ _ _ _) b Hrule) as (def & Hdef & Hid).
  assert (Hheld : holdsBadge (updateUserStreakAndBadges tza clk uid db) uid b
                             (badgesWritten clk)).
  { exists (written (badgesWritten clk) def). split_and!; try done.
    apply elem_of_getEarnedBadges. exists b. split; [|by eexists].
    rewrite Hb. cbn [default from_option Datatypes.id].
    apply writeBadges_lookup; [done|]. by left. }
  split; [exact Hheld|].
  destruct Hheld as (badge & Hin & Hbid & _).
  exists (Badge.tier def), 
    ((λ badge0, (badge0, bool_decide (Badge.id badge0
        ∈ Badge.id <$> getEarnedBadges (updateUserStreakAndBadges tza clk uid db) uid)))
       <$> filter (λ b0, Badge.tier b0 = Badge.tier def) allBadges), def.
  split_and!; [| |done].
  - unfold Dashboard.badgesByTier. apply list_elem_of_fmap.
    exists (Badge.tier def). split; [done|].
    unfold Dashboard.tiers. rewrite !elem_of_cons. destruct (Badge.tier def); auto.
  - apply list_elem_of_fmap. exists def. split.
    + f_equal. symmetry. apply bool_decide_eq_true.
      apply list_elem_of_fmap. exists badge. by rewrite Hbid, Hid.
    + apply list_elem_of_filter. split; [done|].
      apply find_some in Hdef as [Hdef _]. by apply list_elem_of_In.
Qed.
End Pass.

(** After a session is saved, every badge whose rule holds of what is
    then stored (the fetched history, the stored streak, the fetched
    revision questions, at the instant the badge pass reads the clock) is
    listed by [getEarnedBadges] with [earned] set and the time of the
    write, and the achievements dialog shows it as earned. *)
Theorem rule_holds_badge_listed (tza : Zone) (clk : Times) (newId uid : string)
    (ty : HistoryType) (sr : ScoreRating) (dr : DataReference) (db : Db) (b : string) :
  let db' := saveInterviewHistory tza clk newId uid ty sr dr db in
  ruleHolds tza (badgesChecked clk) db' uid b →
  holdsBadge db' uid b (badgesWritten clk) ∧ shownEarned db' uid b.
Proof. cbv zeta. unfold saveInterviewHistory. apply badge_pass_lists. Qed.

Lemma rule_holds_badge_listed_witness :
  let db' := saveInterviewHistory utc Samples.sundayTimes "h1" "u1" aptitude
               (ScoreNumber 60) Samples.noData Samples.emptyDb in
  ruleHolds utc (badgesChecked Samples.sundayTimes) db' "u1" "weekend-warrior"
  ∧ holdsBadge db' "u1" "weekend-warrior" (badgesWritten Samples.sundayTimes)
  ∧ shownEarned db' "u1" "weekend-warrior".
Proof.
  cbv zeta.
  assert (Hrule : ruleHolds utc (badgesChecked Samples.sundayTimes)
                    (saveInterviewHistory utc Samples.sundayTimes "h1" "u1" aptitude
                       (ScoreNumber 60) Samples.noData Samples.emptyDb)
                    "u1" "weekend-warrior").
  { apply BadgeFacts.elem_of_checkAllBadges. vm_compute.
    do 2 apply list_elem_of_further. apply list_elem_of_here. }
  split; [exact Hrule|].
  exact (rule_holds_badge_listed utc Samples.sundayTimes "h1" "u1" aptitude
           (ScoreNumber 60) Samples.noData Samples.emptyDb "weekend-warrior" Hrule).
Defined.
End ServiceFacts.

(** ** Saved sessions: badges, streak, diagnostic flag *)

Module SessionFacts.
Import JsDate JsDateFacts Firestore Service ServiceSpec ServiceFacts.

Section Sessions.
Variable tza : Zone.

(** The history of the user after a save: the stored records with the
    new one appended. *)
Lemma saveInterviewHistory_history clk newId uid ty sr dr db :
  historyOf (saveInterviewHistory tza clk newId uid ty sr dr db) uid
  = historyOf db uid
    ++ [mkInterviewHistory newId uid ty (Some (historyWritten clk)) sr dr].
Proof.
  unfold saveInterviewHistory.
  destruct (updateUserStreakAndBadges_spec tza clk uid
              (withHistory
                 (<[uid := historyOf db uid
                            ++ [mkInterviewHistory newId uid ty
                                  (Some (historyWritten clk)) sr dr]]>
                    (interview_history db)) db)) as (_ & _ & Hh & _).
  unfold historyOf at 1. rewrite Hh. cbn [interview_history withHistory].
  by rewrite lookup_insert_eq.
Qed.

Lemma saveInterviewHistory_revisions clk newId uid ty sr dr db :
  revisionQuestions (saveInterviewHistory tza clk newId uid ty sr dr db)
  = revisionQuestions db.
Proof.
  unfold saveInterviewHistory.
  destruct (updateUserStreakAndBadges_spec tza clk uid
              (withHistory
                 (<[uid := historyOf db uid
                            ++ [mkInterviewHistory newId uid ty
                                  (Some (historyWritten clk)) sr dr]]>
                    (interview_history db)) db)) as (_ & _ & _ & Hr & _).
  by rewrite Hr.
Qed.

(** A session stamped later than everything stored is the first record
    of the fetched history. *)
Lemma new_session_first clk newId uid ty sr dr db :
  newerThanStored db uid (historyWritten clk) →
  getInterviewHistory (saveInterviewHistory tza clk newId uid ty sr dr db) uid !! 0%nat
  = Some (mkInterviewHistory newId uid ty (Some (historyWritten clk)) sr dr).
Proof.
  intros Hnew. unfold getInterviewHistory. rewrite saveInterviewHistory_history.
  set (doc := mkInterviewHistory newId uid ty (Some (historyWritten clk)) sr dr).
  assert (Hhead : head (orderByTimestampDesc timestamp (historyOf db uid ++ [doc]))
                  = Some doc).
  { apply (head_orderByTimestampDesc _ _ _ (historyWritten clk)).
    - apply elem_of_app. right. apply list_elem_of_here.
    - reflexivity.
    - intros y t' [Hy|Hy%list_elem_of_singleton]%elem_of_app Ht; [|by left].
      right. by apply (Hnew y). }
  destruct (orderByTimestampDesc timestamp (historyOf db uid ++ [doc])); [done|].
  cbn in Hhead. by simplify_eq.
Qed.

Lemma weekendWarrior_first now history h t :
  history !! 0%nat = Some h → timestamp h = Some t →
  getDay tza now = 0 ∨ getDay tza now = 6 →
  localDay tza t = localDay tza now →
  weekendWarrior tza now history = true.
Proof.
  intros Hh Ht Hday Hsame. unfold weekendWarrior. rewrite Hh, Ht.
  assert (Hlen : bool_decide (0 < length history)%nat = true).
  { apply bool_decide_eq_true. destruct history; [done|cbn; lia]. }
  assert (Hwd : (getDay tza now =? 0) || (getDay tza now =? 6) = true).
  { apply orb_true_iff. rewrite !Z.eqb_eq. exact Hday. }
  rewrite Hlen, Hwd. cbn [andb]. by apply dateStringEqb_localDay.
Qed.

Lemma existsb_elem_of {A} (f : A → bool) (l : list A) (x : A) :
  x ∈ l → f x = true → existsb f l = true.
Proof.
  intros Hx Hf. apply existsb_exists. exists x. split; [|done].
  by apply list_elem_of_In.
Qed.

(** The new session satisfies one of the single-session conditions, so
    the rule of that badge holds of the fetched history. *)
Lemma sessionBadges_rule now history streak rc h b rule :
  h ∈ history → (b, rule) ∈ sessionBadges → rule h = true →
  (b, true) ∈ badgeRules tza now history streak rc.
Proof.
  intros Hh Hb Hrule. unfold sessionBadges in Hb.
  assert (Hapt : type h = aptitude → h ∈ filter (λ item, type item = aptitude) history)
    by (intros ?; by apply list_elem_of_filter).
  assert (Hdiag : isDiagnostic h →
            h ∈ filter (λ h, quizType (dataReference h) = Some "Diagnostic")
                  (filter (λ item, type item = aptitude) history)).
  { intros [? ?]. apply list_elem_of_filter. auto. }
  repeat (apply elem_of_cons in Hb as [[= -> ->]|Hb]); [..|by apply elem_of_nil in Hb].
  - apply bool_decide_eq_true in Hrule.
    apply (list_elem_of_lookup_2 _ 16%nat). cbn. do 2 f_equal.
    apply (existsb_elem_of _ _ h); [done|]. by apply bool_decide_eq_true.
  - apply bool_decide_eq_true in Hrule.
    apply (list_elem_of_lookup_2 _ 10%nat). cbn. do 2 f_equal.
    apply bool_decide_eq_true.
    specialize (Hdiag Hrule). destruct (filter _ (filter _ history)).
    + by apply elem_of_nil in Hdiag.
    + cbn. lia.
  - apply andb_prop in Hrule as [Hd%bool_decide_eq_true Hs].
    apply (list_elem_of_lookup_2 _ 11%nat). cbn. do 2 f_equal.
    apply (existsb_elem_of _ _ h); auto.
  - apply andb_prop in Hrule as [Ha%bool_decide_eq_true Hs].
    apply (list_elem_of_lookup_2 _ 5%nat). cbn. do 2 f_equal.
    apply (existsb_elem_of _ _ h); auto.
  - apply andb_prop in Hrule as [[Ha%bool_decide_eq_true Ht]%andb_prop Hs].
    apply (list_elem_of_lookup_2 _ 6%nat). cbn. do 2 f_equal.
    apply (existsb_elem_of _ _ h); [auto|]. by rewrite Ht, Hs.
  - apply andb_prop in Hrule as [[Ha%bool_decide_eq_true Ht]%andb_prop Hs].
    apply (list_elem_of_lookup_2 _ 7%nat). cbn. do 2 f_equal.
    apply (existsb_elem_of _ _ h); [auto|]. by rewrite Ht, Hs.
  - apply andb_prop in Hrule as [[Ha%bool_decide_eq_true Ht]%andb_prop Hs].
    apply (list_elem_of_lookup_2 _ 8%nat). cbn. do 2 f_equal.
    apply (existsb_elem_of _ _ h); [auto|]. by rewrite Ht, Hs.
  - apply andb_prop in Hrule as [[Ha%bool_decide_eq_true Ht]%andb_prop Hs].
    apply (list_elem_of_lookup_2 _ 9%nat). cbn. do 2 f_equal.
    apply (existsb_elem_of _ _ h); [auto|]. by rewrite Ht, Hs.
Qed.
End Sessions.

(** A session saved on a Saturday or a Sunday earns the weekend badge,
    when it is stamped later than every stored record and the server
    stamps it on the local day on which the badge pass reads the
    browser's clock. *)
Theorem weekend_session_earns_badge (tza : Zone) (clk : Times) (newId uid : string)
    (ty : HistoryType) (sr : ScoreRating) (dr : DataReference) (db : Db) :
  newerThanStored db uid (historyWritten clk) →
  getDay tza (badgesChecked clk) = 0 ∨ getDay tza (badgesChecked clk) = 6 →
  localDay tza (historyWritten clk) = localDay tza (badgesChecked clk) →
  holdsBadge (saveInterviewHistory tza clk newId uid ty sr dr db) uid
             "weekend-warrior" (badgesWritten clk).
Proof.
  intros Hnew Hday Hsame.
  apply (badge_pass_lists tza clk uid). fold (saveInterviewHistory tza clk newId uid ty sr dr db).
  unfold ruleHolds. apply BadgeFacts.elem_of_checkAllBadges.
  apply (list_elem_of_lookup_2 _ 2%nat). cbn. do 2 f_equal.
  eapply weekendWarrior_first; [by apply new_session_first|reflexivity|done|done].
Qed.

Lemma weekend_session_earns_badge_witness :
  newerThanStored Samples.emptyDb "u1" (historyWritten Samples.sundayTimes)
  ∧ getDay utc (badgesChecked Samples.sundayTimes) = 0
  ∧ holdsBadge (saveInterviewHistory utc Samples.sundayTimes "h1" "u1" hr ScoreAbsent
                  Samples.noData Samples.emptyDb) "u1"
               "weekend-warrior" (badgesWritten Samples.sundayTimes).
Proof.
  assert (Hnew : newerThanStored Samples.emptyDb "u1"
                   (historyWritten Samples.sundayTimes)).
  { intros h t' Hh. vm_compute in Hh. by apply elem_of_nil in Hh. }
  assert (Hday : getDay utc (badgesChecked Samples.sundayTimes) = 0)
    by (vm_compute; reflexivity).
  split_and!; [exact Hnew|exact Hday|].
  apply (weekend_session_earns_badge utc Samples.sundayTimes "h1" "u1" hr ScoreAbsent
           Samples.noData Samples.emptyDb Hnew); [by left|].
  vm_compute. reflexivity.
Defined.

(** A session stamped later than every stored record earns, by itself,
    each badge whose single-session condition it meets: a profile review
    earns the auditor badge, a diagnostic test the self-aware badge (and
    the high-potential badge with a score over 75), an aptitude quiz of
    at least ten questions scored 100 the perfectionist badge, and an
    aptitude quiz scored over 90 the badge of its topic. *)
Theorem session_earns_its_badges (tza : Zone) (clk : Times) (newId uid : string)
    (ty : HistoryType) (sr : ScoreRating) (dr : DataReference) (db : Db)
    (b : string) (rule : InterviewHistory → bool) :
  newerThanStored db uid (historyWritten clk) →
  (b, rule) ∈ sessionBadges →
  rule (mkInterviewHistory newId uid ty (Some (historyWritten clk)) sr dr) = true →
  holdsBadge (saveInterviewHistory tza clk newId uid ty sr dr db) uid b
             (badgesWritten clk).
Proof.
  intros Hnew Hb Hrule.
  apply (badge_pass_lists tza clk uid). fold (saveInterviewHistory tza clk newId uid ty sr dr db).
  unfold ruleHolds. apply BadgeFacts.elem_of_checkAllBadges.
  eapply sessionBadges_rule; [|exact Hb|exact Hrule].
  eapply list_elem_of_lookup_2. by apply new_session_first.
Qed.

Lemma session_earns_its_badges_witness :
  let perfect := mkDataReference (Some "Practice") (Some QUANTITATIVE) (Some 10) in
  newerThanStored Samples.emptyDb "u1" (historyWritten Samples.mondayTimes)
  ∧ holdsBadge (saveInterviewHistory utc Samples.mondayTimes "h1" "u1" aptitude
                  (ScoreNumber 100) perfect Samples.emptyDb) "u1"
               "quant-master" (badgesWritten Samples.mondayTimes).
Proof.
  cbv zeta.
  assert (Hnew : newerThanStored Samples.emptyDb "u1"
                   (historyWritten Samples.mondayTimes)).
  { intros h t' Hh. vm_compute in Hh. by apply elem_of_nil in Hh. }
  split; [exact Hnew|].
  apply (session_earns_its_badges utc Samples.mondayTimes "h1" "u1" aptitude
           (ScoreNumber 100)
           (mkDataReference (Some "Practice") (Some QUANTITATIVE) (Some 10))
           Samples.emptyDb "quant-master"
           (λ h, bool_decide (type h = aptitude) && topicIs QUANTITATIVE h
                 && scoreAbove 90 h) Hnew).
  - unfold sessionBadges. do 4 apply list_elem_of_further. apply list_elem_of_here.
  - vm_compute. reflexivity.
Defined.
End SessionFacts.

(** ** The streak over a run of sessions *)

Module StreakRunFacts.
Import JsDate JsDateFacts Firestore Service ServiceSpec ServiceFacts StreakSpec.

Lemma last_default {A} (l : list A) (a d d' : A) :
  List.last (a :: l) d = List.last (a :: l) d'.
Proof. revert a. induction l as [|b l IH]; intros a; [done|]. apply (IH b). Qed.

Lemma last_cons {A} (l : list A) (a d : A) : List.last (a :: l) d = List.last l a.
Proof. destruct l as [|b l]; [done|]. apply (last_default l b). Qed.

Lemma snoc_last {A} (l : list A) (a : A) : ∃ init, a :: l = init ++ [List.last l a].
Proof.
  revert a. induction l as [|b l IH]; intros a; [by exists []|].
  destruct (IH b) as [init Hinit]. exists (a :: init).
  cbn [app]. rewrite (last_cons l b a), <- Hinit. reflexivity.
Qed.

Section Run.
Variable tza : Zone.
Variable uid : string.

(** The first session of a user without a last-activity date. *)
Lemma first_session_profile s db :
  users db !! uid ≫= Profile.lastActivityDate = None →
  localDay tza 0 + 1 < dayOf tza s →
  yesterdayRead tza s →
  ∃ p', users (saveSession tza uid db s) !! uid = Some p'
        ∧ Profile.streak p' = Some 1
        ∧ Profile.lastActivityDate p' = Some (profileWritten (clock s)).
Proof.
  intros Hnone Hclock Hback. unfold dayOf in Hclock. unfold saveSession.
  rewrite StreakFacts.saveInterviewHistory_users.
  destruct (users db !! uid) as [p|] eqn:Hp.
  - cbn in Hnone.
    rewrite (StreakFacts.updateUserStreak_stored tza (clock s) uid db p Hback Hp).
    unfold streakAfter. rewrite Hnone.
    change (default 0 None) with 0.
    rewrite !decide_False by lia. eexists. split_and!; reflexivity.
  - unfold updateUserStreak. rewrite Hp. cbn [Profile.lastActivityDate].
    change (default 0 None) with 0.
    assert (Hsame : dateStringEqb (toDateString tza (today (clock s)))
                      (toDateString tza 0) = false)
      by (apply StreakFacts.dateStringEqb_false; lia).
    rewrite Hsame. cbn [negb].
    assert (Hy : dateStringEqb (toDateString tza 0)
                   (toDateString tza
                      (setDate tza (today (clock s))
                         (getDate tza (today (clock s)) - 1)))
                 = false).
    { apply StreakFacts.dateStringEqb_false.
      rewrite StreakFacts.localDay_yesterday by exact Hback. lia. }
    rewrite Hy. cbn [snd users withUsers]. rewrite !lookup_insert_eq.
    eexists. split_and!; reflexivity.
Qed.

Lemma saveSession_users s db p :
  yesterdayRead tza s →
  users db !! uid = Some p →
  users (saveSession tza uid db s) !! uid = Some (streakAfter tza (clock s) p).
Proof.
  intros Hback Hp. unfold saveSession.
  rewrite StreakFacts.saveInterviewHistory_users.
  by apply StreakFacts.updateUserStreak_stored.
Qed.

(** From a profile whose last activity is on the day of session [cur]:
    the later sessions add one to the streak for every new day. *)
Lemma streak_run rest : ∀ cur db p d k,
  users db !! uid = Some p →
  Profile.lastActivityDate p = Some d → localDay tza d = dayOf tza cur →
  Profile.streak p = Some k →
  Forall (sameDayWrite tza) rest → Forall (yesterdayRead tza) rest →
  noDayMissed tza cur rest →
  ∃ p' d', users (saveSessions tza uid rest db) !! uid = Some p'
           ∧ Profile.lastActivityDate p' = Some d'
           ∧ localDay tza d' = dayOf tza (List.last rest cur)
           ∧ Profile.streak p'
             = Some (k + (dayOf tza (List.last rest cur) - dayOf tza cur)).
Proof.
  induction rest as [|s rest IH]; intros cur db p d k Hp Hd Hday Hk Hw Hr Hm.
  - exists p, d. cbn. split_and!; try done. rewrite Hk. f_equal. lia.
  - apply Forall_cons in Hw as [Hws Hw]. apply Forall_cons in Hr as [Hrs Hr].
    destruct Hm as [Hstep Hm].
    change (saveSessions tza uid (s :: rest) db)
      with (saveSessions tza uid rest (saveSession tza uid db s)).
    pose proof (saveSession_users s db p Hrs Hp) as Hp'.
    unfold streakAfter in Hp'. rewrite Hd in Hp'.
    change (default 0 (Some d)) with d in Hp'.
    rewrite (last_cons rest s cur).
    unfold sameDayWrite in Hws. unfold dayOf in Hstep, Hday, Hws.
    destruct Hstep as [Hsame|Hnext].
    + rewrite decide_True in Hp' by lia.
      destruct (IH s _ p d k Hp' Hd) as (p' & d' & ? & ? & ? & Hs);
        [unfold dayOf; lia|done|done|done|done|].
      exists p', d'. split_and!; try done. rewrite Hs. f_equal.
      unfold dayOf. lia.
    + rewrite decide_False in Hp' by lia.
      rewrite decide_True in Hp' by lia.
      rewrite Hk in Hp'. change (default 0 (Some k)) with k in Hp'.
      destruct (IH s _ _ (profileWritten (clock s)) (k + 1) Hp')
        as (p' & d' & ? & ? & ? & Hs);
        [reflexivity|exact Hws|reflexivity|done|done|done|].
      exists p', d'. split_and!; try done. rewrite Hs. f_equal.
      unfold dayOf. lia.
Qed.

Lemma saveSessions_snoc sessions s db :
  saveSessions tza uid (sessions ++ [s]) db
  = saveSession tza uid (saveSessions tza uid sessions db) s.
Proof. unfold saveSessions. by rewrite fold_left_app. Qed.

Lemma streak7_rule now history streak rc :
  7 ≤ streak → ("streak-7", true) ∈ badgeRules tza now history streak rc.
Proof.
  intros H7. apply (list_elem_of_lookup_2 _ 0%nat). cbn. do 2 f_equal.
  by apply Z.leb_le.
Qed.
End Run.

(** A user without a last-activity date saves a run of sessions, each
    on the day of the one before it or on the next day, provided each
    session is stamped by the server on the local day the browser is in
    and builds a yesterday that reads back on its own day (the offset of
    the zone may change during the run). After the run the stored streak
    is the number of days from the first session to the last, both
    counted; and once that number is seven or more the 7-day badge is
    held. *)
Theorem streak_counts_days (tza : Zone) (uid : string) (first : Session)
    (rest : list Session) (db : Db) :
  users db !! uid ≫= Profile.lastActivityDate = None →
  localDay tza 0 + 1 < dayOf tza first →
  Forall (sameDayWrite tza) (first :: rest) →
  Forall (yesterdayRead tza) (first :: rest) →
  noDayMissed tza first rest →
  let db' := saveSessions tza uid (first :: rest) db in
  let last := List.last rest first in
  let days := dayOf tza last - dayOf tza first + 1 in
  (Profile.streak <$> users db' !! uid) = Some (Some days)
  ∧ (7 ≤ days → holdsBadge db' uid "streak-7" (badgesWritten (clock last))).
Proof.
  intros Hnone Hclock Hw Hr Hm db' last days.
  apply Forall_cons in Hw as [Hwf Hw]. apply Forall_cons in Hr as [Hrf Hr].
  destruct (first_session_profile tza uid first db Hnone Hclock Hrf)
    as (p1 & Hp1 & Hs1 & Hd1).
  destruct (streak_run tza uid rest first (saveSession tza uid db first) p1
              (profileWritten (clock first)) 1 Hp1 Hd1 Hwf Hs1 Hw Hr Hm)
    as (p' & d' & Hp' & Hd' & Hday' & Hs').
  change (users db' !! uid = Some p') in Hp'.
  assert (Hstreak : Profile.streak p' = Some days)
    by (rewrite Hs'; f_equal; unfold days, last; lia).
  split; [by rewrite Hp'; cbn; rewrite Hstreak|].
  intros H7.
  destruct (snoc_last rest first) as [init Hinit]. fold last in Hinit.
  assert (Hdb : db' = saveSession tza uid (saveSessions tza uid init db) last)
    by (unfold db'; rewrite Hinit; apply saveSessions_snoc).
  rewrite Hdb. unfold saveSession, saveInterviewHistory.
  apply badge_pass_lists.
  fold (saveInterviewHistory tza (clock last) (newId last) uid (sessionType last)
          (sessionScore last) (sessionData last) (saveSessions tza uid init db)).
  fold (saveSession tza uid (saveSessions tza uid init db) last). rewrite <- Hdb.
  unfold ruleHolds. apply BadgeFacts.elem_of_checkAllBadges.
  apply streak7_rule. rewrite Hp'. cbn. by rewrite Hstreak.
Qed.

(** Seven sessions in New York, one a day from Saturday 1 November 2025,
    the clocks going back on the second day. *)
Lemma streak_counts_days_witness :
  let db' := saveSessions Samples.newYork "u1" (Week.first :: Week.rest) Samples.emptyDb in
  users Samples.emptyDb !! "u1" ≫= Profile.lastActivityDate = None
  ∧ Forall (sameDayWrite Samples.newYork) (Week.first :: Week.rest)
  ∧ Forall (yesterdayRead Samples.newYork) (Week.first :: Week.rest)
  ∧ noDayMissed Samples.newYork Week.first Week.rest
  ∧ (Profile.streak <$> users db' !! "u1") = Some (Some 7)
  ∧ holdsBadge db' "u1" "streak-7" (badgesWritten (clock (Week.session 6))).
Proof.
  cbv zeta.
  assert (Hnone : users Samples.emptyDb !! "u1" ≫= Profile.lastActivityDate = None)
    by reflexivity.
  assert (Hclock : localDay Samples.newYork 0 + 1 < dayOf Samples.newYork Week.first)
    by (vm_compute; reflexivity).
  assert (Hw : Forall (sameDayWrite Samples.newYork) (Week.first :: Week.rest))
    by (repeat constructor; vm_compute; reflexivity).
  assert (Hr : Forall (yesterdayRead Samples.newYork) (Week.first :: Week.rest))
    by (repeat constructor; vm_compute; reflexivity).
  assert (Hm : noDayMissed Samples.newYork Week.first Week.rest)
    by (cbn [noDayMissed Week.rest fmap list_fmap]; split_and!; try exact I;
        right; vm_compute; reflexivity).
  destruct (streak_counts_days Samples.newYork "u1" Week.first Week.rest Samples.emptyDb
              Hnone Hclock Hw Hr Hm) as [Hstreak Hbadge].
  split_and!; [exact Hnone|exact Hw|exact Hr|exact Hm| |].
  - etrans; [exact Hstreak|]. vm_compute. reflexivity.
  - apply Hbadge. vm_compute. discriminate.
Defined.
End StreakRunFacts.

(** ** Profile, diagnostic flag, review hub and goals after a write *)

Module ProfileFacts.
Import JsDate JsDateFacts Firestore Service ServiceSpec ServiceFacts SessionFacts
       StreakRunFacts StreakSpec GoalSpec.

(** A stored profile that is well formed (a last-activity date comes with
    a streak of at least one) stays so when a session is saved, on any
    day after the 2nd of January 1970, whatever offsets the time zone
    has; only for a user who has no last-activity date yet must
    yesterday's wall-clock time read back on its own day, as it does in
    every zone with one offset; afterwards the profile has a
    last-activity date, and the streak card of the dashboard, which reads
    it through [getUserProfile], shows at least 1. *)
Theorem streak_stays_positive (tza : Zone) (clk : Times) (newId uid : string)
    (ty : HistoryType) (sr : ScoreRating) (dr : DataReference) (db : Db) :
  (∀ p, users db !! uid = Some p → streakKept p) →
  localDay tza 0 + 1 < localDay tza (today clk) →
  (users db !! uid ≫= Profile.lastActivityDate = None →
   yesterdayReadsBack tza (today clk)) →
  let db' := saveInterviewHistory tza clk newId uid ty sr dr db in
  (∃ p', users db' !! uid = Some p' ∧ streakKept p'
         ∧ is_Some (Profile.lastActivityDate p'))
  ∧ 1 ≤ Dashboard.shownStreak (getUserProfile db' uid).
Proof.
  intros Hkept Hclock Hback db'.
  assert (Hp' : ∃ p' n, users db' !! uid = Some p' ∧ Profile.streak p' = Some n ∧ 1 ≤ n
                        ∧ is_Some (Profile.lastActivityDate p')).
  { destruct (users db !! uid ≫= Profile.lastActivityDate) as [d|] eqn:Hd.
    - destruct (users db !! uid) as [p|] eqn:Hp; [|done]. cbn in Hd.
      destruct (Hkept p eq_refl) as (n & Hn & Hn1); [by rewrite Hd|].
      unfold db'. rewrite StreakFacts.saveInterviewHistory_users.
      destruct (StreakFacts.updateUserStreak_cases tza clk uid db p Hp)
        as [-> | [-> | ->]].
      + exists p, n. rewrite Hd. eauto.
      + rewrite Hn. change (default 0 (Some n)) with n.
        eexists _, (n + 1). cbn. split_and!; eauto; lia.
      + eexists _, 1. cbn. split_and!; eauto; lia.
    - destruct (first_session_profile tza uid (mkSession clk newId ty sr dr) db Hd Hclock
                  (Hback eq_refl))
        as (p' & Hp' & Hs & Hl).
      exists p', 1. split_and!; try done; by rewrite Hl. }
  destruct Hp' as (p' & n & Hp' & Hn & Hn1 & Hl).
  split.
  - exists p'. split_and!; try done. intros _. eauto.
  - unfold Dashboard.shownStreak, getUserProfile. rewrite Hp'. cbn.
    rewrite Hn. cbn. case Z.eqb_spec; lia.
Qed.

(** New York, the Monday after the clocks went back. *)
Lemma streak_stays_positive_witness :
  let db' := saveInterviewHistory Samples.newYork Samples.mondayTimes "h2" "u1" hr
               ScoreAbsent Samples.noData Samples.dbWeekendBadge in
  (∀ p, users Samples.dbWeekendBadge !! "u1" = Some p → streakKept p)
  ∧ localDay Samples.newYork 0 + 1 < localDay Samples.newYork (today Samples.mondayTimes)
  ∧ 1 ≤ Dashboard.shownStreak (getUserProfile db' "u1").
Proof.
  cbv zeta.
  assert (Hkept : ∀ p, users Samples.dbWeekendBadge !! "u1" = Some p → streakKept p).
  { intros p Hp. vm_compute in Hp. injection Hp as <-. intros _. exists 1. done. }
  assert (Hclock : localDay Samples.newYork 0 + 1
                   < localDay Samples.newYork (today Samples.mondayTimes))
    by (vm_compute; reflexivity).
  assert (Hback : users Samples.dbWeekendBadge !! "u1" ≫= Profile.lastActivityDate = None →
                  yesterdayReadsBack Samples.newYork (today Samples.mondayTimes))
    by (intros _; vm_compute; reflexivity).
  split_and!; [exact Hkept|exact Hclock|].
  apply (streak_stays_positive Samples.newYork Samples.mondayTimes "h2" "u1" hr
           ScoreAbsent Samples.noData Samples.dbWeekendBadge Hkept Hclock Hback).
Defined.

(** *** The diagnostic flag *)

Lemma hasUserCompletedDiagnostic_true (db : Db) (uid : string) :
  hasUserCompletedDiagnostic db uid = true
  ↔ ∃ h, h ∈ historyOf db uid ∧ isDiagnostic h.
Proof.
  unfold hasUserCompletedDiagnostic. rewrite negb_true_iff, bool_decide_eq_false.
  split.
  - intros Hne. destruct (filter isDiagnostic (historyOf db uid)) as [|h l] eqn:Hf; [done|].
    assert (Hin : h ∈ filter isDiagnostic (historyOf db uid))
      by (rewrite Hf; apply list_elem_of_here).
    apply list_elem_of_filter in Hin as [? ?]. by exists h.
  - intros (h & Hh & Hd) Hempty.
    assert (Hin : h ∈ filter isDiagnostic (historyOf db uid))
      by (by apply list_elem_of_filter).
    destruct (filter isDiagnostic (historyOf db uid)); [by apply elem_of_nil in Hin|done].
  Qed.

Lemma saveSessions_keeps_records tza uid later : ∀ db h,
  h ∈ historyOf db uid → h ∈ historyOf (saveSessions tza uid later db) uid.
Proof.
  induction later as [|s later IH]; intros db h Hh; [done|].
  apply (IH (saveSession tza uid db s)). unfold saveSession.
  rewrite saveInterviewHistory_history. apply elem_of_app. by left.
Qed.

(** Once the record of a finished diagnostic quiz has been saved, the
    diagnostic flag of the user is set and stays set whatever sessions are
    saved later, so the aptitude screen, on mounting, goes to the quiz
    set-up and not to the prompt for the diagnostic test. *)
Theorem diagnostic_is_remembered (tza : Zone) (clk : Times) (newId uid : string)
    (s : AptitudePrep.State) (finalAnswers : list (option string))
    (finalTimes : list (option float)) (later : list Session) (db : Db) :
  AptitudePrep.quizType s = AptitudePrep.Diagnostic →
  let record :=
    AptitudePrep.historyData (AptitudePrep.quizResultData s finalAnswers finalTimes) in
  let db' :=
    saveSessions tza uid later
      (saveInterviewHistory tza clk newId uid record.1.1 record.1.2 record.2 db) in
  hasUserCompletedDiagnostic db' uid = true
  ∧ ∀ storage,
      AptitudePrep.flow
        (AptitudePrep.checkDiagnosticStatus storage
           (Some (hasUserCompletedDiagnostic db' uid)) AptitudePrep.initialState)
      = AptitudePrep.setup.
Proof.
  intros Hq record db'.
  assert (Hflag : hasUserCompletedDiagnostic db' uid = true).
  { apply hasUserCompletedDiagnostic_true.
    eexists. split.
    - apply saveSessions_keeps_records. rewrite saveInterviewHistory_history.
      apply elem_of_app. right. apply list_elem_of_here.
    - split; [reflexivity|]. cbn. by rewrite Hq. }
  split; [exact Hflag|]. intros [saved|]; [reflexivity|].
  rewrite Hflag. reflexivity.
Qed.

Lemma diagnostic_is_remembered_witness :
  let record :=
    AptitudePrep.historyData
      (AptitudePrep.quizResultData Samples.quizInProgress Samples.fiveAnswers []) in
  let db' :=
    saveSessions utc "u1" Week.rest
      (saveInterviewHistory utc (clock Week.first) "d1" "u1" record.1.1 record.1.2
         record.2 Samples.emptyDb) in
  AptitudePrep.quizType Samples.quizInProgress = AptitudePrep.Diagnostic
  ∧ hasUserCompletedDiagnostic Samples.emptyDb "u1" = false
  ∧ hasUserCompletedDiagnostic db' "u1" = true.
Proof.
  cbv zeta. split_and!; [reflexivity|vm_compute; reflexivity|].
  apply (diagnostic_is_remembered utc (clock Week.first) "d1" "u1" Samples.quizInProgress
           Samples.fiveAnswers [] Week.rest Samples.emptyDb eq_refl).
Defined.

(** *** Tagging a question for revision *)

(** Tagging a question returns it under the name of its new document,
    makes the list of revision questions one longer, and, when that list
    then has ten entries or more, leaves the revisionist badge earned at
    the time of the badge write. *)
Theorem tagging_counts (tza : Zone) (clk : Times) (written now : Z)
    (newId uid quizTopic : string) (db : Db) :
  let tagged := tagQuestionForRevision tza clk written now newId uid quizTopic db in
  revisionId tagged.1 = newId
  ∧ length (getRevisionQuestions tagged.2 uid) = S (length (getRevisionQuestions db uid))
  ∧ ((10 ≤ length (getRevisionQuestions tagged.2 uid))%nat →
     holdsBadge tagged.2 uid "revisionist" (badgesWritten clk)).
Proof.
  cbv zeta. unfold tagQuestionForRevision. cbn [fst snd revisionId].
  set (doc := Revision.mk uid quizTopic (Some written)).
  set (db0 := withRevisionQuestions _ db).
  destruct (updateUserStreakAndBadges_spec tza clk uid db0) as (_ & _ & _ & Hr & _).
  assert (Hlen : length (getRevisionQuestions (updateUserStreakAndBadges tza clk uid db0) uid)
                 = S (length (getRevisionQuestions db uid))).
  { unfold getRevisionQuestions. rewrite Hr. unfold db0.
    cbn [revisionQuestions withRevisionQuestions]. rewrite lookup_insert_eq.
    cbn [default from_option Datatypes.id].
    rewrite !length_orderByTimestampDesc, !filter_app, !length_app.
    rewrite !filter_cons, !filter_nil. cbn [Revision.userId Revision.timestamp doc].
    rewrite decide_True by done. rewrite filter_cons, filter_nil.
    rewrite decide_True by (cbn; eauto). cbn [length]. lia. }
  split_and!; [reflexivity|exact Hlen|]. intros H10.
  apply badge_pass_lists. unfold ruleHolds. apply BadgeFacts.elem_of_checkAllBadges.
  apply (list_elem_of_lookup_2 _ 17%nat). cbn. do 2 f_equal.
  by apply bool_decide_eq_true.
Qed.

(** *** A new goal on the dashboard *)

Lemma withCurrentAccuracy_same (g : Goal.t) :
  Goal.withCurrentAccuracy (Goal.currentAccuracy g) g = g.
Proof. by destruct g. Qed.

(** A goal saved as active under a fresh document name is the goal the
    dashboard fetches next: [getActiveGoal] returns it under that name,
    with every field as saved except the current accuracy. The user's
    dated aptitude records of the goal's topic split into [recent], the
    five most recent (all of them when there are fewer), and [older];
    the current accuracy returned is the saved one when there is no such
    record, and otherwise the mean of the scores of [recent] (their sum,
    added from 0 in the order of the query, divided by their number)
    when that differs from the saved one, the saved one when it does
    not; and the stored document agrees with what is returned. *)
Theorem new_goal_is_active_goal (newId : string) (goal : Goal.t) (db : Db) :
  Goal.isActive goal = true →
  userGoals db !! newId = None →
  Goal.id goal = None →
  Forall (λ h, type h = aptitude → is_Some (scoreAsNumber h))
         (historyOf db (Goal.userId goal)) →
  ∃ (recent older : list InterviewHistory) (scores : list float),
    recent ++ older ≡ₚ topicRecords db (Goal.userId goal) (Goal.topic goal)
    ∧ length recent
      = min 5 (length (topicRecords db (Goal.userId goal) (Goal.topic goal)))
    ∧ (∀ x y, x ∈ recent → y ∈ older → newerOrEqual (timestamp x) (timestamp y))
    ∧ Forall2 (λ h s, scoreRating h = ScoreNumber s) recent scores
    ∧ let mean :=
        (fold_left PrimFloat.add scores 0 / Js.ofNat (length scores))%float in
      let current :=
        match recent with
        | [] => Goal.currentAccuracy goal
        | _ => if Js.strictNe mean (Goal.currentAccuracy goal)
               then mean else Goal.currentAccuracy goal
        end in
      ∃ db'',
        getActiveGoal (setUserGoal newId goal db) (Goal.userId goal)
        = Some (Some (Goal.withCurrentAccuracy current (Goal.withId (Some newId) goal)),
                db'')
        ∧ userGoals db'' !! newId = Some (Goal.withCurrentAccuracy current goal).
Proof.
  intros Hact Hfresh Hid Hnum.
  set (db' := setUserGoal newId goal db). set (uid := Goal.userId goal).
  assert (Hnew : userGoals db' !! newId = Some goal)
    by (unfold db', setUserGoal; cbn; by rewrite lookup_insert_eq).
  assert (Honly : ∀ k g', userGoals db' !! k = Some g' → isActiveGoalOf uid (k, g') →
                          k = newId).
  { intros k g' Hk Hactive. destruct (decide (k = newId)) as [|Hne]; [done|exfalso].
    unfold db', setUserGoal in Hk. cbn [userGoals withUserGoals] in Hk.
    rewrite lookup_insert_ne in Hk by done.
    rewrite GoalFacts.lookup_deactivated in Hk.
    destruct (userGoals db !! k) as [g|]; [|done]. cbn in Hk. injection Hk as <-.
    case_decide as Hd; [|done]. destruct Hactive as [_ Hactive]. done. }
  pose proof (GoalFacts.active_goal_found db' uid newId goal Hnew (conj eq_refl Hact) Honly)
    as Hfound.
  destruct (GoalFacts.getAverageAccuracyForTopic_recent db' uid (Goal.topic goal) Hnum)
    as (recent & older & scores & Hperm & Hlen & Hnewer & Hscores & Havg).
  exists recent, older, scores.
  split; [exact Hperm|]. split; [exact Hlen|]. split; [exact Hnewer|].
  split; [exact Hscores|]. cbv zeta.
  unfold getActiveGoal. rewrite Hfound. cbn [head]. rewrite Hid.
  cbn [default from_option Datatypes.id Goal.topic Goal.withId].
  change (Goal.topic goal) with (Goal.topic goal) in Havg.
  rewrite Havg. cbn [mbind option_bind].
  destruct recent as [|h0 rest].
  - exists db'. split; [|by rewrite withCurrentAccuracy_same]. by destruct goal.
  - change (Goal.currentAccuracy (Goal.withId (Some newId) goal))
      with (Goal.currentAccuracy goal).
    destruct (Js.strictNe _ (Goal.currentAccuracy goal)).
    + eexists. split; [reflexivity|].
      cbn [userGoals withUserGoals]. by rewrite lookup_alter_eq, Hnew.
    + exists db'. split; [|by rewrite withCurrentAccuracy_same]. by destruct goal.
Qed.

(** A goal for quantitative practice saved with a current accuracy of 0
    by the user whose five most recent quantitative quizzes scored 80,
    70, 60, 50 and 40: the dashboard fetches it with a current accuracy
    of 60, which is also what the stored document then holds. *)
Lemma new_goal_is_active_goal_witness :
  let goal := Samples.goalOf "u1" QUANTITATIVE 0 true in
  userGoals Samples.dbGoals !! "g3" = None
  ∧ (∃ (recent older : list InterviewHistory) (scores : list float),
       recent ++ older ≡ₚ topicRecords Samples.dbGoals "u1" QUANTITATIVE
       ∧ length recent = 5%nat
       ∧ Forall2 (λ h s, scoreRating h = ScoreNumber s) recent scores
       ∧ ∃ db'',
           getActiveGoal (setUserGoal "g3" goal Samples.dbGoals) "u1"
           = Some (Some (Goal.withCurrentAccuracy
                           (if Js.strictNe
                                 (fold_left PrimFloat.add scores 0
                                  / Js.ofNat (length scores))%float 0
                            then (fold_left PrimFloat.add scores 0
                                  / Js.ofNat (length scores))%float
                            else 0%float)
                           (Goal.withId (Some "g3") goal)), db''))
  ∧ getActiveGoal (setUserGoal "g3" goal Samples.dbGoals) "u1"
    = Some (Some (Goal.withId (Some "g3") (Samples.goalOf "u1" QUANTITATIVE 60 true)),
            withUserGoals
              (<["g3" := Samples.goalOf "u1" QUANTITATIVE 60 true]>
                 (userGoals (setUserGoal "g3" goal Samples.dbGoals)))
              Samples.dbGoals).
Proof.
  cbv zeta.
  assert (Hfresh : userGoals Samples.dbGoals !! "g3" = None) by (vm_compute; reflexivity).
  split; [exact Hfresh|]. split; [|vm_compute; reflexivity].
  destruct (new_goal_is_active_goal "g3" (Samples.goalOf "u1" QUANTITATIVE 0 true)
              Samples.dbGoals eq_refl Hfresh eq_refl)
    as (recent & older & scores & Hperm & Hlen & _ & Hscores & db'' & Hget & _).
  { apply (bool_decide_unpack _). vm_compute. exact I. }
  exists recent, older, scores.
  split; [exact Hperm|]. split; [exact Hlen|]. split; [exact Hscores|].
  exists db''. destruct recent as [|h0 rest]; [discriminate Hlen|]. exact Hget.
Defined.
End ProfileFacts.

(** ** The quiz on screen *)

Module QuizFacts.
Import AptitudePrep Quiz QuizSpec.
Import MockInterview (Outcome, Fulfilled, Rejected).

Lemma length_arraySet {A} (i : nat) (x : A) (a : list (option A)) :
  (i < length a)%nat → length (Js.arraySet i x a) = length a.
Proof.
  intros Hi. unfold Js.arraySet. rewrite bool_decide_eq_true_2 by done.
  apply length_insert.
Qed.

Lemma length_addTimeSpent (now : Z) (q : State) :
  (currentQuestionIndex q < length (timePerQuestion q))%nat →
  length (addTimeSpent now q) = length (timePerQuestion q).
Proof. intros Hi. unfold addTimeSpent. by apply length_arraySet. Qed.

Lemma handleNextQuestion_steady fetched topic type now force q storage :
  flow q = active → steady fetched topic type q →
  steady fetched topic type (handleNextQuestion now force q storage).1.
Proof.
  intros Hactive (Hq & Ht & Hty & _ & Hb). destruct (Hb Hactive) as (Hi & Ha & Htm).
  destruct q as [fl sd nq sv qs idx ua tl tpq qst qt qty rs]. cbn in *. subst.
  unfold handleNextQuestion. cbn [recordTime currentQuestionIndex questions].
  destruct (negb force && _) eqn:Hnext; cbn [fst].
  - apply andb_prop in Hnext as [_ Hlt%bool_decide_eq_true].
    unfold steady, inBounds. cbn.
    split_and!; [done|done|done|by left|]. intros _.
    split_and!; [lia|done|]. rewrite length_addTimeSpent; cbn; [done|lia].
  - unfold steady, inBounds. cbn.
    split_and!; [done|done|done|by right|]. intros [=].
Qed.

Lemma step_steady fetched topic type e q storage :
  steady fetched topic type q → steady fetched topic type (step e (q, storage)).1.
Proof.
  intros Hs. unfold step. destruct (offered e q) eqn:Hoff; [|done].
  apply andb_prop in Hoff as [Hactive%bool_decide_eq_true Hoff].
  destruct e as [a|now|now|now].
  - destruct Hs as (Hq & Ht & Hty & Hfl & Hb). destruct (Hb Hactive) as (Hi & Ha & Htm).
    split_and!; try done. intros _. cbn. split_and!; try done.
    rewrite length_arraySet; [done|lia].
  - by apply handleNextQuestion_steady.
  - apply bool_decide_eq_true in Hoff.
    destruct Hs as (Hq & Ht & Hty & Hfl & Hb). destruct (Hb Hactive) as (Hi & Ha & Htm).
    unfold handlePreviousQuestion. rewrite bool_decide_eq_true_2 by done.
    split_and!; try done. intros _. cbn. split_and!; [lia|done|].
    rewrite length_addTimeSpent; [done|lia].
  - assert (Hc : steady fetched topic type (countDown q) ∧ flow (countDown q) = active).
    { unfold countDown. destruct (timeLeft q) as [t|]; [|done].
      destruct (bool_decide _ && _); [|done].
      destruct Hs as (Hq & Ht & Hty & Hfl & Hb). split; [|done].
      split_and!; try done. }
    destruct Hc as [Hc Hca]. unfold timerEffect.
    destruct (bool_decide _ && bool_decide _); [|done].
    by apply handleNextQuestion_steady.
Qed.

Lemma run_steady fetched topic type events : ∀ q storage,
  steady fetched topic type q → steady fetched topic type (run events (q, storage)).1.
Proof.
  induction events as [|e events IH]; intros q storage Hs; [done|].
  cbn [run fold_left]. destruct (step e (q, storage)) as [q' storage'] eqn:Hstep.
  apply (IH q' storage'). change q' with (q', storage').1. rewrite <- Hstep.
  by apply step_steady.
Qed.

(** A quiz that started with at least one question keeps, through every
    sequence of answers, Next and Previous presses and clock ticks, the
    questions it fetched, its topic and its type; it is either active or
    showing its results; and while it is active the current question
    index is within the questions and the answers and the recorded times
    have one slot per question. *)
Theorem quiz_stays_in_bounds (now : Z) (type : QuizType) (subTopics : list string)
    (difficulty : Difficulty) (fetched : list AptitudeQuestion) (s : Screen)
    (storage : LocalStorage) (events : list Event) :
  (0 < length fetched)%nat →
  let started := startQuiz now type subTopics difficulty (Fulfilled fetched) s storage in
  let final := (run events (quiz started.1, started.2)).1 in
  questions final = fetched
  ∧ quizTopic final = newQuizTopic type subTopics
  ∧ quizType final = type
  ∧ (flow final = active ∨ flow final = results)
  ∧ inBounds (length fetched) final.
Proof.
  intros Hn started final. apply run_steady.
  unfold started, startQuiz. rewrite bool_decide_eq_true_2 by done.
  cbn. split_and!; try done; [by left|]. intros _. cbn.
  rewrite !length_replicate. done.
Qed.

Lemma quiz_stays_in_bounds_witness :
  let started :=
    startQuiz Samples.sundayNoon Practice ["Percentage"] Medium
              (Fulfilled Samples.fiveQuestions) initialScreen None in
  let events := [Answer "5"; Next (Samples.sundayNoon + 5000); Previous
                 (Samples.sundayNoon + 9000); Tick (Samples.sundayNoon + 10000)] in
  let final := (run events (quiz started.1, started.2)).1 in
  (0 < length Samples.fiveQuestions)%nat
  ∧ questions final = Samples.fiveQuestions
  ∧ flow final = active
  ∧ currentQuestionIndex final = 0%nat
  ∧ inBounds 5 final.
Proof.
  cbv zeta.
  assert (Hn : (0 < length Samples.fiveQuestions)%nat) by (cbn; lia).
  destruct (quiz_stays_in_bounds Samples.sundayNoon Practice ["Percentage"] Medium
              Samples.fiveQuestions initialScreen None
              [Answer "5"; Next (Samples.sundayNoon + 5000);
               Previous (Samples.sundayNoon + 9000); Tick (Samples.sundayNoon + 10000)]
              Hn) as (Hq & _ & _ & _ & Hb).
  split_and!; [exact Hn|exact Hq|vm_compute; reflexivity|vm_compute; reflexivity|exact Hb].
Defined.

(** *** The clock *)

Lemma run_results events : ∀ q storage,
  flow q = results → flow (run events (q, storage)).1 = results.
Proof.
  induction events as [|e events IH]; intros q storage Hr; [done|].
  cbn [run fold_left]. unfold step at 2. unfold offered.
  rewrite bool_decide_eq_false_2 by (rewrite Hr; done). cbn [andb].
  by apply IH.
Qed.

Lemma handleNextQuestion_flow now force q storage :
  flow q = active →
  let q' := (handleNextQuestion now force q storage).1 in
  (flow q' = active ∧ timeLeft q' = timeLeft q) ∨ flow q' = results.
Proof.
  intros Hactive. cbv zeta. unfold handleNextQuestion.
  destruct (negb force && _); cbn; [left|right]; done.
Qed.

Lemma clock_runs_out events : ∀ q storage t,
  flow q = active → timeLeft q = Some t → 1 ≤ t → t ≤ Z.of_nat (ticks events) →
  flow (run events (q, storage)).1 = results.
Proof.
  induction events as [|e events IH]; intros q storage t Hactive Ht H1 Hticks.
  { cbn in Hticks. lia. }
  cbn [run fold_left].
  destruct (step e (q, storage)) as [q' storage'] eqn:Hstep.
  unfold step in Hstep. destruct (offered e q) eqn:Hoff.
  - destruct e as [a|now|now|now]; unfold ticks in Hticks; cbn in Hticks.
    + injection Hstep as <- <-. by apply (IH _ _ t).
    + destruct (handleNextQuestion_flow now false q storage Hactive) as [[Ha Htl]|Hr];
        rewrite Hstep in *; cbn [fst] in *.
      * apply (IH _ _ t); try done. by rewrite Htl.
      * by apply run_results.
    + injection Hstep as <- <-. unfold handlePreviousQuestion.
      destruct (bool_decide _); by apply (IH _ _ t).
    + assert (Hc : flow (countDown q) = active ∧ timeLeft (countDown q) = Some (t - 1)).
      { unfold countDown. rewrite Ht, Hactive.
        rewrite bool_decide_eq_true_2 by done.
        replace (0 <? t) with true by (symmetry; apply Z.ltb_lt; lia). cbn.
        replace (t =? 0) with false by (symmetry; apply Z.eqb_neq; lia). done. }
      destruct Hc as [Hca Hct]. unfold timerEffect in Hstep.
      rewrite Hca, Hct in Hstep. rewrite bool_decide_eq_true_2 in Hstep by done.
      cbn [andb] in Hstep. case_bool_decide as Hzero.
      * apply run_results. change q' with (q', storage').1. rewrite <- Hstep.
        unfold handleNextQuestion. reflexivity.
      * injection Hstep as <- <-. apply (IH _ _ (t - 1)); try done.
        -- assert (t - 1 ≠ 0) by congruence. lia.
        -- unfold ticks. lia.
  - injection Hstep as <- <-.
    apply andb_false_iff in Hoff as [Hoff|Hoff].
    + apply bool_decide_eq_false in Hoff. done.
    + destruct e; try done; unfold ticks in Hticks; cbn in Hticks; by apply (IH _ _ t).
Qed.

Lemma handleNextQuestion_result now force q storage :
  flow (handleNextQuestion now force q storage).1 = results →
  (flow q = results → is_Some (result q)) →
  is_Some (result (handleNextQuestion now force q storage).1).
Proof.
  unfold handleNextQuestion. destruct (negb force && _); cbn; [auto|eauto].
Qed.

Lemma step_result e q storage :
  (flow q = results → is_Some (result q)) →
  flow (step e (q, storage)).1 = results →
  is_Some (result (step e (q, storage)).1).
Proof.
  intros Hq. unfold step. destruct (offered e q); [|done].
  destruct e as [a|now|now|now]; cbn [fst].
  - exact Hq.
  - intros Hr. by apply handleNextQuestion_result.
  - unfold handlePreviousQuestion. destruct (bool_decide _); [|done]. exact Hq.
  - assert (Hc : flow (countDown q) = results → is_Some (result (countDown q))).
    { unfold countDown. destruct (timeLeft q); [|done].
      destruct (bool_decide _ && _); [|done]. exact Hq. }
    unfold timerEffect. destruct (bool_decide _ && bool_decide _); [|done].
    intros Hr. by apply handleNextQuestion_result.
Qed.

Lemma run_result events : ∀ q storage,
  (flow q = results → is_Some (result q)) →
  flow (run events (q, storage)).1 = results →
  is_Some (result (run events (q, storage)).1).
Proof.
  induction events as [|e events IH]; intros q storage Hq; [exact Hq|].
  cbn [run fold_left]. pose proof (step_result e q storage Hq) as Hstep.
  destruct (step e (q, storage)) as [q' storage']. by apply IH.
Qed.

(** An active quiz with [t] seconds on its clock is over, showing its
    results, once [t] seconds have passed, whatever the user does in the
    meantime. *)
Theorem quiz_ends_with_its_clock (q : State) (storage : LocalStorage) (t : Z)
    (events : list Event) :
  flow q = active → timeLeft q = Some t → 1 ≤ t → t ≤ Z.of_nat (ticks events) →
  let final := (run events (q, storage)).1 in
  flow final = results ∧ is_Some (result final).
Proof.
  intros Hactive Ht H1 Hticks final.
  assert (Hr : flow final = results) by (by apply (clock_runs_out events q storage t)).
  split; [exact Hr|]. apply run_result; [congruence|exact Hr].
Qed.

Lemma quiz_ends_with_its_clock_witness :
  let q := Samples.quizInProgress in
  let events := [Answer "25"] ++ replicate 300 (Tick (Samples.sundayNoon + 300000)) in
  flow q = active ∧ timeLeft q = Some 300
  ∧ flow (run events (q, None)).1 = results
  ∧ is_Some (result (run events (q, None)).1).
Proof.
  cbv zeta.
  assert (Ha : flow Samples.quizInProgress = active) by reflexivity.
  assert (Ht : timeLeft Samples.quizInProgress = Some 300) by reflexivity.
  split_and!; [exact Ha|exact Ht|..];
    apply (quiz_ends_with_its_clock Samples.quizInProgress None 300
             ([Answer "25"] ++ replicate 300 (Tick (Samples.sundayNoon + 300000)))
             Ha Ht); try lia; vm_compute; discriminate.
Defined.
End QuizFacts.

(** ** Ending a quiz: the snapshot and the recorded times *)

Module QuizEndFacts.
Import AptitudePrep Quiz QuizSpec QuizFacts.
Import MockInterview (Outcome, Fulfilled, Rejected).

Lemma cleanup_active (later : Z) (q : State) (storage : LocalStorage) :
  flow q = active → (0 < length (questions q))%nat →
  ∃ saved, cleanup later q storage = Some saved
           ∧ Saved.questions saved = questions q
           ∧ Saved.userAnswers saved = userAnswers q
           ∧ Saved.currentQuestionIndex saved = currentQuestionIndex q
           ∧ Saved.timeLeft saved = timeLeft q.
Proof.
  intros Hactive Hn. unfold cleanup, saveQuizProgress.
  rewrite !bool_decide_eq_true_2 by done. cbn [andb].
  eexists. split; [reflexivity|]. done.
Qed.

(** A quiz that is submitted from its last question, or stopped through
    the stop dialog, is still in local storage afterwards. The handler
    removes the snapshot, but the clean-up of the save effect, which runs
    when the next render is committed or the component is torn down,
    calls the [saveQuizProgress] of the render on which the quiz was
    still active and writes the snapshot again. The next time the
    component mounts it therefore offers the quiz for resumption, and
    resuming puts its questions and answers back on screen. *)
Theorem ended_quiz_stays_saved (now later resumed : Z) (q : State)
    (storage : LocalStorage) (hasCompleted : option bool) :
  flow q = active → (0 < length (questions q))%nat →
  (length (questions q) ≤ S (currentQuestionIndex q))%nat →
  (handleNextQuestion now false q storage).2 = None
  ∧ flow (nextAndCommit now later q storage).1 = results
  ∧ ∀ left,
      left = (nextAndCommit now later q storage).2
      ∨ left = confirmStopQuiz later q storage →
      ∃ saved,
        left = Some saved
        ∧ Saved.questions saved = questions q
        ∧ Saved.userAnswers saved = userAnswers q
        ∧ Saved.currentQuestionIndex saved = currentQuestionIndex q
        ∧ let mounted := checkDiagnosticStatus left hasCompleted initialState in
          flow mounted = setup
          ∧ savedQuizState mounted = Some saved
          ∧ flow (handleResumeQuiz resumed mounted) = active
          ∧ questions (handleResumeQuiz resumed mounted) = questions q
          ∧ userAnswers (handleResumeQuiz resumed mounted) = userAnswers q.
Proof.
  intros Hactive Hn Hlast.
  assert (Hsubmit : negb false
                    && bool_decide (Z.of_nat (currentQuestionIndex q)
                                    < Z.of_nat (length (questions q)) - 1) = false).
  { cbn. apply bool_decide_eq_false. lia. }
  unfold nextAndCommit, handleNextQuestion. rewrite Hsubmit. cbn [fst snd].
  split_and!; [reflexivity|reflexivity|].
  intros left Hleft.
  assert (Hc : left = cleanup later q None) by (by destruct Hleft).
  destruct (cleanup_active later q None Hactive Hn) as (saved & Hs & Hq & Ha & Hi & _).
  exists saved. rewrite Hc, Hs. cbn. rewrite Hq, Ha. done.
Qed.

Lemma ended_quiz_stays_saved_witness :
  let q := Samples.quizInProgress in
  let left := (nextAndCommit (Samples.sundayNoon + 4000) (Samples.sundayNoon + 4010)
                 q None).2 in
  flow q = active
  ∧ (length (questions q) ≤ S (currentQuestionIndex q))%nat
  ∧ ∃ saved, left = Some saved ∧ Saved.questions saved = Samples.fiveQuestions
             ∧ Saved.currentQuestionIndex saved = 4%nat.
Proof.
  cbv zeta.
  assert (Ha : flow Samples.quizInProgress = active) by reflexivity.
  assert (Hn : (0 < length (questions Samples.quizInProgress))%nat) by (cbn; lia).
  assert (Hl : (length (questions Samples.quizInProgress)
                ≤ S (currentQuestionIndex Samples.quizInProgress))%nat) by (cbn; lia).
  split_and!; [exact Ha|exact Hl|].
  destruct (ended_quiz_stays_saved (Samples.sundayNoon + 4000) (Samples.sundayNoon + 4010)
              0 Samples.quizInProgress None None Ha Hn Hl) as (_ & _ & Hleft).
  destruct (Hleft _ (or_introl eq_refl)) as (saved & Hs & Hq & _ & Hi & _).
  exists saved. split_and!; [exact Hs|exact Hq|exact Hi].
Defined.

(** *** The time of the last question *)

Lemma straightThrough_cons (a : string) (t : Z) (rest : list (string * Z)) :
  straightThrough ((a, t) :: rest) = Answer a :: Next t :: straightThrough rest.
Proof. reflexivity. Qed.

Lemma lookup_arraySet {A} (i : nat) (x : A) (a : list (option A)) :
  (i < length a)%nat → Js.arraySet i x a !! i = Some (Some x).
Proof.
  intros Hi. unfold Js.arraySet. rewrite bool_decide_eq_true_2 by done.
  by apply list_lookup_insert_eq.
Qed.

Lemma lookup_arraySet_ne {A} (i j : nat) (x : A) (a : list (option A)) :
  (i < length a)%nat → i ≠ j → Js.arraySet i x a !! j = a !! j.
Proof.
  intros Hi Hne. unfold Js.arraySet. rewrite bool_decide_eq_true_2 by done.
  by apply list_lookup_insert_ne.
Qed.

Lemma step_answer (a : string) (q : State) (storage : LocalStorage) :
  flow q = active → step (Answer a) (q, storage) = (handleAnswer a q, storage).
Proof.
  intros Hactive. unfold step, offered. by rewrite bool_decide_eq_true_2.
Qed.

Lemma step_next (t : Z) (q : State) (storage : LocalStorage) (a : string) :
  flow q = active → userAnswers q !! currentQuestionIndex q = Some (Some a) → a ≠ "" →
  step (Next t) (q, storage) = handleNextQuestion t false q storage.
Proof.
  intros Hactive Ha Hne. unfold step, offered.
  rewrite bool_decide_eq_true_2 by done. rewrite Ha. cbn [mjoin option_join andb].
  by rewrite bool_decide_eq_false_2.
Qed.

Lemma straight_run (fetched : list AptitudeQuestion) (rest : list (string * Z)) :
  ∀ k q storage,
    untimedFrom fetched k q →
    (k + length rest)%nat = length fetched → rest ≠ [] →
    Forall (λ r, r.1 ≠ "") rest →
    let final := (run (straightThrough rest) (q, storage)).1 in
    flow final = results
    ∧ ∃ r, result final = Some r
           ∧ resultTimePerQuestion r !! (length fetched - 1)%nat
             = Some (Some 0%float).
Proof.
  induction rest as [|[a t] rest IH]; intros k q storage Hq Hlen Hne Hans; [done|].
  destruct Hq as (Hactive & Hqs & Hk & Hua & Htp & Hzero).
  apply Forall_cons in Hans as [Ha Hans]. cbn [fst] in Ha. cbn [length] in Hlen.
  rewrite straightThrough_cons. cbn [run fold_left].
  rewrite (step_answer a q storage Hactive).
  rewrite (step_next t (handleAnswer a q) storage a); [|done| |done].
  2:{ cbn. apply lookup_arraySet. lia. }
  unfold handleNextQuestion.
  cbn [negb andb currentQuestionIndex questions recordTime handleAnswer].
  rewrite Hqs, Hk.
  case_bool_decide as Hmore.
  - apply (IH (S k)); [|lia|destruct rest; [cbn in Hlen; lia|done]|done].
    unfold untimedFrom. cbn. rewrite Hk.
    split_and!; try done.
    + rewrite length_arraySet; lia.
    + unfold addTimeSpent. cbn. rewrite length_arraySet; lia.
    + intros i Hi. unfold addTimeSpent. cbn.
      rewrite lookup_arraySet_ne by lia. apply Hzero. lia.
  - assert (Hrest : rest = []) by (destruct rest; [done|cbn in Hlen; lia]).
    subst rest. cbn. split; [done|]. eexists. split; [reflexivity|]. cbn.
    apply Hzero. cbn in Hlen. lia.
Qed.

(** A quiz answered straight through, one question after the other,
    ends with its results on screen, and in those results the time
    recorded for the last question is 0, however long the user took
    over it: the time is measured when the last Next is pressed, but the
    result is computed from the times of the render on which it was
    pressed. *)
Theorem last_question_is_not_timed (now : Z) (type : QuizType)
    (subTopics : list string) (difficulty : Difficulty)
    (fetched : list AptitudeQuestion) (s : Screen) (storage : LocalStorage)
    (rounds : list (string * Z)) :
  (0 < length fetched)%nat → length rounds = length fetched →
  Forall (λ r, r.1 ≠ "") rounds →
  let started := startQuiz now type subTopics difficulty (Fulfilled fetched) s storage in
  let final := (run (straightThrough rounds) (quiz started.1, started.2)).1 in
  flow final = results
  ∧ ∃ r, result final = Some r
         ∧ resultTimePerQuestion r !! (length fetched - 1)%nat = Some (Some 0%float).
Proof.
  intros Hn Hlen Hans started final.
  apply (straight_run fetched rounds 0); [|lia|by destruct rounds; [cbn in Hlen; lia|]|done].
  unfold started, startQuiz. rewrite bool_decide_eq_true_2 by done.
  unfold untimedFrom. cbn. rewrite !length_replicate.
  split_and!; try done. intros i Hi. apply lookup_replicate_2. lia.
Qed.

Lemma last_question_is_not_timed_witness :
  let rounds := [("5", 1762084805000); ("10", 1762084815000); ("15", 1762084835000);
                 ("20", 1762084845000); ("25", 1762085445000)] in
  let started :=
    startQuiz Samples.sundayNoon Practice ["Percentage"] Medium
              (Fulfilled Samples.fiveQuestions) initialScreen None in
  let final := (run (straightThrough rounds) (quiz started.1, started.2)).1 in
  length rounds = length Samples.fiveQuestions
  ∧ flow final = results
  ∧ ∃ r, result final = Some r
         ∧ resultTimePerQuestion r
           = [Some 5; Some 10; Some 20; Some 10; Some 0]%float.
Proof.
  cbv zeta.
  assert (Hn : (0 < length Samples.fiveQuestions)%nat) by (cbn; lia).
  assert (Hans : Forall (λ r : string * Z, r.1 ≠ "")
                   [("5", 1762084805000); ("10", 1762084815000); ("15", 1762084835000);
                    ("20", 1762084845000); ("25", 1762085445000)])
    by (repeat constructor; discriminate).
  destruct (last_question_is_not_timed Samples.sundayNoon Practice ["Percentage"] Medium
              Samples.fiveQuestions initialScreen None
              [("5", 1762084805000); ("10", 1762084815000); ("15", 1762084835000);
               ("20", 1762084845000); ("25", 1762085445000)] Hn eq_refl Hans)
    as (Hflow & r & Hr & _).
  split_and!; [reflexivity|exact Hflow|].
  eexists. split; vm_compute; reflexivity.
Defined.
End QuizEndFacts.

(** ** The topic a quiz is recorded under *)

Module TopicFacts.
Import Firestore AptitudePrep Topics Quiz.
Import MockInterview (Outcome, Fulfilled, Rejected).

(** Every sub-topic of the table other than "All Topics" is mapped to the
    topic that lists it. *)
Lemma subTopicToTopicMap_table :
  Forall (λ entry,
            Forall (λ sub, sub = "All Topics" ∨ subTopicToTopicMap !! sub = Some entry.1)
                   entry.2)
         AptitudeSubTopics.
Proof. apply (bool_decide_unpack _). vm_compute. exact I. Qed.

Lemma subTopicToTopicMap_lookup (category sub : string) :
  category ∈ AptitudeTopic → sub ∈ subTopicsOf category → sub ≠ "All Topics" →
  subTopicToTopicMap !! sub = Some category.
Proof.
  intros Hc Hsub Hne. pose proof subTopicToTopicMap_table as Htable.
  rewrite Forall_forall in Htable.
  assert (Hentry : (category, subTopicsOf category) ∈ AptitudeSubTopics).
  { unfold AptitudeTopic in Hc. rewrite !elem_of_cons, elem_of_nil in Hc.
    unfold AptitudeSubTopics.
    destruct Hc as [->|[->|[->|[->|[]]]]]; rewrite !elem_of_cons; auto 6. }
  specialize (Htable _ Hentry). cbn [fst snd] in Htable.
  rewrite Forall_forall in Htable. destruct (Htable sub Hsub); done.
Qed.

Lemma elem_of_mainTopics (subTopics : list string) (acc : list string) (t : string) :
  t ∈ fold_left (λ mainTopics sub,
                   match subTopicToTopicMap !! sub with
                   | Some topic => Js.setAdd topic mainTopics
                   | None => mainTopics
                   end) subTopics acc
  ↔ t ∈ acc ∨ ∃ sub, sub ∈ subTopics ∧ subTopicToTopicMap !! sub = Some t.
Proof.
  revert acc. induction subTopics as [|s subTopics IH]; intros acc; cbn [fold_left].
  - split; [auto|]. intros [?|(sub & Hsub & _)]; [done|by apply elem_of_nil in Hsub].
  - rewrite IH. destruct (subTopicToTopicMap !! s) as [topic|] eqn:Hs.
    + rewrite JsFacts.elem_of_setAdd. split.
      * intros [[->|?]|(sub & Hsub & Ht)]; [right|by left|right].
        -- exists s. split; [apply list_elem_of_here|done].
        -- exists sub. split; [by apply list_elem_of_further|done].
      * intros [?|(sub & Hsub & Ht)]; [by left; right|].
        apply elem_of_cons in Hsub as [->|Hsub]; [left; left; congruence|].
        right. by exists sub.
    + split.
      * intros [?|(sub & Hsub & Ht)]; [by left|right].
        exists sub. split; [by apply list_elem_of_further|done].
      * intros [?|(sub & Hsub & Ht)]; [by left|].
        apply elem_of_cons in Hsub as [->|Hsub]; [congruence|].
        right. by exists sub.
Qed.

Lemma NoDup_mainTopics (subTopics : list string) (acc : list string) :
  NoDup acc →
  NoDup (fold_left (λ mainTopics sub,
                      match subTopicToTopicMap !! sub with
                      | Some topic => Js.setAdd topic mainTopics
                      | None => mainTopics
                      end) subTopics acc).
Proof.
  revert acc. induction subTopics as [|s subTopics IH]; intros acc Hacc; [done|].
  cbn [fold_left]. apply IH. destruct (subTopicToTopicMap !! s); [|done].
  by apply JsFacts.NoDup_setAdd.
Qed.

Lemma singleton_of_all_equal {A} (l : list A) (c : A) :
  NoDup l → (∀ x, x ∈ l → x = c) → l ≠ [] → l = [c].
Proof.
  intros Hnd Hall Hne. destruct l as [|x [|y l]]; [done| |].
  - f_equal. apply Hall, list_elem_of_here.
  - exfalso. apply NoDup_cons in Hnd as [Hx _]. apply Hx.
    rewrite (Hall x), (Hall y); [apply list_elem_of_here|..].
    + apply list_elem_of_further, list_elem_of_here.
    + apply list_elem_of_here.
Qed.

Lemma two_elements {A} (l : list A) (x y : A) :
  x ∈ l → y ∈ l → x ≠ y → (1 < length l)%nat.
Proof.
  intros Hx Hy Hne. destruct l as [|a [|b l]]; [by apply elem_of_nil in Hx| |cbn; lia].
  apply list_elem_of_singleton in Hx, Hy. congruence.
Qed.

Lemma newQuizTopic_single (category : string) (subTopics : list string) :
  category ∈ AptitudeTopic → subTopics ≠ [] →
  Forall (λ sub, sub ∈ subTopicsOf category ∧ sub ≠ "All Topics") subTopics →
  newQuizTopic Practice subTopics = category.
Proof.
  intros Hc Hne Hall. unfold newQuizTopic.
  assert (Hmain : mainTopicsOf subTopics = [category]).
  { apply singleton_of_all_equal.
    - apply NoDup_mainTopics, NoDup_nil_2.
    - intros t Ht. apply elem_of_mainTopics in Ht as [Ht|(sub & Hsub & Ht)];
        [by apply elem_of_nil in Ht|].
      rewrite Forall_forall in Hall. destruct (Hall sub Hsub) as [Hin Hnot].
      rewrite (subTopicToTopicMap_lookup category sub Hc Hin Hnot) in Ht. congruence.
    - destruct subTopics as [|sub subTopics]; [done|].
      apply Forall_cons in Hall as [[Hin Hnot] _].
      intros Hempty.
      assert (Hmem : category ∈ mainTopicsOf (sub :: subTopics)).
      { apply elem_of_mainTopics. right. exists sub.
        split; [apply list_elem_of_here|by apply subTopicToTopicMap_lookup]. }
      rewrite Hempty in Hmem. by apply elem_of_nil in Hmem. }
  rewrite Hmain. cbn.
  unfold AptitudeTopic in Hc. rewrite !elem_of_cons, elem_of_nil in Hc.
  destruct Hc as [->|[->|[->|[->|[]]]]]; reflexivity.
Qed.

Lemma newQuizTopic_mixed (subTopics : list string) (t1 t2 : string) :
  QuizSpec.spans subTopics t1 → QuizSpec.spans subTopics t2 → t1 ≠ t2 →
  newQuizTopic Practice subTopics = "Mixed Topics".
Proof.
  intros H1 H2 Hne. unfold newQuizTopic.
  rewrite bool_decide_eq_true_2; [done|].
  apply (two_elements _ t1 t2); [| |done]; apply elem_of_mainTopics; by right.
Qed.

Lemma recordOf_matches (q : State) finalAnswers finalTimes newId uid at_ (t : string) :
  matchesTopic t (QuizSpec.recordOf q finalAnswers finalTimes newId uid at_)
  ↔ quizTopic q = t.
Proof.
  unfold matchesTopic, QuizSpec.recordOf. cbn. split; [intros [_ [= ?]]; done|].
  intros ->. done.
Qed.

(** A started quiz is recorded, whenever and however it ends, under the
    topic [startQuiz] gave it. A practice quiz whose sub-topics all belong
    to one aptitude topic is recorded under that topic, so among the
    goal topics its record is selected by the accuracy query of exactly
    that one. A diagnostic test, and a practice quiz whose sub-topics
    span two topics, are recorded under a name that is no aptitude topic,
    and their records are selected by the accuracy query of none. *)
Theorem quiz_record_and_goal_topic (now : Z) (type : QuizType)
    (subTopics : list string) (difficulty : Difficulty)
    (fetched : list AptitudeQuestion) (s : Screen) (storage : LocalStorage)
    (events : list Event) (finalAnswers : list (option string))
    (finalTimes : list (option float)) (newId uid : string) (at_ : Z) :
  (0 < length fetched)%nat →
  let started := startQuiz now type subTopics difficulty (Fulfilled fetched) s storage in
  let q := (run events (quiz started.1, started.2)).1 in
  let record := QuizSpec.recordOf q finalAnswers finalTimes newId uid at_ in
  (∀ category goalTopic,
     type = Practice → category ∈ AptitudeTopic → subTopics ≠ [] →
     Forall (λ sub, sub ∈ subTopicsOf category ∧ sub ≠ "All Topics") subTopics →
     (matchesTopic goalTopic record ↔ goalTopic = category))
  ∧ (type = Diagnostic
     ∨ (∃ t1 t2, QuizSpec.spans subTopics t1 ∧ QuizSpec.spans subTopics t2 ∧ t1 ≠ t2) →
     ∀ goalTopic, goalTopic ∈ AptitudeTopic → ¬ matchesTopic goalTopic record).
Proof.
  intros Hn started q record.
  assert (Htopic : quizTopic q = newQuizTopic type subTopics).
  { apply (QuizFacts.run_steady fetched (newQuizTopic type subTopics) type).
    unfold started, startQuiz. rewrite bool_decide_eq_true_2 by done.
    cbn. split_and!; try done; [by left|]. intros _. cbn.
    by rewrite !length_replicate. }
  split.
  - intros category goalTopic -> Hc Hne Hall. unfold record.
    rewrite recordOf_matches, Htopic, (newQuizTopic_single category) by done.
    split; congruence.
  - intros Hother goalTopic Hg. unfold record. rewrite recordOf_matches, Htopic.
    assert (Hname : newQuizTopic type subTopics = "Diagnostic Test"
                    ∨ newQuizTopic type subTopics = "Mixed Topics").
    { destruct type; [|by left].
      destruct Hother as [?|(t1 & t2 & H1 & H2 & Hne)]; [done|].
      right. by apply (newQuizTopic_mixed subTopics t1 t2). }
    unfold AptitudeTopic in Hg. rewrite !elem_of_cons, elem_of_nil in Hg.
    destruct Hname as [-> | ->]; destruct Hg as [->|[->|[->|[->|[]]]]]; discriminate.
Qed.

Lemma quiz_record_and_goal_topic_witness :
  let started :=
    startQuiz Samples.sundayNoon Practice ["Percentage"; "Probability"] Medium
              (Fulfilled Samples.fiveQuestions) initialScreen None in
  let q := (run [Answer "5"] (quiz started.1, started.2)).1 in
  let record := QuizSpec.recordOf q Samples.fiveAnswers [] "h1" "u1" Samples.sundayNoon in
  (0 < length Samples.fiveQuestions)%nat
  ∧ matchesTopic QUANTITATIVE record
  ∧ ¬ matchesTopic LOGICAL_REASONING record.
Proof.
  cbv zeta.
  assert (Hn : (0 < length Samples.fiveQuestions)%nat) by (cbn; lia).
  destruct (quiz_record_and_goal_topic Samples.sundayNoon Practice
              ["Percentage"; "Probability"] Medium Samples.fiveQuestions initialScreen
              None [Answer "5"] Samples.fiveAnswers [] "h1" "u1" Samples.sundayNoon Hn)
    as [Hone _].
  assert (Hall : Forall (λ sub, sub ∈ subTopicsOf QUANTITATIVE ∧ sub ≠ "All Topics")
                        ["Percentage"; "Probability"]).
  { apply (bool_decide_unpack _). vm_compute. exact I. }
  assert (Hq : QUANTITATIVE ∈ AptitudeTopic) by apply list_elem_of_here.
  split_and!; [exact Hn| |].
  - apply (Hone QUANTITATIVE QUANTITATIVE eq_refl Hq ltac:(discriminate) Hall).
    reflexivity.
  - intros Hm.
    apply (Hone QUANTITATIVE LOGICAL_REASONING eq_refl Hq ltac:(discriminate) Hall) in Hm.
    discriminate Hm.
Defined.

(** *** Selecting every sub-topic of a topic *)

(** Ticking "All Topics" under one topic, on an empty selection, and
    starting a practice quiz starts a quiz on that topic: it is active,
    no error is shown, and its topic is that topic. Starting with
    nothing selected but "All Topics" entries starts no quiz: the error
    asks for a sub-topic and neither the quiz nor the stored snapshot is
    touched. *)
Theorem select_all_starts_topic_quiz (now : Z) (category : string)
    (fetched : list AptitudeQuestion) (s : Screen) (storage : LocalStorage) :
  category ∈ AptitudeTopic → (0 < length fetched)%nat →
  (let selected := handleSubTopicChange "All Topics" category true [] in
   let started :=
     handleStartPractice now (Fulfilled fetched) (QuizSpec.select selected s) storage in
   flow (quiz started.1) = active
   ∧ error started.1 = None
   ∧ quizTopic (quiz started.1) = category
   ∧ questions (quiz started.1) = fetched)
  ∧ (filter (λ t, t ≠ "All Topics") (selectedSubTopics s) = [] →
     let refused := handleStartPractice now (Fulfilled fetched) s storage in
     quiz refused.1 = quiz s ∧ refused.2 = storage
     ∧ error refused.1
       = Some "Please select at least one sub-topic to start the quiz.").
Proof.
  intros Hc Hn. split.
  - cbv zeta. unfold AptitudeTopic in Hc. rewrite !elem_of_cons, elem_of_nil in Hc.
    unfold handleStartPractice, startQuiz.
    destruct Hc as [->|[->|[->|[->|[]]]]];
      (rewrite (bool_decide_eq_false_2 (_ = 0%nat)) by (vm_compute; discriminate));
      rewrite bool_decide_eq_true_2 by done; cbn [fst quiz flow error quizTopic questions];
      (split_and!; [reflexivity|reflexivity| |reflexivity]); vm_compute; reflexivity.
  - intros Hnone. cbv zeta. unfold handleStartPractice. rewrite Hnone.
    rewrite bool_decide_eq_true_2 by done. done.
Qed.

Lemma select_all_starts_topic_quiz_witness :
  let selected := handleSubTopicChange "All Topics" VERBAL_ABILITY true [] in
  let started :=
    handleStartPractice Samples.sundayNoon (Fulfilled Samples.fiveQuestions)
                        (QuizSpec.select selected initialScreen) None in
  (0 < length Samples.fiveQuestions)%nat
  ∧ flow (quiz started.1) = active
  ∧ quizTopic (quiz started.1) = VERBAL_ABILITY.
Proof.
  cbv zeta.
  assert (Hn : (0 < length Samples.fiveQuestions)%nat) by (cbn; lia).
  destruct (select_all_starts_topic_quiz Samples.sundayNoon VERBAL_ABILITY
              Samples.fiveQuestions initialScreen None
              ltac:(do 2 apply list_elem_of_further; apply list_elem_of_here) Hn)
    as [(Hflow & _ & Htopic & _) _].
  split_and!; [exact Hn|exact Hflow|exact Htopic].
Defined.
End TopicFacts.

(** ** The analysis of a quiz result *)

Module AnalysisFacts.
Import AptitudePrep Analysis AnalysisSpec.

Lemma get_None {A} (key : string) (o : JsObject.t A) :
  JsObject.get key o = None ↔ key ∉ keys o.
Proof.
  unfold keys. induction o as [|[k v] o IH]; cbn.
  - split; [intros _; apply not_elem_of_nil|done].
  - rewrite not_elem_of_cons. case_bool_decide as Hk.
    + split; [done|]. intros [Hne _]. by subst.
    + rewrite IH. split; [intros ?; split; [congruence|done]|by intros [_ ?]].
Qed.

Lemma get_put {A} (key : string) (v : A) (o : JsObject.t A) :
  JsObject.get key (JsObject.put key v o) = Some v.
Proof.
  induction o as [|[k w] o IH]; cbn.
  - by rewrite bool_decide_eq_true_2.
  - case_bool_decide as Hk; cbn.
    + by rewrite bool_decide_eq_true_2.
    + by rewrite bool_decide_eq_false_2.
Qed.

Lemma keys_put_old {A} (key : string) (v : A) (o : JsObject.t A) :
  key ∈ keys o → keys (JsObject.put key v o) = keys o.
Proof.
  unfold keys. induction o as [|[k w] o IH]; cbn; intros Hin.
  - by apply elem_of_nil in Hin.
  - case_bool_decide as Hk; cbn; [done|]. f_equal. apply IH.
    apply elem_of_cons in Hin as [?|?]; [congruence|done].
Qed.

Lemma keys_put_new {A} (key : string) (v : A) (o : JsObject.t A) :
  key ∉ keys o → keys (JsObject.put key v o) = keys o ++ [key].
Proof.
  unfold keys. induction o as [|[k w] o IH]; cbn; intros Hin; [done|].
  apply not_elem_of_cons in Hin as [Hne Hin].
  rewrite bool_decide_eq_false_2 by congruence. cbn. f_equal. by apply IH.
Qed.

Lemma sum_put_new {A} (f : A → nat) (key : string) (v : A) (o : JsObject.t A) :
  key ∉ keys o →
  sum_list_with (λ kv, f kv.2) (JsObject.put key v o)
  = (sum_list_with (λ kv, f kv.2) o + f v)%nat.
Proof.
  unfold keys. induction o as [|[k w] o IH]; cbn; intros Hin; [lia|].
  apply not_elem_of_cons in Hin as [Hne Hin].
  rewrite bool_decide_eq_false_2 by congruence. cbn. rewrite IH by done. lia.
Qed.

Lemma sum_put_old {A} (f : A → nat) (key : string) (v w : A) (o : JsObject.t A) :
  JsObject.get key o = Some w →
  (sum_list_with (λ kv, f kv.2) (JsObject.put key v o) + f w
   = sum_list_with (λ kv, f kv.2) o + f v)%nat.
Proof.
  induction o as [|[k u] o IH]; cbn; [done|].
  case_bool_decide as Hk; cbn.
  - intros [= ->]. lia.
  - intros Hget. specialize (IH Hget). lia.
Qed.

(** One question more: its topic is among the keys, one more is
    counted, and one more is counted correct when its answer is. *)
Lemma tally_spec (userAnswers : list (option string))
    (timePerQuestion : list (option float)) (i : nat) (q : AptitudeQuestion)
    (o : JsObject.t Stats.t) :
  if bool_decide (topicOf q ∈ JsObject.inherited)
  then tally userAnswers timePerQuestion i q o = None
  else ∃ o', tally userAnswers timePerQuestion i q o = Some o'
       ∧ keys o' = (if decide (topicOf q ∈ keys o) then keys o
                    else keys o ++ [topicOf q])
       ∧ sum_list_with (λ kv, Stats.total kv.2) o'
         = S (sum_list_with (λ kv, Stats.total kv.2) o)
       ∧ sum_list_with (λ kv, Stats.correct kv.2) o'
         = ((if bool_decide (userAnswers !! i = Some (Some (correctAnswer q)))
             then 1 else 0)
            + sum_list_with (λ kv, Stats.correct kv.2) o)%nat.
Proof.
  unfold tally. cbv zeta. case_bool_decide as Hinh; [done|].
  destruct (JsObject.get (topicOf q) o) as [st|] eqn:Hget;
    (eexists; split; [reflexivity|]).
  - assert (Hin : topicOf q ∈ keys o).
    { destruct (decide (topicOf q ∈ keys o)) as [?|Hn]; [done|].
      apply get_None in Hn. congruence. }
    rewrite decide_True by done. rewrite Hget. cbn [default from_option id].
    split_and!.
    + by apply keys_put_old.
    + pose proof (sum_put_old Stats.total (topicOf q)
                    (Stats.mk (if bool_decide (userAnswers !! i = Some (Some (correctAnswer q)))
                               then S (Stats.correct st) else Stats.correct st)
                              (S (Stats.total st))
                              (Stats.times st
                               ++ [Js.numberOrZero (mjoin (timePerQuestion !! i))]))
                    st o Hget) as Hsum.
      cbn [Stats.total Stats.correct Stats.times] in Hsum. lia.
    + pose proof (sum_put_old Stats.correct (topicOf q)
                    (Stats.mk (if bool_decide (userAnswers !! i = Some (Some (correctAnswer q)))
                               then S (Stats.correct st) else Stats.correct st)
                              (S (Stats.total st))
                              (Stats.times st
                               ++ [Js.numberOrZero (mjoin (timePerQuestion !! i))]))
                    st o Hget) as Hsum.
      cbn [Stats.total Stats.correct Stats.times] in Hsum. case_bool_decide; lia.
  - assert (Hnin : topicOf q ∉ keys o) by by apply get_None.
    rewrite decide_False by done. rewrite get_put. cbn [default from_option id].
    assert (Hin' : topicOf q ∈ keys (JsObject.put (topicOf q) (Stats.mk 0 0 []) o)).
    { rewrite keys_put_new by done. apply elem_of_app. right. apply list_elem_of_here. }
    split_and!.
    + rewrite keys_put_old by done. by apply keys_put_new.
    + pose proof (sum_put_old Stats.total (topicOf q)
                    (Stats.mk (if bool_decide (userAnswers !! i = Some (Some (correctAnswer q)))
                               then 1%nat else 0%nat) 1
                              ([] ++ [Js.numberOrZero (mjoin (timePerQuestion !! i))]))
                    (Stats.mk 0 0 []) _ (get_put (topicOf q) (Stats.mk 0 0 []) o)) as Hsum.
      rewrite (sum_put_new Stats.total (topicOf q) (Stats.mk 0 0 []) o) in Hsum by done. cbn [Stats.total Stats.correct Stats.times] in Hsum.
      cbn [Stats.correct Stats.total Stats.times]. lia.
    + pose proof (sum_put_old Stats.correct (topicOf q)
                    (Stats.mk (if bool_decide (userAnswers !! i = Some (Some (correctAnswer q)))
                               then 1%nat else 0%nat) 1
                              ([] ++ [Js.numberOrZero (mjoin (timePerQuestion !! i))]))
                    (Stats.mk 0 0 []) _ (get_put (topicOf q) (Stats.mk 0 0 []) o)) as Hsum.
      rewrite (sum_put_new Stats.correct (topicOf q) (Stats.mk 0 0 []) o) in Hsum by done. cbn [Stats.total Stats.correct Stats.times] in Hsum.
      cbn [Stats.correct Stats.total Stats.times]. case_bool_decide; lia.
Qed.

Lemma tallyAll_None (userAnswers : list (option string))
    (timePerQuestion : list (option float)) (qs : list AptitudeQuestion) (i : nat)
    (o : JsObject.t Stats.t) :
  tallyAll userAnswers timePerQuestion qs i o = None
  ↔ Exists (λ q, topicOf q ∈ JsObject.inherited) qs.
Proof.
  revert i o. induction qs as [|q qs IH]; intros i o; cbn [tallyAll].
  - split; [done|]. intros H. by apply Exists_nil in H.
  - rewrite Exists_cons. pose proof (tally_spec userAnswers timePerQuestion i q o) as Hq.
    case_bool_decide as Hinh.
    + rewrite Hq. split; [by left|done].
    + destruct Hq as (o' & -> & _). rewrite IH. split; [by right|].
      by intros [?|?].
Qed.

Lemma tallyAll_Some (userAnswers : list (option string))
    (timePerQuestion : list (option float)) (qs : list AptitudeQuestion) (i correct : nat)
    (o o' : JsObject.t Stats.t) :
  tallyAll userAnswers timePerQuestion qs i o = Some o' →
  NoDup (keys o) →
  NoDup (keys o')
  ∧ (∀ t, t ∈ keys o' ↔ t ∈ keys o ∨ ∃ q, q ∈ qs ∧ topicOf q = t)
  ∧ sum_list_with (λ kv, Stats.total kv.2) o'
    = (sum_list_with (λ kv, Stats.total kv.2) o + length qs)%nat
  ∧ (correct + sum_list_with (λ kv, Stats.correct kv.2) o')%nat
    = countCorrect qs userAnswers i
        (correct + sum_list_with (λ kv, Stats.correct kv.2) o).
Proof.
  revert i correct o. induction qs as [|q qs IH]; intros i correct o; cbn [tallyAll].
  - intros [= <-] Hnd. split_and!; [done| |cbn; lia|done].
    intros t. split; [by left|]. intros [?|(q & Hq & _)]; [done|].
    by apply elem_of_nil in Hq.
  - pose proof (tally_spec userAnswers timePerQuestion i q o) as Hq.
    case_bool_decide as Hinh; [by rewrite Hq|].
    destruct Hq as (o1 & -> & Hkeys & Htotal & Hcorrect).
    intros Hall Hnd.
    assert (Hnd1 : NoDup (keys o1)).
    { rewrite Hkeys. destruct (decide (topicOf q ∈ keys o)) as [?|Hn]; [done|].
      apply NoDup_app. split_and!; [done| |apply NoDup_singleton].
      intros x Hx Hx'. apply list_elem_of_singleton in Hx'. by subst. }
    destruct (IH (S i) correct o1 Hall Hnd1)
      as (Hnd' & Hmem & Htot' & Hcor').
    split_and!; [done| |cbn [length]; lia|].
    + intros t. rewrite Hmem, Hkeys. split.
      * intros [Ht|(q' & Hq' & Ht)].
        -- destruct (decide (topicOf q ∈ keys o)) as [?|?]; [by left|].
           apply elem_of_app in Ht as [?|Ht]; [by left|].
           apply list_elem_of_singleton in Ht. right. exists q.
           split; [apply list_elem_of_here|done].
        -- right. exists q'. split; [by apply list_elem_of_further|done].
      * intros [Ht|(q' & Hq' & Ht)].
        -- left. destruct (decide (topicOf q ∈ keys o)); [done|].
           apply elem_of_app. by left.
        -- apply elem_of_cons in Hq' as [->|Hq'].
           ++ left. subst t. destruct (decide (topicOf q ∈ keys o)); [done|].
              apply elem_of_app. right. apply list_elem_of_here.
           ++ right. by exists q'.
    + cbn [countCorrect]. rewrite Hcor', Hcorrect.
      destruct (bool_decide (userAnswers !! i = Some (Some (correctAnswer q))));
        f_equal; lia.
Qed.

(** [Object.entries] lists every own property once. *)
Lemma entries_Permutation {A} (o : JsObject.t A) : JsObject.entries o ≡ₚ o.
Proof.
  unfold JsObject.entries, JsObject.t in *. cbv zeta. rewrite merge_sort_Permutation.
  induction o as [|kv o IH]; [done|]. cbn [omap list_omap].
  destruct (JsObject.arrayIndex kv.1) as [n|] eqn:Hn.
  - rewrite filter_cons_False by (rewrite Hn; done).
    cbn [fmap option_fmap option_map]. rewrite fmap_cons. cbn. by rewrite IH.
  - rewrite filter_cons_True by done.
    cbn [fmap option_fmap option_map]. rewrite <- Permutation_middle. by rewrite IH.
Qed.

Lemma place_one (overall : float) (sa : SpeedAccuracy) (topic : Row.t) :
  quadrantsOf (place overall sa topic) ≡ₚ quadrantsOf sa ++ [Row.subTopic topic].
Proof.
  unfold place, quadrantsOf.
  destruct (PrimFloat.leb 60 (Row.accuracy topic)),
           (PrimFloat.leb (Row.avgTime topic) (overall * tenPercentMore));
    cbn [fastAccurate slowAccurate fastInaccurate slowInaccurate];
    rewrite <- !app_assoc; repeat apply Permutation_app_head; try done;
    cbn [app]; rewrite ?app_assoc; apply Permutation_cons_append.
Qed.

Lemma place_quadrants (overall : float) (breakdown : list Row.t) (sa : SpeedAccuracy) :
  quadrantsOf (fold_left (place overall) breakdown sa)
  ≡ₚ quadrantsOf sa ++ (Row.subTopic <$> breakdown).
Proof.
  revert sa. induction breakdown as [|topic breakdown IH]; intros sa.
  - cbn. by rewrite app_nil_r.
  - cbn [fold_left]. rewrite IH, place_one, fmap_cons, <- app_assoc. done.
Qed.

Lemma analysis_breakdown (r : AptitudeQuizResult) (a : Analysis.t) :
  analysis r = Some a →
  ∃ o, tallyAll (resultUserAnswers r) (resultTimePerQuestion r) (resultQuestions r) 0 []
       = Some o
    ∧ topicBreakdown a = row <$> JsObject.entries o
    ∧ speedAccuracy a
      = fold_left (place (overallAvgTime (resultTimePerQuestion r))) (topicBreakdown a)
                  (mkSpeedAccuracy [] [] [] [])
    ∧ suggestions a
      = slowInaccurate (speedAccuracy a) ++ fastInaccurate (speedAccuracy a)
        ++ slowAccurate (speedAccuracy a).
Proof.
  unfold analysis.
  destruct (tallyAll (resultUserAnswers r) (resultTimePerQuestion r)
                     (resultQuestions r) 0 []) as [o|]; [|done].
  cbn. intros [= <-]. exists o. done.
Qed.

Lemma topics_keys (a : Analysis.t) (o : JsObject.t Stats.t) :
  topicBreakdown a = row <$> JsObject.entries o → topics a ≡ₚ keys o.
Proof.
  intros Hb. unfold topics, keys. rewrite Hb, <- list_fmap_compose.
  rewrite (entries_Permutation o). done.
Qed.

Lemma breakdown_pieces (s : State) (finalAnswers : list (option string))
    (finalTimes : list (option float)) (a : Analysis.t) :
  analysis (quizResultData s finalAnswers finalTimes) = Some a →
  NoDup (topics a)
  ∧ speedAccuracy a
    = fold_left (place (overallAvgTime finalTimes)) (topicBreakdown a)
                (mkSpeedAccuracy [] [] [] [])
  ∧ suggestions a
    = slowInaccurate (speedAccuracy a) ++ fastInaccurate (speedAccuracy a)
      ++ slowAccurate (speedAccuracy a).
Proof.
  intros Ha. destruct (analysis_breakdown _ a Ha) as (o & Ho & Hb & Hsa & Hsug).
  cbn in Ho.
  destruct (tallyAll_Some finalAnswers finalTimes (questions s) 0 0 [] o Ho)
    as (Hnd & _); [apply NoDup_nil_2|].
  split_and!; [|done|done].
  by rewrite (topics_keys a o Hb).
Qed.

(** The breakdown by sub-topic of a finished quiz accounts for every
    question exactly once. It exists unless a question's sub-topic is
    named like a property every object inherits, in which case computing
    it throws. When it exists, its rows are the distinct sub-topics of the
    questions (the unnamed ones under "General"), their totals add up to
    the number of questions, and their correct counts add up to the
    number of correct answers the result reports. *)
Theorem breakdown_accounts_for_quiz (s : State) (finalAnswers : list (option string))
    (finalTimes : list (option float)) :
  let r := quizResultData s finalAnswers finalTimes in
  (analysis r = None ↔ Exists (λ q, topicOf q ∈ JsObject.inherited) (questions s))
  ∧ ∀ a, analysis r = Some a →
      sum_list (Row.total <$> topicBreakdown a) = total r
      ∧ sum_list (Row.correct <$> topicBreakdown a) = correctAnswers r
      ∧ NoDup (topics a)
      ∧ ∀ t, t ∈ topics a ↔ ∃ q, q ∈ questions s ∧ topicOf q = t.
Proof.
  intros r. split.
  - rewrite <- (tallyAll_None finalAnswers finalTimes (questions s) 0 []).
    unfold analysis. cbn.
    destruct (tallyAll finalAnswers finalTimes (questions s) 0 []); cbn; split; done.
  - intros a Ha. destruct (analysis_breakdown r a Ha) as (o & Ho & Hb & _).
    cbn in Ho.
    destruct (tallyAll_Some finalAnswers finalTimes (questions s) 0 0 [] o Ho)
      as (Hnd & Hmem & Htot & Hcor); [apply NoDup_nil_2|].
    pose proof (topics_keys a o Hb) as Hperm.
    split_and!.
    + rewrite Hb, <- list_fmap_compose.
      change (sum_list_with id ((Row.total ∘ row) <$> JsObject.entries o))
        with (sum_list ((λ kv, Stats.total kv.2) <$> JsObject.entries o)).
      rewrite (entries_Permutation o). cbn in Htot. cbn. rewrite <- Htot.
      clear. induction o as [|kv o IH]; [done|]. cbn. by rewrite IH.
    + rewrite Hb, <- list_fmap_compose.
      change (sum_list_with id ((Row.correct ∘ row) <$> JsObject.entries o))
        with (sum_list ((λ kv, Stats.correct kv.2) <$> JsObject.entries o)).
      rewrite (entries_Permutation o). cbn in Hcor. cbn. rewrite <- Hcor.
      clear. induction o as [|kv o IH]; [done|]. cbn. by rewrite IH.
    + by rewrite Hperm.
    + intros t. rewrite Hperm, Hmem. split; [|by right].
      intros [Ht|?]; [|done]. by apply elem_of_nil in Ht.
Qed.

(** Every sub-topic of the breakdown is placed in exactly one of the four
    speed and accuracy lists, and the topics sent for improvement
    suggestions are exactly those outside the fast and accurate one. *)
Theorem every_topic_in_one_quadrant (s : State) (finalAnswers : list (option string))
    (finalTimes : list (option float)) (a : Analysis.t) :
  analysis (quizResultData s finalAnswers finalTimes) = Some a →
  quadrants a ≡ₚ topics a
  ∧ NoDup (quadrants a)
  ∧ ∀ t, t ∈ suggestions a ↔ t ∈ topics a ∧ t ∉ fastAccurate (speedAccuracy a).
Proof.
  intros Ha.
  destruct (breakdown_pieces s finalAnswers finalTimes a Ha) as (Hnd & Hsa & Hsug).
  assert (Hperm : quadrants a ≡ₚ topics a).
  { unfold quadrants, topics. rewrite Hsa.
    by rewrite (place_quadrants _ (topicBreakdown a) (mkSpeedAccuracy [] [] [] [])). }
  unfold quadrants, quadrantsOf in *.
  assert (Hndq : NoDup (quadrants a)) by by rewrite Hperm.
  split_and!; [done|done|].
  intros t. rewrite <- Hperm, Hsug.
  apply NoDup_app in Hndq as (_ & Hdisj & _).
  rewrite !elem_of_app. split.
  - intros Ht. split; [tauto|]. intros Hfast. apply (Hdisj t Hfast).
    rewrite !elem_of_app. tauto.
  - intros [[?|[?|[?|?]]] Hn]; tauto.
Qed.

Lemma every_topic_in_one_quadrant_witness :
  ∃ a, analysis (quizResultData Mixed.quiz Mixed.answers Mixed.times) = Some a
     ∧ quadrants a ≡ₚ topics a
     ∧ NoDup (quadrants a)
     ∧ ∀ t, t ∈ suggestions a ↔ t ∈ topics a ∧ t ∉ fastAccurate (speedAccuracy a).
Proof.
  destruct (analysis (quizResultData Mixed.quiz Mixed.answers Mixed.times))
    as [a|] eqn:Ha; [|vm_compute in Ha; discriminate Ha].
  exists a. split; [reflexivity|].
  exact (every_topic_in_one_quadrant Mixed.quiz Mixed.answers Mixed.times a Ha).
Defined.
End AnalysisFacts.

(** ** The clock display *)

Module FormatFacts.
Import Quiz.

Lemma to_uint_nonnil (n : N) : N.to_uint n ≠ Decimal.Nil.
Proof. destruct n; [discriminate|apply DecimalPos.Unsigned.to_uint_nonnil]. Qed.

(** Reading the digits back gives the number. *)
Lemma read_showNat (n : N) :
  N.of_uint <$> NilEmpty.uint_of_string (showNat n) = Some n.
Proof.
  unfold showNat, NilZero.string_of_uint.
  pose proof (to_uint_nonnil n) as Hn.
  destruct (N.to_uint n) eqn:Hd; [done|..];
    rewrite <- Hd, NilEmpty.usu; cbn; by rewrite DecimalN.Unsigned.of_to.
Qed.

Lemma read_padded (n : N) :
  N.of_uint <$> NilEmpty.uint_of_string ("0" +:+ showNat n) = Some n.
Proof.
  pose proof (read_showNat n) as Hn.
  change ("0" +:+ showNat n) with (String "0"%char (showNat n)).
  cbn [NilEmpty.uint_of_string].
  destruct (NilEmpty.uint_of_string (showNat n)) as [d|]; [|done].
  exact Hn.
Qed.

Lemma digits_no_colon (d : Decimal.uint) :
  ¬ In ":"%char (String.list_ascii_of_string (NilEmpty.string_of_uint d)).
Proof. induction d; cbn; [tauto|..]; intros [H|H]; solve [discriminate H|auto]. Qed.

Lemma showNat_no_colon (n : N) : ¬ In ":"%char (String.list_ascii_of_string (showNat n)).
Proof.
  unfold showNat, NilZero.string_of_uint.
  destruct (N.to_uint n) eqn:Hd; try (rewrite <- Hd; apply digits_no_colon).
  cbn. intros [H|[]]. discriminate H.
Qed.

Lemma split_at_colon (s1 s2 t1 t2 : string) :
  ¬ In ":"%char (String.list_ascii_of_string s1) →
  ¬ In ":"%char (String.list_ascii_of_string s2) →
  s1 +:+ ":" +:+ t1 = s2 +:+ ":" +:+ t2 → s1 = s2 ∧ t1 = t2.
Proof.
  revert s2. induction s1 as [|a s1 IH]; intros [|b s2]; cbn; intros H1 H2 Heq.
  - by injection Heq.
  - injection Heq as <- _. exfalso. apply H2. by left.
  - injection Heq as -> _. exfalso. apply H1. by left.
  - injection Heq as -> Heq. destruct (IH s2) as [-> ->]; [tauto|tauto|done|done].
Qed.

Lemma formatTime_nonneg (seconds : Z) :
  0 ≤ seconds →
  formatTime seconds
  = showNat (Z.to_N (seconds / 60)) +:+ ":"
    +:+ (if seconds mod 60 <? 10 then "0" else "") +:+ showNat (Z.to_N (seconds mod 60)).
Proof.
  intros Hs. unfold formatTime. cbv zeta.
  rewrite Z.rem_mod_nonneg by lia.
  assert (Hm : 0 ≤ seconds / 60) by (apply Z.div_pos; lia).
  assert (Hr : 0 ≤ seconds mod 60) by (apply Z.mod_pos_bound; lia).
  unfold showZ.
  destruct (seconds `div` 60), (seconds `mod` 60); try lia; reflexivity.
Qed.

(** The clock shows different remaining times differently: two times
    that are not negative and differ are formatted as different
    texts. *)
Theorem formatTime_distinguishes (seconds1 seconds2 : Z) :
  0 ≤ seconds1 → 0 ≤ seconds2 → seconds1 ≠ seconds2 →
  formatTime seconds1 ≠ formatTime seconds2.
Proof.
  intros H1 H2 Hne Heq. apply Hne.
  rewrite !formatTime_nonneg in Heq by done.
  apply split_at_colon in Heq as [Hmin Hsec]; [|apply showNat_no_colon..].
  assert (Hm : Z.to_N (seconds1 / 60) = Z.to_N (seconds2 / 60)).
  { pose proof (read_showNat (Z.to_N (seconds1 / 60))) as Ha.
    rewrite Hmin, read_showNat in Ha. congruence. }
  assert (Hr : Z.to_N (seconds1 mod 60) = Z.to_N (seconds2 mod 60)).
  { assert (Hread : ∀ s, N.of_uint <$> NilEmpty.uint_of_string
                           ((if s mod 60 <? 10 then "0" else "")
                            +:+ showNat (Z.to_N (s mod 60)))
                         = Some (Z.to_N (s mod 60))).
    { intros s. destruct (s mod 60 <? 10); [apply read_padded|apply read_showNat]. }
    pose proof (Hread seconds1) as Ha. rewrite Hsec, Hread in Ha. congruence. }
  assert (0 ≤ seconds1 / 60) by (apply Z.div_pos; lia).
  assert (0 ≤ seconds2 / 60) by (apply Z.div_pos; lia).
  pose proof (Z.mod_pos_bound seconds1 60 ltac:(lia)).
  pose proof (Z.mod_pos_bound seconds2 60 ltac:(lia)).
  rewrite (Z.div_mod seconds1 60), (Z.div_mod seconds2 60) by lia.
  lia.
Qed.

Lemma formatTime_distinguishes_witness :
  0 ≤ 65 ∧ 0 ≤ 125 ∧ 65 ≠ 125 ∧ formatTime 65 = "1:05" ∧ formatTime 65 ≠ formatTime 125.
Proof.
  assert (Ha : 0 ≤ 65) by lia. assert (Hb : 0 ≤ 125) by lia.
  assert (Hne : 65 ≠ 125) by lia.
  split_and!; [exact Ha|exact Hb|exact Hne|reflexivity|].
  exact (formatTime_distinguishes 65 125 Ha Hb Hne).
Defined.
End FormatFacts.

(** ** A mock interview whose background fetch fails *)

Module MockRunFacts.
Import MockInterview MockSpec MockRunSpec.

(** What holds from the start of such an interview on. *)
Lemma stranded_step (generated : Outcome Report) (e : Event) (s : State) :
  isStart e = false →
  (currentRoundIndex s = 0%nat ∧ backgroundRejected s
   ∧ Forall isAptitudeResult (roundResults s)
   ∧ Forall isAptitudeResult (finalResults s)
   ∧ technicalQuestions s = [] ∧ hrQuestions s = []
   ∧ (flow s = results → timeLeft s = 0)) →
  let s' := step generated e s in
  currentRoundIndex s' = 0%nat ∧ backgroundRejected s'
  ∧ Forall isAptitudeResult (roundResults s')
  ∧ Forall isAptitudeResult (finalResults s')
  ∧ technicalQuestions s' = [] ∧ hrQuestions s' = []
  ∧ (flow s' = results → timeLeft s' = 0).
Proof.
  intros He Hinv. cbv zeta. unfold step.
  destruct (offered e s) eqn:Hoff; [|exact Hinv].
  destruct s as [fl bg dur tl idx rr aq aa qi tq ta hq ha il lm er fr ov].
  unfold backgroundRejected in *.
  cbn [flow currentRoundIndex roundResults backgroundFetchPromise currentQuestionIndex
       finalResults technicalQuestions hrQuestions timeLeft] in Hinv.
  destruct Hinv as (-> & (p & [= ->] & Hp) & Hrr & Hfr & -> & -> & Htime).
  destruct p as [o st]. cbn in Hp. subst o.
  destruct e; cbn [isStart] in He; try discriminate He; cbn [offered] in Hoff.
  - (* SelectDuration *)
    cbn. split_and!; eauto.
  - (* BackgroundSettles *)
    unfold settleBackground. cbn. destruct st; cbn; split_and!; eauto.
  - cbn. split_and!; eauto.
  - cbn. split_and!; eauto.
  - cbn. split_and!; eauto.
  - (* ProceedToNext *)
    apply andb_prop in Hoff as [Hoff _]. apply andb_prop in Hoff as [Hfl _].
    apply bool_decide_eq_true in Hfl. cbn in Hfl. subst fl.
    unfold proceedToNext. cbn [currentRoundIndex lookup list_lookup INTERVIEW_STRUCTURE].
    case_bool_decide as Hlast.
    + cbn. destruct st; cbn; (split_and!; eauto; try discriminate);
        apply Forall_app; (split; [done|]); by repeat constructor.
    + cbn. split_and!; eauto.
  - (* Tick *)
    unfold tick. cbn [flow timeLeft].
    destruct (bool_decide (fl = active) && (0 <? tl)) eqn:Hrun; [|split_and!; eauto].
    apply andb_prop in Hrun as [Hfl%bool_decide_eq_true Htl%Z.ltb_lt]. subst fl.
    unfold timerEffect. cbn [flow timeLeft setTimeLeft].
    rewrite bool_decide_eq_true_2 by done. cbn [andb].
    destruct (tl - 1 =? 0) eqn:Hzero.
    + apply Z.eqb_eq in Hzero.
      unfold finishInterview. destruct generated as [[? ? ? []]|]; cbn;
        split_and!; eauto.
    + cbn. split_and!; eauto; discriminate.
  - (* TryAnotherMock *)
    cbn. split_and!; eauto; discriminate.
Qed.

Lemma stranded_start (generated : Outcome Report)
    (aptitude : list AptitudePrep.AptitudeQuestion) :
  let s0 := step generated (StartInterview (Fulfilled aptitude) Rejected) initialState in
  currentRoundIndex s0 = 0%nat ∧ backgroundRejected s0
  ∧ Forall isAptitudeResult (roundResults s0)
  ∧ Forall isAptitudeResult (finalResults s0)
  ∧ technicalQuestions s0 = [] ∧ hrQuestions s0 = []
  ∧ (flow s0 = results → timeLeft s0 = 0).
Proof.
  cbv zeta. unfold backgroundRejected.
  split_and!; vm_compute; eauto; try discriminate; constructor.
Qed.

Lemma run_cons (generated : Outcome Report) (e : Event) (events : list Event)
    (s : State) :
  run generated (e :: events) s = run generated events (step generated e s).
Proof. reflexivity. Qed.

Lemma stranded_run (generated : Outcome Report) (events : list Event) (s : State) :
  Forall (λ e, isStart e = false) events →
  (currentRoundIndex s = 0%nat ∧ backgroundRejected s
   ∧ Forall isAptitudeResult (roundResults s)
   ∧ Forall isAptitudeResult (finalResults s)
   ∧ technicalQuestions s = [] ∧ hrQuestions s = []
   ∧ (flow s = results → timeLeft s = 0)) →
  let s' := run generated events s in
  currentRoundIndex s' = 0%nat ∧ backgroundRejected s'
  ∧ Forall isAptitudeResult (roundResults s')
  ∧ Forall isAptitudeResult (finalResults s')
  ∧ technicalQuestions s' = [] ∧ hrQuestions s' = []
  ∧ (flow s' = results → timeLeft s' = 0).
Proof.
  intros Hev. revert s.
  induction Hev as [|e events He _ IH]; intros s Hs; [exact Hs|].
  cbv zeta. rewrite run_cons. apply IH. by apply stranded_step.
Qed.

(** When the background fetch of the technical and HR questions fails,
    the interview never leaves the aptitude round, whatever the user
    does: the round index stays 0, no technical or HR question is ever
    loaded, every accumulated and every final result is an aptitude
    result, and the interview ends only when its clock has run out. *)
Theorem failed_background_fetch_strands (generated : Outcome Report)
    (aptitude : list AptitudePrep.AptitudeQuestion) (events : list Event) :
  Forall (λ e, isStart e = false) events →
  let s := interview generated aptitude Rejected events in
  currentRoundIndex s = 0%nat
  ∧ technicalQuestions s = [] ∧ hrQuestions s = []
  ∧ Forall isAptitudeResult (roundResults s)
  ∧ Forall isAptitudeResult (finalResults s)
  ∧ (flow s = results → timeLeft s = 0).
Proof.
  intros Hev. cbv zeta. unfold interview. rewrite run_cons.
  destruct (stranded_run generated events _ Hev (stranded_start generated aptitude))
    as (H1 & _ & H3 & H4 & H5 & H6 & H7).
  split_and!; assumption.
Qed.

Lemma failed_background_fetch_strands_witness :
  let events :=
    Samples.aptitudeRound
    ++ [ProceedToNext (Fulfilled []); ProceedToNext (Fulfilled []); Tick] in
  let s := interview Samples.generatedReport Samples.thirtyQuestions Rejected events in
  Forall (λ e, isStart e = false) events
  ∧ currentRoundIndex s = 0%nat
  ∧ length (roundResults s) = 3%nat
  ∧ Forall isAptitudeResult (roundResults s).
Proof.
  cbv zeta.
  assert (Hev : Forall (λ e, isStart e = false)
                       (Samples.aptitudeRound
                        ++ [ProceedToNext (Fulfilled []); ProceedToNext (Fulfilled []);
                            Tick])).
  { apply (bool_decide_unpack _). vm_compute. exact I. }
  destruct (failed_background_fetch_strands Samples.generatedReport
              Samples.thirtyQuestions _ Hev) as (Hidx & _ & _ & Hrr & _).
  split_and!; [exact Hev|exact Hidx|vm_compute; reflexivity|exact Hrr].
Defined.
End MockRunFacts.

(** ** Question lists asked one question at a time *)

Module FallbackFacts.
Import Gemini FallbackSpec.

Lemma fallback_taken (single : nat → Result string) (count : nat)
    (response : ResponseText) :
  unusable response →
  generateMultipleQuestions single count response
  = (questions ← askOneByOne single 0 count; Returned (strings questions)).
Proof.
  unfold unusable, generateMultipleQuestions. intros Hun.
  destruct response as [v|]; [|done]. cbn in *.
  destruct (getProperty "questions" v) as [questions|e]; cbn in *; [|done].
  destruct questions; try done. by destruct (Hun items).
Qed.

(** When the response holds no list of questions, the two question-list
    generators ask for [count] questions one at a time and answer all or
    nothing: if every request is answered, exactly those [count]
    questions are returned, in the order they were asked for; if a
    request fails, the call fails with the error of the first failing
    request and returns no question at all. *)
Theorem question_fallback_all_or_nothing (single : nat → Result string) (count : nat)
    (response : ResponseText) :
  unusable response →
  (∀ qs, length qs = count → (∀ i q, qs !! i = Some q → single i = Returned q) →
         generateMultipleTechnicalQuestions single count response = Returned (strings qs)
         ∧ generateMultipleHrQuestions single count response = Returned (strings qs))
  ∧ (∀ i e, (i < count)%nat → single i = Thrown e →
            (∀ j, (j < i)%nat → ∃ q, single j = Returned q) →
            generateMultipleTechnicalQuestions single count response = Thrown e
            ∧ generateMultipleHrQuestions single count response = Thrown e).
Proof.
  intros Hun. unfold generateMultipleTechnicalQuestions, generateMultipleHrQuestions.
  rewrite (fallback_taken single count response Hun). split.
  - intros qs <- Hall. rewrite (GeminiFacts.askOneByOne_all single 0 qs Hall). done.
  - intros i e Hi He Hbefore.
    rewrite (GeminiFacts.askOneByOne_first_failure single 0 count i e Hi He Hbefore). done.
Qed.

Lemma question_fallback_all_or_nothing_witness :
  unusable noQuestions
  ∧ generateMultipleHrQuestions (λ _, Returned "Why?") 3 noQuestions
    = Returned (strings ["Why?"; "Why?"; "Why?"])
  ∧ generateMultipleTechnicalQuestions thirdFails 5 noQuestions = Thrown "quota exceeded".
Proof.
  assert (Hun : unusable noQuestions) by (intros items; discriminate).
  split_and!; [exact Hun| |].
  - apply (question_fallback_all_or_nothing (λ _, Returned "Why?") 3 noQuestions Hun).
    + reflexivity.
    + intros i q Hq. destruct i as [|[|[|i]]]; cbn in Hq; by simplify_eq.
  - apply (question_fallback_all_or_nothing thirdFails 5 noQuestions Hun) with (i := 2%nat).
    + lia.
    + reflexivity.
    + intros j Hj. exists "Why?". destruct j as [|[|j]]; [done|done|lia].
Defined.
End FallbackFacts.

(** ** The technical interview *)

Module TechnicalFacts.
Import TechnicalPrep TechnicalSpec.

Lemma settle_sound (trim : string → string) (request : Request) (response : Response)
    (s : State) :
  requestAnswered trim request →
  Forall (answered trim) (conversation s) → Forall (sound trim) (stored s) →
  Forall (answered trim) (conversation (settle request response s))
  ∧ Forall (sound trim) (stored (settle request response s))
  ∧ pending (settle request response s) = pending s.
Proof.
  intros Hreq Hconv Hstored.
  destruct request as [|newTurn|finalConversation], response as [text| | |fb rating summ report saved];
    cbn; try done.
  destruct saved; cbn; [|done]. split_and!; [done| |done].
  apply Forall_app. split; [done|]. apply Forall_singleton.
  destruct Hreq as [Hne Hall]. unfold sound, historyData. cbn.
  rewrite length_imap. split_and!; [done| |].
  - destruct finalConversation; [done|cbn; lia].
  - apply Forall_forall. intros [turn fbk] Hin.
    apply list_elem_of_lookup in Hin as [i Hi]. rewrite list_lookup_imap in Hi.
    destruct (finalConversation !! i) as [turn'|] eqn:Hturn; [|done].
    cbn in Hi. injection Hi as <- _. cbn.
    rewrite Forall_forall in Hall. apply Hall. by eapply list_elem_of_lookup_2.
Qed.

Lemma step_sound (trim : string → string) (e : Event) (s : State) :
  Forall (answered trim) (conversation s) ∧ Forall (sound trim) (stored s)
  ∧ Forall (requestAnswered trim) (pending s) →
  Forall (answered trim) (conversation (step trim e s))
  ∧ Forall (sound trim) (stored (step trim e s))
  ∧ Forall (requestAnswered trim) (pending (step trim e s)).
Proof.
  intros (Hconv & Hstored & Hpending). unfold step.
  destruct (offered e s) eqn:Hoff; [|done].
  clear Hoff. destruct e as [|text|transcript| | | |k response].
  - cbn. split_and!; [done|done|]. apply Forall_app. split; [done|].
    by apply Forall_singleton.
  - done.
  - done.
  - unfold handleSubmitAnswer. case_bool_decide as Hblank; [done|].
    cbn. split_and!; [|done|].
    + apply Forall_app. split; [done|]. by apply Forall_singleton.
    + apply Forall_app. split; [done|]. by apply Forall_singleton.
  - unfold handleEndSession. case_bool_decide as Hempty; [done|].
    cbn. split_and!; [done|done|].
    apply Forall_app. split; [done|]. apply Forall_singleton. cbn. split.
    + intros Hnil. apply Hempty. by rewrite Hnil.
    + case_bool_decide as Hblank; [done|].
      apply Forall_app. split; [done|]. by apply Forall_singleton.
  - done.
  - destruct (pending s !! k) as [request|] eqn:Hk; [|done].
    assert (Hreq : requestAnswered trim request).
    { rewrite Forall_forall in Hpending. apply Hpending.
      by eapply list_elem_of_lookup_2. }
    destruct (settle_sound trim request response (setPending (delete k (pending s)) s)
                Hreq Hconv Hstored) as (H1 & H2 & H3).
    split_and!; [done|done|]. rewrite H3. cbn. by apply Forall_delete.
Qed.

(** Whatever the user does and however the requests end, no blank answer
    is ever recorded: every turn of the conversation has an answer that
    is not blank, and every stored record counts its turns, has at least
    one turn, and holds no blank answer. *)
Theorem no_blank_answer_recorded (trim : string → string) (events : list Event) :
  let s := run trim events initialState in
  Forall (answered trim) (conversation s) ∧ Forall (sound trim) (stored s).
Proof.
  cbv zeta.
  assert (Hrun : ∀ s,
             Forall (answered trim) (conversation s) ∧ Forall (sound trim) (stored s)
             ∧ Forall (requestAnswered trim) (pending s) →
             Forall (answered trim) (conversation (run trim events s))
             ∧ Forall (sound trim) (stored (run trim events s))
             ∧ Forall (requestAnswered trim) (pending (run trim events s))).
  { induction events as [|e events IH]; intros s Hs; [done|].
    cbn. apply IH. by apply step_sound. }
  destruct (Hrun initialState) as (H1 & H2 & _); [|done].
  cbn. split_and!; constructor.
Qed.

Lemma delete_last {A} (l : list A) (x : A) : delete (length l) (l ++ [x]) = l.
Proof.
  induction l as [|a l IH]; [done|].
  change (a :: delete (length l) (l ++ [x]) = a :: l). by rewrite IH.
Qed.

Lemma submit_step (trim : string → string) (s : State) (q : string) :
  flow s = active → isLoading s = false → currentQuestion s = Some q → q ≠ "" →
  trim (currentAnswer s) ≠ "" →
  step trim SubmitAnswer s
  = mkState active (conversation s ++ [mkTurn (Some q) (currentAnswer s)])
            (finalReport s) (Some "") "" true "Preparing the next question..." None
            (pending s ++ [FollowUp (mkTurn (Some q) (currentAnswer s))]) (stored s).
Proof.
  intros Hflow Hload Hq Hne Hans. unfold step. cbn [offered].
  rewrite Hflow, Hload, Hq. cbn [truthy negb andb].
  rewrite bool_decide_eq_true_2 by done. rewrite bool_decide_eq_false_2 by done.
  cbn [negb andb]. unfold handleSubmitAnswer.
  rewrite bool_decide_eq_false_2 by done. cbv zeta. by rewrite Hflow, Hq.
Qed.

Lemma follow_up_rejected_step (trim : string → string) (s : State)
    (newTurn : ConversationTurn) (before : list Request) :
  pending s = before ++ [FollowUp newTurn] →
  step trim (Settles (length before) Rejected) s
  = mkState (flow s) (conversation s) (finalReport s) (question newTurn)
            (currentAnswer s) false (loadingMessage s)
            (Some "Failed to process your answer. You can try ending the session to get feedback on your progress so far.")
            before (stored s).
Proof.
  intros Hp. unfold step. cbn [offered]. rewrite Hp.
  rewrite lookup_app_r by lia. rewrite Nat.sub_diag. cbn [lookup list_lookup answers].
  rewrite delete_last. reflexivity.
Qed.

(** When the request for the follow-up question fails, the answered turn
    stays in the conversation, the answer field is emptied and the
    question is put back, with an error message. Answering it again
    records the same question a second time. *)
Theorem failed_follow_up_repeats_question (trim : string → string) (s : State)
    (q : string) :
  flow s = active → isLoading s = false → currentQuestion s = Some q → q ≠ "" →
  trim (currentAnswer s) ≠ "" →
  let first := mkTurn (Some q) (currentAnswer s) in
  let s1 := run trim [SubmitAnswer; Settles (length (pending s)) Rejected] s in
  conversation s1 = conversation s ++ [first]
  ∧ currentQuestion s1 = Some q ∧ currentAnswer s1 = ""
  ∧ isLoading s1 = false ∧ is_Some (error s1)
  ∧ ∀ again, trim again ≠ "" →
      conversation (run trim [TypeAnswer again; SubmitAnswer] s1)
      = conversation s ++ [first; mkTurn (Some q) again].
Proof.
  intros Hflow Hload Hq Hne Hans. cbv zeta. unfold run. cbn [fold_left].
  rewrite (submit_step trim s q) by done.
  rewrite (follow_up_rejected_step trim _ (mkTurn (Some q) (currentAnswer s)) (pending s))
    by reflexivity.
  cbn [flow conversation finalReport currentQuestion currentAnswer isLoading
       loadingMessage error pending stored question].
  split_and!; try done.
  intros again Hagain.
  match goal with
  | |- conversation (step trim SubmitAnswer (step trim (TypeAnswer again) ?s1)) = _ =>
      assert (Htyped : step trim (TypeAnswer again) s1 = setCurrentAnswer again s1)
  end.
  { unfold step. cbn. rewrite (bool_decide_eq_false_2 (q = "")) by done.
    by rewrite bool_decide_eq_true_2 by done. }
  rewrite Htyped. unfold setCurrentAnswer.
  cbn [flow conversation finalReport currentQuestion currentAnswer isLoading
       loadingMessage error pending stored].
  rewrite (submit_step trim _ q) by done. cbn [conversation currentAnswer].
  by rewrite <- app_assoc.
Qed.

Lemma failed_follow_up_repeats_question_witness :
  let s := run trimSpaces [StartInterview; Settles 0 (Text (Some "What is a closure?"));
                           TypeAnswer " A function. "] initialState in
  let s2 := run trimSpaces [SubmitAnswer; Settles 0 Rejected;
                            TypeAnswer "A function with its scope."; SubmitAnswer] s in
  flow s = active ∧ isLoading s = false
  ∧ currentQuestion s = Some "What is a closure?"
  ∧ trimSpaces (currentAnswer s) = "A function."
  ∧ conversation s2
    = [mkTurn (Some "What is a closure?") " A function. ";
       mkTurn (Some "What is a closure?") "A function with its scope."].
Proof.
  cbv zeta.
  set (s := run trimSpaces [StartInterview; Settles 0 (Text (Some "What is a closure?"));
                            TypeAnswer " A function. "] initialState).
  assert (Hflow : flow s = active) by reflexivity.
  assert (Hload : isLoading s = false) by reflexivity.
  assert (Hq : currentQuestion s = Some "What is a closure?") by reflexivity.
  assert (Hne : "What is a closure?" ≠ "") by discriminate.
  assert (Hans : trimSpaces (currentAnswer s) ≠ "") by (vm_compute; discriminate).
  destruct (failed_follow_up_repeats_question trimSpaces s "What is a closure?"
              Hflow Hload Hq Hne Hans) as (_ & _ & _ & _ & _ & Hagain).
  split_and!; [exact Hflow|exact Hload|exact Hq|vm_compute; reflexivity|].
  apply (Hagain "A function with its scope."). vm_compute. discriminate.
Defined.
End TechnicalFacts.

(** ** The group discussion *)

Module DiscussionFacts.
Import MockInterview (Outcome, Fulfilled, Rejected).
Import GroupDiscussion DiscussionSpec.

Lemma timerEffect_frame (s : State) :
  requested (timerEffect s) = requested s ∧ chatLog (timerEffect s) = chatLog s
  ∧ error (timerEffect s) = error s.
Proof. unfold timerEffect. by destruct (_ && _). Qed.

Lemma silent_step (e : Event) (s : State) :
  requested s = [] → Forall fromModeratorOrUser (chatLog s) →
  requested (step e s) = [] ∧ Forall fromModeratorOrUser (chatLog (step e s)).
Proof.
  intros Hreq Hlog. unfold step. destruct (offered e s); [|done].
  destruct e as [t|t|d|opening|transcript response spoken| |saved].
  - by destruct t.
  - done.
  - done.
  - destruct (timerEffect_frame (handleStartDiscussion opening s)) as (-> & -> & _).
    unfold handleStartDiscussion.
    destruct (truthy (selectedTopic s)); [destruct opening|]; cbn;
      (split; [done|]); [apply Forall_singleton; by left|constructor|done].
  - unfold onresult. case_bool_decide; [done|].
    unfold handleUserMessage, handleAiTurn. cbn. split; [done|].
    apply Forall_app. split; [done|]. apply Forall_singleton. by right.
  - unfold tick. destruct (_ && _); [|done].
    match goal with
    | |- context [timerEffect ?s'] =>
        destruct (timerEffect_frame s') as (-> & -> & _)
    end. done.
  - unfold handleSaveAndEnd. destruct (selectedTopic s); [|done].
    destruct (_ || _); [done|]. by destruct saved.
Qed.

Lemma silent_run (events : list Event) (s : State) :
  requested s = [] → Forall fromModeratorOrUser (chatLog s) →
  requested (run events s) = [] ∧ Forall fromModeratorOrUser (chatLog (run events s)).
Proof.
  revert s. induction events as [|e events IH]; intros s Hreq Hlog; [done|].
  change (run (e :: events) s) with (run events (step e s)).
  destruct (silent_step e s Hreq Hlog) as [Hreq' Hlog']. by apply IH.
Qed.

(** What the user says in a group discussion gets no reply. The speech
    handler is installed once, by the first render, and the AI turn it
    schedules is that render's, which has no topic selected and returns
    at once: in every run no request for AI turns is made, and the chat
    log holds nothing but the moderator's opening statement and the
    user's own messages. (The same handler, taken from a render with a
    topic selected, does make the request.) *)
Theorem spoken_message_gets_no_reply (t : Outcome (list (string * string)))
    (events : list Event) :
  let s := run events (fetchTopics t initialState) in
  requested s = []
  ∧ Forall fromModeratorOrUser (chatLog s)
  ∧ ∀ render response spoken s',
      truthy (selectedTopic render) = true →
      requested (handleAiTurn render response spoken s')
      = requested s' ++ [historyOf (chatLog render)].
Proof.
  cbv zeta.
  destruct (silent_run events (fetchTopics t initialState)) as [Hreq Hlog].
  { by destruct t. }
  { destruct t; constructor. }
  split_and!; [done|done|].
  intros render response spoken s' Htopic. unfold handleAiTurn.
  rewrite Htopic. by destruct response.
Qed.

Lemma spinner_step (e : Event) (s : State) :
  flow s = loading →
  flow (step e s) = loading ∧ error (step e s) = error s.
Proof.
  intros Hflow. unfold step, offered, screen. rewrite Hflow.
  rewrite orb_true_r. cbn [bool_decide decide_rel Screen_eq_dec].
  destruct (left s); [done|]. cbn [negb andb].
  destruct e as [t|t|d|opening|transcript response spoken| |saved]; cbn; try done.
  - unfold onresult. case_bool_decide; [done|]. done.
  - unfold tick. by rewrite Hflow.
Qed.

(** When the topics cannot be generated the component is stuck on its
    loading screen: the error message is stored but the screen that
    would show it, with its button to try again, is never reached,
    whatever happens next. *)
Theorem failed_topics_leave_spinner (events : list Event) :
  let s := run events (fetchTopics Rejected initialState) in
  screen s = Spinner
  ∧ error s = Some "Failed to generate a topic. Please check your API key.".
Proof.
  cbv zeta.
  assert (Hrun : ∀ s, flow s = loading →
                      flow (run events s) = loading ∧ error (run events s) = error s).
  { induction events as [|e events IH]; intros s Hs; [done|].
    change (run (e :: events) s) with (run events (step e s)).
    destruct (spinner_step e s Hs) as [Hflow Herr].
    destruct (IH _ Hflow) as [Hflow' Herr']. split; [done|congruence]. }
  destruct (Hrun (fetchTopics Rejected initialState) eq_refl) as [Hflow Herr].
  split; [|by rewrite Herr].
  unfold screen. rewrite Hflow. by rewrite orb_true_r.
Qed.
End DiscussionFacts.
